(** * Agentic Content Scout: the control plane, embedded and verified

    A shallow embedding of the parts of [agentic_content_scout] that the
    specification talks about: the message trimmer ([agents/base.py]) with
    the reducer that folds what it returns into the state, the
    handoff tools ([tools/handoff_tools.py]), the topic listing
    ([tools/topic_tools.py]), the web-search tool ([tools/tavily_tools.py])
    and the four stages of the Content Scout subgraph
    ([agents/content_scout.py]); and, beyond those, the other topic tools,
    the content tools ([tools/content_tools.py]), the brief storage
    ([utils/briefs.py]), the routing of the outer graph with its
    orchestrator ([core/graph.py]) and the topic state and slash commands
    of the command line ([cli/state.py], [cli/commands.py]).

    Conventions of the embedding.
    - A Python [str] is a [string]; one [ascii] stands for one character,
      so the texts covered are those over code points below 256.
    - A dynamically typed value is a [PyVal]; a [TypedDict] state is a record
      whose fields are [option]s ([None] = the key is absent).
    - A Python call that can raise returns an [Outcome]: a value, an
      exception, a LangGraph interrupt that found no resume value, or
      [Unmodelled] where the input leaves the fragment of Python and of its
      libraries that is written out here (float literals, the text of a
      dumped YAML document, the [repr] of containers, path joins with
      separators or with a name longer than the file system takes).
    - The store is a tree of directories and files as on Linux: a file
      name has at most 255 bytes, a text file is read with universal
      newlines, and a YAML file is held as the value it loads as, where
      the dump keeps the value: a string with the next-line character
      U+0085 dumped in the default style is the exception.
    - The language model, the search agent and the Tavily client are
      external: they are parameters (oracles) of the functions that call
      them. *)

From Stdlib Require Import ZArith String Ascii DecimalString OrderedTypeEx.
From stdpp Require Import gmap strings list sorting.

Set Warnings "-register-all".

Local Open Scope string_scope.
Local Open Scope list_scope.

(* ===================================================================== *)
(** * Python values, exceptions and outcomes                             *)
(* ===================================================================== *)

Module Py.

(** The values that [json.loads] and [yaml.safe_load] build and that the
    state dictionaries carry. A [dict] keeps its insertion order. *)
Inductive PyVal : Type :=
| VNone
| VBool (b : bool)
| VInt (z : Z)
| VStr (s : string)
| VList (l : list PyVal)
| VDict (d : list (string * PyVal)).

Inductive ExcClass : Type :=
| TypeError
| AttributeError
| ValueError
| KeyError
| JSONDecodeError
| FileNotFoundError
| NotADirectoryError
| IsADirectoryError
| OtherException (name : string).

(** An exception: its class and [str(e)]. *)
Record PyExc : Type := mkExc { exc_class : ExcClass; exc_msg : string }.

Inductive Outcome (A : Type) : Type :=
| Ok (a : A)
| Raise (e : PyExc)
| Interrupted (payload : PyVal)
| Unmodelled.

Arguments Ok {A} a.
Arguments Raise {A} e.
Arguments Interrupted {A} payload.
Arguments Unmodelled {A}.

Definition bind {A B : Type} (c : Outcome A) (k : A -> Outcome B) : Outcome B :=
  match c with
  | Ok a => k a
  | Raise e => Raise e
  | Interrupted p => Interrupted p
  | Unmodelled => Unmodelled
  end.

Definition raise {A : Type} (c : ExcClass) (msg : string) : Outcome A :=
  Raise (mkExc c msg).

(** [try: body except cls: handler] for a handler that does not look at
    the exception. An interrupt is not caught here: no handler of the
    sources encloses an [interrupt] call. *)
Definition try_except {A : Type} (body : Outcome A) (catches : ExcClass -> bool)
    (handler : PyExc -> Outcome A) : Outcome A :=
  match body with
  | Raise e => if catches (exc_class e) then handler e else Raise e
  | other => other
  end.

Definition is_JSONDecodeError (c : ExcClass) : bool :=
  match c with JSONDecodeError => true | _ => false end.

Definition type_name (v : PyVal) : string :=
  match v with
  | VNone => "NoneType"
  | VBool _ => "bool"
  | VInt _ => "int"
  | VStr _ => "str"
  | VList _ => "list"
  | VDict _ => "dict"
  end.

(** Truth value testing ([if v], [not v], [v or w]). *)
Definition truthy (v : PyVal) : bool :=
  match v with
  | VNone => false
  | VBool b => b
  | VInt z => negb (Z.eqb z 0)
  | VStr s => negb (String.eqb s "")
  | VList l => match l with [] => false | _ => true end
  | VDict d => match d with [] => false | _ => true end
  end.

(** [a or b] *)
Definition py_or (a b : PyVal) : PyVal := if truthy a then a else b.

Fixpoint assoc {V : Type} (k : string) (d : list (string * V)) : option V :=
  match d with
  | [] => None
  | (k', v) :: rest => if String.eqb k k' then Some v else assoc k rest
  end.

(** [d[k] = v] on an insertion-ordered dict. *)
Fixpoint dict_set {V : Type} (k : string) (v : V) (d : list (string * V))
    : list (string * V) :=
  match d with
  | [] => [(k, v)]
  | (k', v') :: rest =>
      if String.eqb k k' then (k, v) :: rest else (k', v') :: dict_set k v rest
  end.

(** [o.get(key, default)]: only a dict has the method. *)
Definition py_get (o : PyVal) (key : string) (default : PyVal) : Outcome PyVal :=
  match o with
  | VDict d => Ok (match assoc key d with Some v => v | None => default end)
  | other =>
      raise AttributeError
        ("'" +:+ type_name other +:+ "' object has no attribute 'get'")
  end.

(** [o[key]] for a string key. *)
Definition py_getitem (o : PyVal) (key : string) : Outcome PyVal :=
  match o with
  | VDict d =>
      match assoc key d with
      | Some v => Ok v
      | None => raise KeyError ("'" +:+ key +:+ "'")
      end
  | VStr _ => raise TypeError "string indices must be integers, not 'str'"
  | VList _ => raise TypeError "list indices must be integers or slices, not str"
  | other => raise TypeError ("'" +:+ type_name other +:+ "' object is not subscriptable")
  end.

(** [o.append(x)]: only a list has the method. *)
Definition py_append (o x : PyVal) : Outcome PyVal :=
  match o with
  | VList l => Ok (VList (l ++ [x]))
  | other =>
      raise AttributeError
        ("'" +:+ type_name other +:+ "' object has no attribute 'append'")
  end.

Definition hashable (v : PyVal) : bool :=
  match v with
  | VList _ | VDict _ => false
  | _ => true
  end.

(** [==] between hashable values: [bool] is a subclass of [int], so
    [True == 1]; values of unrelated types differ. *)
Definition key_eqb (a b : PyVal) : bool :=
  match a, b with
  | VNone, VNone => true
  | VBool x, VBool y => Bool.eqb x y
  | VBool x, VInt y | VInt y, VBool x => Z.eqb (if x then 1 else 0) y
  | VInt x, VInt y => Z.eqb x y
  | VStr x, VStr y => String.eqb x y
  | _, _ => false
  end.

(** [x in s] for a set [s], kept as the list of its members: hashing an
    unhashable [x] raises before any comparison. *)
Definition in_set (x : PyVal) (s : list PyVal) : Outcome bool :=
  if hashable x then Ok (existsb (key_eqb x) s)
  else raise TypeError ("unhashable type: '" +:+ type_name x +:+ "'").

(** [s.add(x)] *)
Definition set_add (x : PyVal) (s : list PyVal) : Outcome (list PyVal) :=
  bind (in_set x s) (fun present => Ok (if present then s else s ++ [x])).

(** [for x in v]: the elements of a list, the characters of a string, the
    keys of a dict. *)
Definition iterate (v : PyVal) : Outcome (list PyVal) :=
  match v with
  | VList l => Ok l
  | VStr s => Ok (map (fun c => VStr (String c EmptyString)) (list_ascii_of_string s))
  | VDict d => Ok (map (fun kv => VStr (fst kv)) d)
  | other =>
      raise TypeError ("'" +:+ type_name other +:+ "' object is not iterable")
  end.

Definition string_of_Z (z : Z) : string := NilZero.string_of_int (Z.to_int z).
Definition string_of_nat (n : nat) : string := NilZero.string_of_uint (Nat.to_uint n).

(** [str(v)] as an f-string inserts it. The [repr] of a container is not
    written out. *)
Definition py_str (v : PyVal) : Outcome string :=
  match v with
  | VNone => Ok "None"
  | VBool true => Ok "True"
  | VBool false => Ok "False"
  | VInt z => Ok (string_of_Z z)
  | VStr s => Ok s
  | VList _ | VDict _ => Unmodelled
  end.

(** ** Strings *)

(** [str.isspace] on one character below code point 256; the class [\s]
    of [re] on [str] patterns is the same set. *)
Definition isspace (c : ascii) : bool :=
  let n := nat_of_ascii c in
  (((9 <=? n) && (n <=? 13)) || ((28 <=? n) && (n <=? 32))
   || (n =? 133) || (n =? 160))%nat.

(** [str.lower] on one character below code point 256: A-Z and the
    Latin-1 capitals except the multiplication sign. *)
Definition lower_char (c : ascii) : ascii :=
  let n := nat_of_ascii c in
  if (((65 <=? n) && (n <=? 90))
      || ((192 <=? n) && (n <=? 222) && negb (n =? 215)))%nat
  then ascii_of_nat (n + 32) else c.

Fixpoint lower (s : string) : string :=
  match s with
  | EmptyString => EmptyString
  | String c rest => String (lower_char c) (lower rest)
  end.

Fixpoint lstrip (s : string) : string :=
  match s with
  | String c rest => if isspace c then lstrip rest else s
  | EmptyString => EmptyString
  end.

(** Drops the trailing whitespace: a character stays when it is not
    whitespace or when something stays after it. *)
Fixpoint rstrip (s : string) : string :=
  match s with
  | EmptyString => EmptyString
  | String c rest =>
      match rstrip rest with
      | EmptyString => if isspace c then EmptyString else String c EmptyString
      | kept => String c kept
      end
  end.

Definition strip (s : string) : string := rstrip (lstrip s).

(** [needle in hay] *)
Fixpoint contains (needle hay : string) : bool :=
  String.prefix needle hay
  || match hay with
     | EmptyString => false
     | String _ rest => contains needle rest
     end.

(** [s[:n]] *)
Fixpoint str_take (n : nat) (s : string) : string :=
  match n, s with
  | S n', String c rest => String c (str_take n' rest)
  | _, _ => EmptyString
  end.

(** [s[n:]] *)
Fixpoint str_drop (n : nat) (s : string) : string :=
  match n, s with
  | S n', String _ rest => str_drop n' rest
  | _, _ => s
  end.

(** [sep.join(parts)] *)
Definition join (sep : string) (parts : list string) : string :=
  String.concat sep parts.

Definition LF : string := String (ascii_of_nat 10) EmptyString.

(** The double quote, for the texts that hold one. *)
Definition DQ : string := String (ascii_of_nat 34) EmptyString.

End Py.

Module PyNotations.
Notation "'let*' x ':=' c 'in' k" := (Py.bind c (fun x => k))
  (at level 10, x pattern, c at level 100, k at level 200).
End PyNotations.

Import Py PyNotations.

(* ===================================================================== *)
(** * Messages and the shared conversation state ([schemas/models.py])   *)
(* ===================================================================== *)

Module Schemas.

Record ToolCall : Type := mkToolCall { tc_name : string; tc_id : string }.

Inductive Message : Type :=
| HumanMessage (content : string)
| AIMessage (content : string) (tool_calls : list ToolCall)
| ToolMessage (content : string) (tool_call_id : string).

Definition is_AIMessage (m : Message) : bool :=
  match m with AIMessage _ _ => true | _ => false end.

Definition content_of (m : Message) : string :=
  match m with
  | HumanMessage c | AIMessage c _ | ToolMessage c _ => c
  end.

(** A message as the state of an agent loop holds it. Every message
    object has an [id]; the reducer of the [messages] key gives one to a
    message that enters the state without it, so that the messages a hook
    reads from the state carry one each. *)
Record Held : Type := mkHeld {
  held_id : string;
  held_message : Message
}.

(** [AgentState]: the state a [create_agent] loop runs on. *)
Record AgentState : Type := mkAgentState {
  agent_messages : option (list Held)
}.

(** [MultiAgentState]; every key may be absent ([NotRequired]). The same
    record serves for the partial dictionaries that nodes and [Command]s
    return as updates. *)
Record MultiAgentState : Type := mkMultiAgentState {
  messages : option (list Message);
  active_agent : option string;
  topic_context : option PyVal
}.

(** [ScoutState]; a key can be present and hold [None]. The [messages]
    key it inherits from [AgentState], which no node of the subgraph reads
    or writes, is left out. *)
Record ScoutState : Type := mkScoutState {
  task : option PyVal;
  topic_slug : option PyVal;
  preferences : option PyVal;
  saved_urls : option PyVal;
  recommended : option PyVal;
  summary : option PyVal
}.

(** [state.get(key, default)] on a state dictionary. *)
Definition state_get {A : Type} (field : option A) (default : A) : A :=
  match field with Some v => v | None => default end.

End Schemas.

Import Schemas.

(* ===================================================================== *)
(** * The message trimmer ([agents/base.py])                              *)
(* ===================================================================== *)

Module Base.

Definition MAX_MESSAGES : nat := 16.

(** [messages[-n:]] for [n > 0]. *)
Definition last_n {A : Type} (n : nat) (l : list A) : list A :=
  drop (length l - n) l.

(** [trim_messages(state, runtime)]: the hook receives the loop's state
    and returns [None] or a dictionary with the one key [messages], of
    which the second component is the value. It is given here in
    state-passing form: the first component is the state object as the
    call leaves it (the body assigns to nothing), the second the value
    returned. *)
Definition trim_messages (state : AgentState)
    : AgentState * option (list Held) :=
  let messages := state_get (agent_messages state) [] in
  if (length messages <=? MAX_MESSAGES)%nat then (state, None)
  else (state, Some (last_n MAX_MESSAGES messages)).

(** ** How the agent loop folds the update of the hook

    [trim_messages] is registered as a [before_model] hook: the dictionary
    it returns is an update of the state of the loop, and the [messages]
    key of that state is declared with the reducer [add_messages] of
    LangGraph. The reducer is the framework's, not the repository's; it is
    written out here for messages that carry an id each, and without the
    [RemoveMessage] markers, which [trim_messages] never returns. *)

(** [{m.id: i for i, m in enumerate(merged)}.get(id)]: the position of the
    last message held under [id]. *)
Fixpoint index_by_id (id : string) (merged : list Held) (position : nat)
    (found : option nat) : option nat :=
  match merged with
  | [] => found
  | m :: rest =>
      index_by_id id rest (S position)
        (if String.eqb (held_id m) id then Some position else found)
  end.

(** One round of the loop over the update: a message whose id is held
    already replaces the message held under it, in its place; any other
    message is appended. *)
Definition merge_message (merged : list Held) (m : Held) : list Held :=
  match index_by_id (held_id m) merged 0 None with
  | Some existing_idx => <[existing_idx := m]> merged
  | None => merged ++ [m]
  end.

(** [add_messages(left, right)] *)
Definition add_messages (left right : list Held) : list Held :=
  fold_left merge_message right left.

End Base.

(* ===================================================================== *)
(** * [json.loads] and the fenced-block search of [re]                    *)
(* ===================================================================== *)

Module Json.

(** The decoder of the standard library, on the values it maps to
    [PyVal]. A float literal, [NaN], the infinities and a [\u] escape
    above code point 255 are [Unmodelled]. The text of a
    [JSONDecodeError] carries no position (no handler of the sources
    reads it), and the interpreter's limits on recursion depth and on the
    digits of an integer are left out. *)

Definition decode_error {A : Type} (msg : string) : Outcome A :=
  raise JSONDecodeError msg.

Definition is_json_ws (c : ascii) : bool :=
  let n := nat_of_ascii c in
  ((n =? 32) || (n =? 9) || (n =? 10) || (n =? 13))%nat.

Fixpoint skip_ws (s : string) : string :=
  match s with
  | String c rest => if is_json_ws c then skip_ws rest else s
  | EmptyString => EmptyString
  end.

Definition is_digit (c : ascii) : bool :=
  let n := nat_of_ascii c in ((48 <=? n) && (n <=? 57))%nat.

Definition digit_value (c : ascii) : Z := Z.of_nat (nat_of_ascii c - 48).

Definition hex_value (c : ascii) : option nat :=
  let n := nat_of_ascii c in
  if ((48 <=? n) && (n <=? 57))%nat then Some (n - 48)
  else if ((65 <=? n) && (n <=? 70))%nat then Some (n - 55)
  else if ((97 <=? n) && (n <=? 102))%nat then Some (n - 87)
  else None.

(** The character a one-letter escape stands for. *)
Definition simple_escape (c : ascii) : option ascii :=
  let n := nat_of_ascii c in
  if (n =? 34)%nat then Some c              (* quote *)
  else if (n =? 92)%nat then Some c         (* backslash *)
  else if (n =? 47)%nat then Some c         (* slash *)
  else if (n =? 98)%nat then Some (ascii_of_nat 8)    (* b *)
  else if (n =? 102)%nat then Some (ascii_of_nat 12)  (* f *)
  else if (n =? 110)%nat then Some (ascii_of_nat 10)  (* n *)
  else if (n =? 114)%nat then Some (ascii_of_nat 13)  (* r *)
  else if (n =? 116)%nat then Some (ascii_of_nat 9)   (* t *)
  else None.

Definition hex4 (a b c d : ascii) : option nat :=
  match hex_value a, hex_value b, hex_value c, hex_value d with
  | Some x, Some y, Some z, Some w => Some (((x * 16 + y) * 16 + z) * 16 + w)
  | _, _, _, _ => None
  end.

(** [scanstring], strict mode, from the character after the opening
    quote: the decoded text and what follows the closing quote. *)
Fixpoint scanstring (s : string) : Outcome (string * string) :=
  match s with
  | EmptyString => decode_error "Unterminated string starting at"
  | String c rest =>
      let n := nat_of_ascii c in
      if (n =? 34)%nat then Ok (EmptyString, rest)
      else if (n =? 92)%nat then
        match rest with
        | EmptyString => decode_error "Unterminated string starting at"
        | String e rest' =>
            if (nat_of_ascii e =? 117)%nat then
              match rest' with
              | String h1 (String h2 (String h3 (String h4 rest''))) =>
                  match hex4 h1 h2 h3 h4 with
                  | Some code =>
                      if (code <? 256)%nat then
                        let* (body, after) := scanstring rest'' in
                        Ok (String (ascii_of_nat code) body, after)
                      else Unmodelled
                  | None => decode_error "Invalid \uXXXX escape"
                  end
              | _ => decode_error "Invalid \uXXXX escape"
              end
            else
              match simple_escape e with
              | Some ch =>
                  let* (body, after) := scanstring rest' in
                  Ok (String ch body, after)
              | None => decode_error "Invalid \escape"
              end
        end
      else if (n <? 32)%nat then decode_error "Invalid control character at"
      else
        let* (body, after) := scanstring rest in
        Ok (String c body, after)
  end.

Fixpoint span_digits (s : string) : list ascii * string :=
  match s with
  | String c rest =>
      if is_digit c then let '(ds, after) := span_digits rest in (c :: ds, after)
      else ([], s)
  | EmptyString => ([], EmptyString)
  end.

Definition decimal_value (ds : list ascii) : Z :=
  fold_left (fun acc d => (10 * acc + digit_value d)%Z) ds 0%Z.

Definition starts_with_digit (s : string) : bool :=
  match s with String c _ => is_digit c | EmptyString => false end.

(** Does a fraction [\.[0-9]+] start here? *)
Definition has_frac (s : string) : bool :=
  match s with
  | String c rest => (nat_of_ascii c =? 46)%nat && starts_with_digit rest
  | EmptyString => false
  end.

(** Does an exponent [[eE][-+]?[0-9]+] start here? *)
Definition has_exp (s : string) : bool :=
  match s with
  | String c rest =>
      ((nat_of_ascii c =? 101) || (nat_of_ascii c =? 69))%nat
      && (starts_with_digit rest
          || match rest with
             | String sg rest' =>
                 ((nat_of_ascii sg =? 43) || (nat_of_ascii sg =? 45))%nat
                 && starts_with_digit rest'
             | EmptyString => false
             end)
  | EmptyString => false
  end.

(** [NUMBER_RE.match]: [None] when no number starts here. A literal
    with a fraction or an exponent is a float. *)
Definition match_number (s : string) : option (Outcome (PyVal * string)) :=
  let '(negative, body) :=
    match s with
    | String c rest => if (nat_of_ascii c =? 45)%nat then (true, rest) else (false, s)
    | EmptyString => (false, s)
    end in
  match body with
  | String c rest =>
      if is_digit c then
        let '(ds, after) :=
          if (nat_of_ascii c =? 48)%nat then ([], rest) else span_digits rest in
        if has_frac after || has_exp after then Some Unmodelled
        else
          let magnitude := decimal_value (c :: ds) in
          Some (Ok (VInt (if negative then (- magnitude)%Z else magnitude), after))
      else None
  | EmptyString => None
  end.

Definition build_dict (pairs : list (string * PyVal)) : list (string * PyVal) :=
  fold_left (fun d kv => dict_set (fst kv) (snd kv) d) pairs [].

(** [scan_once], with the loops of [JSONArray] and [JSONObject]. Every
    call spends one unit of [fuel]; [json_loads] provides enough of it
    for the whole text. *)
Fixpoint scan_once (fuel : nat) (s : string) : Outcome (PyVal * string) :=
  match fuel with
  | O => Unmodelled
  | S fuel' =>
      match s with
      | EmptyString => decode_error "Expecting value"
      | String c rest =>
          let n := nat_of_ascii c in
          if (n =? 34)%nat then
            let* (text, after) := scanstring rest in Ok (VStr text, after)
          else if (n =? 123)%nat then
            match skip_ws rest with
            | String c' after =>
                if (nat_of_ascii c' =? 125)%nat then Ok (VDict [], after)
                else if (nat_of_ascii c' =? 34)%nat then
                  let* (pairs, after') := object_members fuel' after in
                  Ok (VDict (build_dict pairs), after')
                else decode_error "Expecting property name enclosed in double quotes"
            | EmptyString =>
                decode_error "Expecting property name enclosed in double quotes"
            end
          else if (n =? 91)%nat then
            match skip_ws rest with
            | String c' after =>
                if (nat_of_ascii c' =? 93)%nat then Ok (VList [], after)
                else
                  let* (items, after') := array_items fuel' (skip_ws rest) in
                  Ok (VList items, after')
            | EmptyString => decode_error "Expecting value"
            end
          else if String.prefix "null" s then Ok (VNone, str_drop 4 s)
          else if String.prefix "true" s then Ok (VBool true, str_drop 4 s)
          else if String.prefix "false" s then Ok (VBool false, str_drop 5 s)
          else
            match match_number s with
            | Some r => r
            | None =>
                if String.prefix "NaN" s || String.prefix "Infinity" s
                   || String.prefix "-Infinity" s
                then Unmodelled
                else decode_error "Expecting value"
            end
      end
  end

(** From the first character of an element: the elements up to the
    closing bracket. *)
with array_items (fuel : nat) (s : string) : Outcome (list PyVal * string) :=
  match fuel with
  | O => Unmodelled
  | S fuel' =>
      let* (value, after) := scan_once fuel' s in
      match skip_ws after with
      | String c rest =>
          if (nat_of_ascii c =? 93)%nat then Ok ([value], rest)
          else if (nat_of_ascii c =? 44)%nat then
            let* (more, after') := array_items fuel' (skip_ws rest) in
            Ok (value :: more, after')
          else decode_error "Expecting ',' delimiter"
      | EmptyString => decode_error "Expecting ',' delimiter"
      end
  end

(** From the character after the opening quote of a key: the pairs up to
    the closing brace. *)
with object_members (fuel : nat) (s : string)
    : Outcome (list (string * PyVal) * string) :=
  match fuel with
  | O => Unmodelled
  | S fuel' =>
      let* (key, after_key) := scanstring s in
      match skip_ws after_key with
      | String colon after_colon =>
          if (nat_of_ascii colon =? 58)%nat then
            let* (value, after) := scan_once fuel' (skip_ws after_colon) in
            match skip_ws after with
            | String c rest =>
                if (nat_of_ascii c =? 125)%nat then Ok ([(key, value)], rest)
                else if (nat_of_ascii c =? 44)%nat then
                  match skip_ws rest with
                  | String q rest' =>
                      if (nat_of_ascii q =? 34)%nat then
                        let* (more, after') := object_members fuel' rest' in
                        Ok ((key, value) :: more, after')
                      else
                        decode_error
                          "Expecting property name enclosed in double quotes"
                  | EmptyString =>
                      decode_error
                        "Expecting property name enclosed in double quotes"
                  end
                else decode_error "Expecting ',' delimiter"
            | EmptyString => decode_error "Expecting ',' delimiter"
            end
          else decode_error "Expecting ':' delimiter"
      | EmptyString => decode_error "Expecting ':' delimiter"
      end
  end.

(** [json.loads(s)] for a [str]. *)
Definition json_loads (s : string) : Outcome PyVal :=
  let* (value, after) := scan_once (2 * String.length s + 2) (skip_ws s) in
  match skip_ws after with
  | EmptyString => Ok value
  | String _ _ => decode_error "Extra data"
  end.

End Json.

Module Re.

(** The text after the first occurrence of [needle]. *)
Fixpoint after_first (needle s : string) : option string :=
  if String.prefix needle s then Some (str_drop (String.length needle) s)
  else
    match s with
    | EmptyString => None
    | String _ rest => after_first needle rest
    end.

(** The lazy group [(.*?)] followed by [\s*] and the closing fence: the
    shortest prefix after which only whitespace separates from three
    backquotes. *)
Fixpoint lazy_group_until_fence (s : string) : option string :=
  if String.prefix "```" (lstrip s) then Some EmptyString
  else
    match s with
    | EmptyString => None
    | String c rest =>
        match lazy_group_until_fence rest with
        | Some g => Some (String c g)
        | None => None
        end
    end.

(** [re.search] of the pattern of [_search_evaluate] (an opening fence
    tagged json, [\s*], a lazy group, [\s*], a closing fence) with
    [re.DOTALL]; the result is [group(1)] of the match, [None] when there
    is no match. The leftmost opening fence decides: the greedy [\s*]
    after it takes the whole run of whitespace, and a closing fence that
    would serve a later opening fence serves the first one too. *)
Definition search_json_fence (content : string) : option string :=
  match after_first "```json" content with
  | Some after => lazy_group_until_fence (lstrip after)
  | None => None
  end.

End Re.

(* ===================================================================== *)
(** * The topic store on disk                                             *)
(* ===================================================================== *)

Module Store.

(** ** What a YAML dump keeps

    The YAML text of a document is not written out. Loading gives back
    the value dumped, with one exception among the values covered here:
    under the default style with [allow_unicode=True] the emitter writes
    the next-line character U+0085 of a string as a raw line break, which
    the loader folds into a space. (Every other character below code
    point 256 is written as itself, or escaped in a double-quoted scalar,
    and a string that would read as another type is quoted.) *)

Fixpoint holds_nel (s : string) : bool :=
  match s with
  | EmptyString => false
  | String c rest => (nat_of_ascii c =? 133)%nat || holds_nel rest
  end.

(** No string of the value, key or scalar, holds U+0085. *)
Fixpoint yaml_plain (v : PyVal) : bool :=
  match v with
  | VStr s => negb (holds_nel s)
  | VList l => forallb yaml_plain l
  | VDict d =>
      forallb (fun kv => match kv with
                         | (k, x) => negb (holds_nel k) && yaml_plain x
                         end) d
  | VNone | VBool _ | VInt _ => true
  end.

(** What a file holds: plain text (a preferences document); a YAML
    document that loads as [v]; or the YAML text that the default style
    wrote for a [v] that is not [yaml_plain]: what that text loads as is
    not written out. *)
Inductive Content : Type :=
| Text (s : string)
| Doc (v : PyVal)
| Folded (v : PyVal).

Inductive Node : Type :=
| File (c : Content)
| Dir (entries : gmap string Node).

(** A path is the list of the names below [TOPICS_DIR]; the state of the
    store is the node at [TOPICS_DIR], [None] when that directory does
    not exist. *)
Definition Path : Type := list string.
Definition FS : Type := option Node.

Definition TOPICS_DIR : Path := [].

Definition NUL : string := String (ascii_of_nat 0) EmptyString.

(** The length of the UTF-8 encoding of a text over code points below
    256, and the longest file name, in bytes, that the file system takes
    ([NAME_MAX]). *)
Fixpoint utf8_length (s : string) : nat :=
  match s with
  | EmptyString => 0
  | String c rest => (if (nat_of_ascii c <? 128)%nat then 1 else 2) + utf8_length rest
  end.

Definition NAME_MAX : nat := 255.

Definition too_long (name : string) : bool := (NAME_MAX <? utf8_length name)%nat.

Arguments too_long : simpl never.

(** [path / segment]. Joining a value that is not a string raises the
    [TypeError] of the operator; an empty segment and a single dot add
    nothing; a segment that is not one plain name is [Unmodelled], and so
    is a name longer than [NAME_MAX]: the join itself takes it, but the
    calls that follow on the path ([exists], [mkdir], [open], [rename])
    fail on it with an [OSError], or not, by the version of [pathlib]. So
    every path that the tools build holds names the file system takes. *)
Definition path_div (p : Path) (segment : PyVal) : Outcome Path :=
  match segment with
  | VStr s =>
      if String.eqb s EmptyString || String.eqb s "." then Ok p
      else if contains "/" s || String.eqb s ".." || contains NUL s || too_long s
      then Unmodelled
      else Ok (p ++ [s])
  | other =>
      raise TypeError
        ("unsupported operand type(s) for /: 'PosixPath' and '"
         +:+ type_name other +:+ "'")
  end.

(** [path.name] *)
Definition path_name (p : Path) : string := List.last p EmptyString.

Fixpoint resolve (n : Node) (p : Path) : option Node :=
  match p with
  | [] => Some n
  | name :: rest =>
      match n with
      | Dir entries =>
          match entries !! name with
          | Some child => resolve child rest
          | None => None
          end
      | File _ => None
      end
  end.

Definition lookup_path (fs : FS) (p : Path) : option Node :=
  match fs with
  | Some root => resolve root p
  | None => None
  end.

(** [path.exists()], on a path whose names the file system takes, as
    the paths built with [path_div] are. *)
Definition path_exists (fs : FS) (p : Path) : bool :=
  match lookup_path fs p with Some _ => true | None => false end.

(** [path.is_dir()] *)
Definition is_dir (fs : FS) (p : Path) : bool :=
  match lookup_path fs p with Some (Dir _) => true | _ => false end.

(** [path.iterdir()]: the children, in the order the map lists them
    (the caller sorts). *)
Definition iterdir (fs : FS) (p : Path) : Outcome (list Path) :=
  match lookup_path fs p with
  | Some (Dir entries) => Ok (map (fun kv => p ++ [fst kv]) (map_to_list entries))
  | Some (File _) => raise NotADirectoryError "[Errno 20] Not a directory"
  | None => raise FileNotFoundError "[Errno 2] No such file or directory"
  end.

(** What reading in text mode makes of the characters of a file: a
    carriage return followed by a line feed, and a carriage return alone,
    are read as one line feed ([newline=None]). *)
Fixpoint universal_newlines_from (after_cr : bool) (s : string) : string :=
  match s with
  | EmptyString => EmptyString
  | String c rest =>
      if (nat_of_ascii c =? 13)%nat
      then String (ascii_of_nat 10) (universal_newlines_from true rest)
      else if (nat_of_ascii c =? 10)%nat && after_cr
      then universal_newlines_from false rest
      else String c (universal_newlines_from false rest)
  end.

Definition universal_newlines (s : string) : string :=
  universal_newlines_from false s.

Definition CR : string := String (ascii_of_nat 13) EmptyString.

(** U+0085, the next-line character. *)
Definition NEL : string := String (ascii_of_nat 133) EmptyString.

(** [path.read_text()]; the text of a YAML document is not written
    out. *)
Definition read_text (fs : FS) (p : Path) : Outcome string :=
  match lookup_path fs p with
  | Some (File (Text s)) => Ok (universal_newlines s)
  | Some (File (Doc _)) | Some (File (Folded _)) => Unmodelled
  | Some (Dir _) => raise IsADirectoryError "[Errno 21] Is a directory"
  | None => raise FileNotFoundError "[Errno 2] No such file or directory"
  end.

(** [with open(path) as f: yaml.safe_load(f)]; an empty file loads as
    [None]. *)
Definition safe_load_file (fs : FS) (p : Path) : Outcome PyVal :=
  match lookup_path fs p with
  | Some (File (Doc v)) => Ok v
  | Some (File (Folded _)) => Unmodelled
  | Some (File (Text s)) => if String.eqb s EmptyString then Ok VNone else Unmodelled
  | Some (Dir _) => raise IsADirectoryError "[Errno 21] Is a directory"
  | None => raise FileNotFoundError "[Errno 2] No such file or directory"
  end.

(** Replace or create the file at [p] below [n]. *)
Fixpoint write_node (n : Node) (p : Path) (c : Content) : Outcome Node :=
  match p with
  | [] =>
      match n with
      | File _ => Ok (File c)
      | Dir _ => raise IsADirectoryError "[Errno 21] Is a directory"
      end
  | name :: rest =>
      match n with
      | File _ => raise NotADirectoryError "[Errno 20] Not a directory"
      | Dir entries =>
          match entries !! name with
          | Some child =>
              let* child' := write_node child rest c in
              Ok (Dir (<[name := child']> entries))
          | None =>
              match rest with
              | [] => Ok (Dir (<[name := File c]> entries))
              | _ :: _ => raise FileNotFoundError "[Errno 2] No such file or directory"
              end
          end
      end
  end.

(** What [yaml.dump(doc, f, default_flow_style=False, allow_unicode=True,
    sort_keys=False)] writes. *)
Definition dumped (doc : PyVal) : Content :=
  if yaml_plain doc then Doc doc else Folded doc.

(** [with open(path, "w") as f: yaml.dump(doc, f, ...)] in the default
    style: the whole file is replaced. *)
Definition dump_file (fs : FS) (p : Path) (doc : PyVal) : Outcome FS :=
  match fs with
  | Some root => let* root' := write_node root p (dumped doc) in Ok (Some root')
  | None => raise FileNotFoundError "[Errno 2] No such file or directory"
  end.

(** The same with [default_style] set to the double quote: every scalar
    is written double-quoted, where U+0085 is escaped, so that the text
    loads as [doc] whatever its strings hold. *)
Definition dump_file_quoted (fs : FS) (p : Path) (doc : PyVal) : Outcome FS :=
  match fs with
  | Some root => let* root' := write_node root p (Doc doc) in Ok (Some root')
  | None => raise FileNotFoundError "[Errno 2] No such file or directory"
  end.

End Store.

Import Store.

(* ===================================================================== *)
(** * Listing the topics ([tools/topic_tools.py], [agents/content_scout.py]) *)
(* ===================================================================== *)

Module TopicTools.

(** [sorted] on strings: ascending code points. *)
Definition str_le (a b : string) : Prop := String.leb a b = true.

#[export] Instance str_le_dec (a b : string) : Decision (str_le a b).
Proof. unfold str_le. apply _. Defined.

Definition sorted (l : list string) : list string := merge_sort str_le l.

(** The loop body of the listing: keep the name of a child that is a
    directory holding [preferences.md]. *)
Definition is_topic_dir (fs : FS) (path : Path) : Outcome bool :=
  if is_dir fs path then
    let* prefs := path_div path (VStr "preferences.md") in
    Ok (path_exists fs prefs)
  else Ok false.

Fixpoint collect_topics (fs : FS) (paths : list Path) (topics : list string)
    : Outcome (list string) :=
  match paths with
  | [] => Ok topics
  | path :: rest =>
      let* keep := is_topic_dir fs path in
      collect_topics fs rest (if keep then topics ++ [path_name path] else topics)
  end.

(** [get_topic_slugs()] *)
Definition get_topic_slugs (fs : FS) : Outcome (list string) :=
  let* paths := iterdir fs TOPICS_DIR in
  let* topics := collect_topics fs paths [] in
  Ok (sorted topics).

End TopicTools.

(* ===================================================================== *)
(** * The handoff tools ([tools/handoff_tools.py])                        *)
(* ===================================================================== *)

Module Handoff.

(** What a tool sees of its [ToolRuntime]. *)
Record ToolRuntime : Type := mkToolRuntime {
  rt_messages : list Message;      (* runtime.state["messages"] *)
  rt_tool_call_id : string
}.

Inductive GraphTarget : Type := PARENT.

Record Command : Type := mkCommand {
  goto : string;
  update : MultiAgentState;
  graph : GraphTarget
}.

(** [next((msg for msg in reversed(messages) if isinstance(msg, AIMessage)), None)] *)
Definition last_ai_message (msgs : list Message) : option Message :=
  List.find is_AIMessage (rev msgs).

(** [[last_ai_message, transfer_message] if last_ai_message else [transfer_message]];
    a message object is truthy. *)
Definition handoff_messages (rt : ToolRuntime) (transfer_message : Message)
    : list Message :=
  match last_ai_message (rt_messages rt) with
  | Some ai => [ai; transfer_message]
  | None => [transfer_message]
  end.

Definition handoff_to_topics (task : string) (runtime : ToolRuntime) : Command :=
  let transfer_message :=
    ToolMessage ("Transferring to TopicManager: " +:+ task) (rt_tool_call_id runtime) in
  {| goto := "agent";
     update := {| messages := Some (handoff_messages runtime transfer_message);
                  active_agent := Some "topic_manager";
                  topic_context := Some (VDict [("task", VStr task)]) |};
     graph := PARENT |}.

Definition handoff_to_scout (task topic_slug : string) (runtime : ToolRuntime)
    : Command :=
  let transfer_message :=
    ToolMessage
      ("Transferring to ContentScout: " +:+ task +:+ " (topic: " +:+ topic_slug +:+ ")")
      (rt_tool_call_id runtime) in
  {| goto := "agent";
     update := {| messages := Some (handoff_messages runtime transfer_message);
                  active_agent := Some "content_scout";
                  topic_context :=
                    Some (VDict [("task", VStr task); ("topic_slug", VStr topic_slug)]) |};
     graph := PARENT |}.

Definition handoff_to_supervisor (summary : string) (runtime : ToolRuntime)
    : Command :=
  let transfer_message :=
    ToolMessage ("TopicManager completed: " +:+ summary) (rt_tool_call_id runtime) in
  {| goto := "agent";
     update := {| messages := Some (handoff_messages runtime transfer_message);
                  active_agent := Some "supervisor";
                  topic_context := Some (VDict []) |};
     graph := PARENT |}.

(** How the outer graph folds an update into its state: [messages] has
    the appending reducer of [AgentState], the other keys take the new
    value. *)
Definition apply_update (state upd : MultiAgentState) : MultiAgentState :=
  {| messages :=
       match messages upd with
       | Some new => Some (state_get (messages state) [] ++ new)
       | None => messages state
       end;
     active_agent :=
       match active_agent upd with Some a => Some a | None => active_agent state end;
     topic_context :=
       match topic_context upd with Some c => Some c | None => topic_context state end |}.

(** The registry of [core/graph.py]. *)
Definition agent_names : list string := ["supervisor"; "topic_manager"; "content_scout"].

End Handoff.


(* ===================================================================== *)
(** * The web-search tool ([tools/tavily_tools.py])                       *)
(* ===================================================================== *)

Module Tavily.

(** One element of [results]: the block of a search hit, kept with the URL
    it was formatted from, or the line of a failed query. *)
Inductive ResultEntry : Type :=
| Hit (url : PyVal) (block : string)
| Failure (line : string).


Fixpoint hit_urls (entries : list ResultEntry) : list PyVal :=
  match entries with
  | [] => []
  | Hit url _ :: rest => url :: hit_urls rest
  | Failure _ :: rest => hit_urls rest
  end.

(** The two variables that the loops of [tavily_search] update. *)
Record SearchState : Type := mkSearchState {
  results : list ResultEntry;
  seen_urls : list PyVal
}.

(** The external calls: [tavily.search(query, search_depth="advanced",
    max_results=5)] and [urlparse(url).netloc] on a string. *)
Record Client : Type := mkClient {
  search : string -> PyExc + PyVal;
  netloc : string -> PyExc + string
}.

Definition of_sum {A : Type} (r : PyExc + A) : Outcome A :=
  match r with
  | inl e => Raise e
  | inr a => Ok a
  end.

(** A step of the loops: it may change the two variables and either goes
    on or stops with an exception; what it changed before stopping stays
    changed. *)
Definition Step (A : Type) : Type := SearchState -> SearchState * Outcome A.

Definition step_bind {A B : Type} (c : Step A) (k : A -> Step B) : Step B :=
  fun st =>
    match c st with
    | (st', Ok a) => k a st'
    | (st', Raise e) => (st', Raise e)
    | (st', Interrupted p) => (st', Interrupted p)
    | (st', Unmodelled) => (st', Unmodelled)
    end.

(** A computation that reads and writes neither variable. *)
Definition pure {A : Type} (o : Outcome A) : Step A := fun st => (st, o).

Notation "'do*' x '<-' c ';' k" := (step_bind c (fun x => k))
  (at level 10, x name, c at level 100, k at level 200).

Definition get_seen : Step (list PyVal) := fun st => (st, Ok (seen_urls st)).

Definition add_seen (url : PyVal) : Step unit :=
  fun st => ({| results := results st; seen_urls := seen_urls st ++ [url] |}, Ok tt).

Definition append_result (e : ResultEntry) : Step unit :=
  fun st => ({| results := results st ++ [e]; seen_urls := seen_urls st |}, Ok tt).

(** [try: body except Exception as e: handler(e)] *)
Definition try_step (body : Step unit) (handler : PyExc -> Step unit) : Step unit :=
  fun st =>
    match body st with
    | (st', Raise e) => handler e st'
    | other => other
    end.

Fixpoint for_each {A : Type} (body : A -> Step unit) (l : list A) : Step unit :=
  match l with
  | [] => pure (Ok tt)
  | x :: rest => do* _ <- body x; for_each body rest
  end.

(** [urlparse(url).netloc]: a value that is not a string has no [decode]. *)
Definition url_netloc (c : Client) (url : PyVal) : Outcome string :=
  match url with
  | VStr s => of_sum (netloc c s)
  | VList _ | VDict _ => Unmodelled
  | other =>
      raise AttributeError
        ("'" +:+ type_name other +:+ "' object has no attribute 'decode'")
  end.

(** [value[:300]] *)
Definition snippet_of (content : PyVal) : Outcome string :=
  match content with
  | VStr s => Ok (str_take 300 s)
  | VList _ | VDict _ => Unmodelled
  | other =>
      raise TypeError ("'" +:+ type_name other +:+ "' object is not subscriptable")
  end.

Definition format_hit (c : Client) (r url : PyVal) : Outcome string :=
  let* domain := url_netloc c url in
  let* title := py_get r "title" (VStr "No title") in
  let* content := py_get r "content" (VStr EmptyString) in
  let* snippet := snippet_of content in
  let* title_text := py_str title in
  let* url_text := py_str url in
  Ok ("**" +:+ title_text +:+ "**" +:+ LF +:+ "Source: " +:+ domain +:+ LF
      +:+ "URL: " +:+ url_text +:+ LF +:+ snippet +:+ "...").

(** The body of the inner loop, for one element [r] of the response. *)
Definition process_result (c : Client) (r : PyVal) : Step unit :=
  do* url <- pure (py_get r "url" VNone);
  if truthy url then
    do* seen <- get_seen;
    do* present <- pure (in_set url seen);
    if present then pure (Ok tt)
    else
      do* _ <- add_seen url;
      do* block <- pure (format_hit c r url);
      append_result (Hit url block)
  else pure (Ok tt).

Definition failure_line (query : string) (e : PyExc) : string :=
  "Search failed for '" +:+ query +:+ "': " +:+ exc_msg e.

(** The body of the outer loop, for one query (the call of [logger.error]
    writes to the log only). *)
Definition run_query (c : Client) (query : string) : Step unit :=
  try_step
    (do* resp <- pure (of_sum (search c query));
     do* found <- pure (py_get resp "results" (VList []));
     do* rs <- pure (iterate found);
     for_each (process_result c) rs)
    (fun e => append_result (Failure (failure_line query e))).

Definition run_queries (c : Client) (queries : list string) : Step unit :=
  for_each (run_query c) queries.

Definition initial_state : SearchState := {| results := []; seen_urls := [] |}.



End Tavily.


(* ===================================================================== *)
(** * The Content Scout subgraph ([agents/content_scout.py])              *)
(* ===================================================================== *)

Module Scout.

(** [TopicResolution], the structured output of the resolution call. *)
Record TopicResolution : Type := mkTopicResolution {
  slug : option string;
  confidence : string;
  reason : string
}.

(** The external parties of one run: the mini model with structured
    output (prompt in, resolution out), the search agent (system prompt and
    task in, the messages of its run out) and the calendar
    ([date.today().isoformat()]). Each is taken as a function: asked the
    same thing again, as happens when a suspended node is run again on a
    resume, it answers the same. *)
Record Oracles : Type := mkOracles {
  llm_resolve : string -> TopicResolution;
  search_agent : string -> string -> list Message;
  today : string
}.

(** [interrupt(payload)]: hands back the resume value when the run was
    resumed with one, suspends the run otherwise. *)
Definition interrupt (resume : option string) (payload : PyVal) : Outcome string :=
  match resume with
  | Some answer => Ok answer
  | None => Interrupted payload
  end.

(** How the subgraph folds the dictionary a node returns into its state:
    every key of the update replaces the value held, also when the new
    value is [None]. *)
Definition merge (state upd : ScoutState) : ScoutState :=
  let pick (new old : option PyVal) :=
    match new with Some v => Some v | None => old end in
  {| task := pick (task upd) (task state);
     topic_slug := pick (topic_slug upd) (topic_slug state);
     preferences := pick (preferences upd) (preferences state);
     saved_urls := pick (saved_urls upd) (saved_urls state);
     recommended := pick (recommended upd) (recommended state);
     summary := pick (summary upd) (summary state) |}.

(** ** Stage 1: resolve the topic *)

(** [_get_available_topics()]: the same body as [get_topic_slugs]. *)
Definition _get_available_topics (fs : FS) : Outcome (list string) :=
  let* paths := iterdir fs TOPICS_DIR in
  let* topics := TopicTools.collect_topics fs paths [] in
  Ok (TopicTools.sorted topics).

(** [slug in available_topics] for a slug that may be [None]. *)
Definition slug_in (s : option string) (topics : list string) : bool :=
  match s with
  | Some name => existsb (String.eqb name) topics
  | None => false
  end.

(** The truth value of [result.slug]. *)
Definition slug_truthy (s : option string) : bool :=
  match s with
  | Some name => negb (String.eqb name EmptyString)
  | None => false
  end.

Definition slug_value (s : option string) : PyVal :=
  match s with
  | Some name => VStr name
  | None => VNone
  end.

Definition slug_update (v : PyVal) : ScoutState :=
  {| task := None; topic_slug := Some v; preferences := None;
     saved_urls := None; recommended := None; summary := None |}.

Definition resolve_prompt (task topic_hint : PyVal) (available_topics : list string)
    : Outcome string :=
  let* task_text := py_str task in
  let* hint_text := py_str topic_hint in
  Ok ("Given the user's task and available topics, determine which topic they want."
      +:+ LF +:+ LF
      +:+ "User's task: " +:+ task_text +:+ LF
      +:+ "Topic hint from user: " +:+ hint_text +:+ LF +:+ LF
      +:+ "Available topics: " +:+ join ", " available_topics +:+ LF +:+ LF
      +:+ "Return the best matching topic slug, or null if unclear.").

(** The test of the matching loop for one topic. *)
Definition reply_matches (response_lower topic : string) : bool :=
  String.eqb response_lower topic
  || contains response_lower topic
  || contains topic response_lower.

(** The loop over [available_topics]: the first topic that matches. *)
Definition match_topic (response_lower : string) (available_topics : list string)
    : option string :=
  List.find (reply_matches response_lower) available_topics.

Definition NO_TOPICS_QUESTION : string :=
  "No topics found. Please create a topic first using the topic manager.".

(** [_resolve_topic(state)]; [resume] is the value the run was resumed
    with, if any. On a resume the node runs again from its top and the
    [interrupt] it reaches returns that value. *)
Definition _resolve_topic (env : Oracles) (fs : FS) (resume : option string)
    (state : ScoutState) : Outcome ScoutState :=
  let task := state_get (task state) (VStr EmptyString) in
  let topic_hint := state_get (topic_slug state) (VStr EmptyString) in
  let* available_topics := _get_available_topics fs in
  match available_topics with
  | [] =>
      let* response := interrupt resume (VDict [("question", VStr NO_TOPICS_QUESTION)]) in
      Ok (slug_update VNone)
  | _ :: _ =>
      let* prompt := resolve_prompt task topic_hint available_topics in
      let result := llm_resolve env prompt in
      if String.eqb (confidence result) "high" && slug_in (slug result) available_topics
      then Ok (slug_update (slug_value (slug result)))
      else
        let question :=
          if slug_truthy (slug result) && slug_in (slug result) available_topics
          then "Did you mean the '" +:+ default EmptyString (slug result)
               +:+ "' topic? (yes/no, or type a different topic name)"
          else "Which topic? Available: " +:+ join ", " available_topics in
        let* response := interrupt resume (VDict [("question", VStr question)]) in
        let response_lower := strip (lower response) in
        if (String.eqb response_lower "yes" || String.eqb response_lower "y")
           && slug_truthy (slug result)
        then Ok (slug_update (slug_value (slug result)))
        else
          match match_topic response_lower available_topics with
          | Some topic => Ok (slug_update (VStr topic))
          | None => Ok (slug_update VNone)
          end
  end.

(** ** Stage 2: load the context *)

Definition context_update (prefs urls : PyVal) : ScoutState :=
  {| task := None; topic_slug := None; preferences := Some prefs;
     saved_urls := Some urls; recommended := None; summary := None |}.

(** [[link["url"] for link in links]] *)
Fixpoint link_urls (links : list PyVal) : Outcome (list PyVal) :=
  match links with
  | [] => Ok []
  | link :: rest =>
      let* url := py_getitem link "url" in
      let* more := link_urls rest in
      Ok (url :: more)
  end.

(** [_load_context(state)] *)
Definition _load_context (fs : FS) (state : ScoutState) : Outcome ScoutState :=
  let topic_slug := state_get (topic_slug state) (VStr EmptyString) in
  let* topic_dir := path_div TOPICS_DIR topic_slug in
  let* prefs_file := path_div topic_dir (VStr "preferences.md") in
  let* preferences :=
    if path_exists fs prefs_file then read_text fs prefs_file
    else Ok "No preferences found." in
  let* topic_dir' := path_div TOPICS_DIR topic_slug in
  let* links_file := path_div topic_dir' (VStr "links.yaml") in
  let* saved_urls :=
    if path_exists fs links_file then
      let* doc := safe_load_file fs links_file in
      let* links := iterate (py_or doc (VList [])) in
      link_urls links
    else Ok [] in
  Ok (context_update (VStr preferences) (VList saved_urls)).

(** ** Stage 3: search and evaluate *)

Definition results_update (recs text : PyVal) : ScoutState :=
  {| task := None; topic_slug := None; preferences := None;
     saved_urls := None; recommended := Some recs; summary := Some text |}.

(** [SEARCH_EVALUATE_PROMPT.format(preferences=..., saved_urls=..., task=...)] *)
Definition search_evaluate_prompt (preferences saved_urls task : string) : string :=
  join LF
    [ "You find the single best new content for a topic.";
      EmptyString;
      "## Context";
      "Preferences:";
      preferences;
      EmptyString;
      "Already saved (skip these URLs):";
      saved_urls;
      EmptyString;
      "## Your Task";
      task;
      EmptyString;
      "## Process";
      "1. Formulate 1-2 targeted search queries based on the preferences";
      "2. Call search() with your queries";
      "3. Evaluate results against the preference criteria";
      "4. Select the ONE best match that isn't already saved";
      EmptyString;
      "## Output Format";
      "When done, respond with ONLY this JSON (no other text):";
      "```json";
      "{";
      "  " +:+ DQ +:+ "articles" +:+ DQ +:+ ": [";
      "    {" +:+ DQ +:+ "url" +:+ DQ +:+ ": " +:+ DQ +:+ "..." +:+ DQ +:+ ", "
        +:+ DQ +:+ "title" +:+ DQ +:+ ": " +:+ DQ +:+ "..." +:+ DQ +:+ ", "
        +:+ DQ +:+ "reason" +:+ DQ +:+ ": " +:+ DQ
        +:+ "Why this is the best match" +:+ DQ +:+ "}";
      "  ],";
      "  " +:+ DQ +:+ "summary" +:+ DQ +:+ ": " +:+ DQ
        +:+ "Brief description of what was found" +:+ DQ;
      "}";
      "```";
      EmptyString ].

(** ["\n".join(f"- {url}" for url in saved_urls) if saved_urls else "(none)"] *)
Fixpoint bullet_lines (urls : list PyVal) : Outcome (list string) :=
  match urls with
  | [] => Ok []
  | url :: rest =>
      let* text := py_str url in
      let* more := bullet_lines rest in
      Ok (("- " +:+ text) :: more)
  end.

Definition saved_urls_text (saved_urls : PyVal) : Outcome string :=
  if truthy saved_urls then
    let* urls := iterate saved_urls in
    let* lines := bullet_lines urls in
    Ok (join LF lines)
  else Ok "(none)".

(** The body of the [try] for the reply [content], with its handler: a
    fenced block when the search finds one, the whole reply otherwise;
    only a [JSONDecodeError] is handled. The result is the pair
    ([recommended], [summary]). *)
Definition parse_reply (content : string) : Outcome (PyVal * PyVal) :=
  try_except
    (let* data :=
       match Re.search_json_fence content with
       | Some block => Json.json_loads block
       | None => Json.json_loads content
       end in
     let* recommended := py_get data "articles" (VList []) in
     let* summary := py_get data "summary" (VStr "Found articles.") in
     Ok (recommended, summary))
    is_JSONDecodeError
    (fun _ => Ok (VList [], VStr (str_take 500 content))).

(** The extraction step: the last message that is an [AIMessage] with a
    non-empty content decides. *)
Definition extract_recommendations (messages : list Message) : Outcome (PyVal * PyVal) :=
  match
    List.find
      (fun msg => is_AIMessage msg && negb (String.eqb (content_of msg) EmptyString))
      (rev messages)
  with
  | Some msg => parse_reply (content_of msg)
  | None => Ok (VList [], VStr "No articles found.")
  end.

(** The content of a message built from a state value: a string passes. *)
Definition message_content (v : PyVal) : Outcome string :=
  match v with
  | VStr s => Ok s
  | _ => Unmodelled
  end.

(** [_search_evaluate(state)] *)
Definition _search_evaluate (env : Oracles) (state : ScoutState) : Outcome ScoutState :=
  let preferences := state_get (preferences state) (VStr EmptyString) in
  let saved_urls := state_get (saved_urls state) (VList []) in
  let task := state_get (task state) (VStr "Find relevant content") in
  let* preferences_text := py_str preferences in
  let* urls_text := saved_urls_text saved_urls in
  let* task_text := py_str task in
  let system_prompt := search_evaluate_prompt preferences_text urls_text task_text in
  let* human := message_content task in
  let messages := search_agent env system_prompt human in
  let* (recommended, summary) := extract_recommendations messages in
  Ok (results_update recommended summary).

(** ** Stage 4: save the articles *)

Definition summary_update (text : PyVal) : ScoutState :=
  {| task := None; topic_slug := None; preferences := None;
     saved_urls := None; recommended := None; summary := Some text |}.

(** [{link.get("url") for link in existing}] *)
Fixpoint url_set (links : list PyVal) (acc : list PyVal) : Outcome (list PyVal) :=
  match links with
  | [] => Ok acc
  | link :: rest =>
      let* url := py_get link "url" VNone in
      let* acc' := set_add url acc in
      url_set rest acc'
  end.

(** The record appended for an article. *)
Definition link_record (title url reason : PyVal) (date : string) : PyVal :=
  VDict [("title", title); ("url", url); ("reason", reason); ("date", VStr date)].

(** The loop over [recommended]: [existing] grows, [existing_urls] is the
    set computed before the loop. *)
Fixpoint save_loop (date : string) (articles existing_urls : list PyVal)
    (existing : PyVal) (saved_count : nat) : Outcome (PyVal * nat) :=
  match articles with
  | [] => Ok (existing, saved_count)
  | article :: rest =>
      let* url := py_get article "url" (VStr EmptyString) in
      let* fresh :=
        if truthy url then
          let* present := in_set url existing_urls in Ok (negb present)
        else Ok false in
      if fresh then
        let* title := py_get article "title" (VStr "Untitled") in
        let* reason := py_get article "reason" (VStr EmptyString) in
        let* existing' := py_append existing (link_record title url reason date) in
        save_loop date rest existing_urls existing' (S saved_count)
      else save_loop date rest existing_urls existing saved_count
  end.

(** [[a.get("url") for a in recommended if a.get("url") not in existing_urls]] *)
Fixpoint urls_not_in (articles existing_urls : list PyVal) : Outcome (list PyVal) :=
  match articles with
  | [] => Ok []
  | a :: rest =>
      let* url := py_get a "url" VNone in
      let* present := in_set url existing_urls in
      let* more := urls_not_in rest existing_urls in
      Ok (if present then more else url :: more)
  end.

(** The arrow U+2192 of the summary lines, which lies outside the
    characters of [string]: it is carried as its three UTF-8 bytes. *)
Definition ARROW : string :=
  String (ascii_of_nat 226) (String (ascii_of_nat 134) (String (ascii_of_nat 146) EmptyString)).

(** [f"  (arrow) {url}" for url in saved_urls] *)
Fixpoint arrow_lines (urls : list PyVal) : Outcome (list string) :=
  match urls with
  | [] => Ok []
  | url :: rest =>
      let* text := py_str url in
      let* more := arrow_lines rest in
      Ok (("  " +:+ ARROW +:+ " " +:+ text) :: more)
  end.

Definition DUPLICATES_NOTE : string :=
  LF +:+ LF +:+ "No new articles to save (duplicates filtered).".

(** [_save_articles(state)]: the store as the stage leaves it and the
    dictionary it returns. *)
Definition _save_articles (env : Oracles) (fs : FS) (state : ScoutState)
    : Outcome (FS * ScoutState) :=
  let topic_slug := state_get (topic_slug state) (VStr EmptyString) in
  let recommended := state_get (recommended state) (VList []) in
  if negb (truthy recommended) then
    Ok (fs, summary_update (state_get (summary state) (VStr "No articles found to save.")))
  else
    let* topic_dir := path_div TOPICS_DIR topic_slug in
    let* links_file := path_div topic_dir (VStr "links.yaml") in
    let date := today env in
    let* existing :=
      if path_exists fs links_file then
        let* doc := safe_load_file fs links_file in Ok (py_or doc (VList []))
      else Ok (VList []) in
    let* links := iterate existing in
    let* existing_urls := url_set links [] in
    let* articles := iterate recommended in
    let* (existing', saved_count) := save_loop date articles existing_urls existing 0 in
    let* fs' :=
      if (0 <? saved_count)%nat then dump_file fs links_file existing' else Ok fs in
    let original_summary := state_get (summary state) (VStr EmptyString) in
    let* original_text := py_str original_summary in
    if (0 <? saved_count)%nat then
      let* candidates := urls_not_in articles existing_urls in
      let saved_urls := take saved_count candidates in
      let* lines := arrow_lines saved_urls in
      let* slug_text := py_str topic_slug in
      Ok (fs', summary_update
                 (VStr (original_text +:+ LF +:+ LF +:+ "Saved to " +:+ slug_text +:+ ":"
                        +:+ LF +:+ join LF lines)))
    else
      Ok (fs', summary_update (VStr (original_text +:+ DUPLICATES_NOTE))).

(** ** The subgraph and the worker *)

(** The compiled subgraph: the four nodes in their fixed order, each
    update folded into the state before the next node runs. *)
Definition graph_invoke (env : Oracles) (fs : FS) (resume : option string)
    (input : ScoutState) : Outcome (FS * ScoutState) :=
  let* u1 := _resolve_topic env fs resume input in
  let s1 := merge input u1 in
  let* u2 := _load_context fs s1 in
  let s2 := merge s1 u2 in
  let* u3 := _search_evaluate env s2 in
  let s3 := merge s2 u3 in
  let* (fs', u4) := _save_articles env fs s3 in
  Ok (fs', merge s3 u4).

Module ContentScout.

Definition name : string := "content_scout".

(** [ContentScout.invoke(state)]: the store as the run leaves it and the
    update handed to the outer graph. *)
Definition invoke (env : Oracles) (fs : FS) (resume : option string)
    (state : MultiAgentState) : Outcome (FS * MultiAgentState) :=
  let topic_context := state_get (topic_context state) (VDict []) in
  let* task := py_get topic_context "task" (VStr "Find relevant content") in
  let* topic_slug := py_get topic_context "topic_slug" (VStr EmptyString) in
  let* (fs', result) :=
    graph_invoke env fs resume
      {| Schemas.task := Some task; Schemas.topic_slug := Some topic_slug;
         preferences := None; saved_urls := None; recommended := None;
         summary := None |} in
  let summary := state_get (summary result) (VStr "Scout completed.") in
  let* content := message_content summary in
  Ok (fs', {| messages := Some [AIMessage content []];
              active_agent := Some "supervisor";
              topic_context := Some (VDict []) |}).

End ContentScout.

End Scout.


(* ===================================================================== *)
(** * Vocabulary of the statements                                        *)
(* ===================================================================== *)

Module Props.

Import TopicTools Handoff Tavily Scout.

(** ** Topic listing *)

(** The loop test of the listing as a boolean: the join with
    [preferences.md] cannot fail. *)
Definition topic_dirb (fs : FS) (path : Path) : bool :=
  is_dir fs path && path_exists fs (path ++ ["preferences.md"]).

(** ** Handoffs *)

(** The message sequence of [after] is the one of [before], then whatever
    the update carries along, then [note] as the last message. *)
Definition appends_note (before after : MultiAgentState) (note : Message) : Prop :=
  exists carried,
    messages after = Some (state_get (messages before) [] ++ carried ++ [note]).

(** ** Web search *)

(** No two members are equal as set keys. *)
Fixpoint all_distinct (l : list PyVal) : bool :=
  match l with
  | [] => true
  | x :: rest => negb (existsb (key_eqb x) rest) && all_distinct rest
  end.








(** ** Saving *)

(** The value the saving loop reads as the URL of an article. *)
Definition article_url (article : PyVal) : PyVal :=
  match article with
  | VDict d => default (VStr EmptyString) (assoc "url" d)
  | _ => VNone
  end.

(** The value under [url] as [link.get("url")] reads it. *)
Definition link_url (link : PyVal) : PyVal :=
  match link with
  | VDict d => default VNone (assoc "url" d)
  | _ => VNone
  end.

(** The URL of the article is the URL of one of the links. *)
Definition on_file (links : list PyVal) (article : PyVal) : bool :=
  existsb (key_eqb (article_url article)) (map link_url links).

(** The recommendations to append, given the links on file: those with
    a truthy URL that no link on file carries, in the order recommended. *)
Definition to_append (links articles : list PyVal) : list PyVal :=
  filter (fun a => truthy (article_url a) && negb (on_file links a) = true) articles.

(** The test of the saving loop: a truthy URL that is not a member of the
    URLs loaded from the file. *)
Definition is_new (existing_urls : list PyVal) (article : PyVal) : bool :=
  truthy (article_url article)
  && negb (existsb (key_eqb (article_url article)) existing_urls).

(** The record appended for an article. *)
Definition stamped (date : string) (article : PyVal) : PyVal :=
  match article with
  | VDict d =>
      link_record (default (VStr "Untitled") (assoc "title" d))
        (article_url article)
        (default (VStr EmptyString) (assoc "reason" d)) date
  | _ => VNone
  end.


(** The list the saving stage starts from: the document of the links file,
    or the empty list when the file is absent or its document is falsy. *)
Definition load_existing (fs : FS) (links_file : Path) : Outcome PyVal :=
  if path_exists fs links_file then
    let* doc := safe_load_file fs links_file in Ok (py_or doc (VList []))
  else Ok (VList []).

(** A dict whose [url], when it has one, can be a set member: the shape
    of a saved link and of a recommended article. *)
Definition dict_with_scalar_url (v : PyVal) : Prop :=
  exists d, v = VDict d
            /\ match assoc "url" d with Some u => hashable u = true | None => True end.

(** How many links of a document carry the URL [url]. *)
Definition count_url (url : PyVal) (doc : PyVal) : nat :=
  match doc with
  | VList links => length (filter (fun l => key_eqb (article_url l) url = true) links)
  | _ => 0
  end.

(** ** Resolution of a reply *)

Definition affirmative (response_lower : string) : bool :=
  String.eqb response_lower "yes" || String.eqb response_lower "y".



End Props.

(* ===================================================================== *)
(** * Sample stores, oracles and runs                                     *)
(* ===================================================================== *)

Module Samples.

Import Handoff Tavily Scout.

Definition preferences_file : Node := File (Text "# Topic").

(** A topics directory that exists and holds nothing. *)
Definition empty_store : FS := Some (Dir ∅).

(** Two topics, and a directory [stray] that holds a links file and no
    preferences. *)
Definition two_topics : FS :=
  Some (Dir (<["ai-safety" := Dir (<["preferences.md" := preferences_file]> ∅)]>
            (<["metroidvania-games" := Dir (<["preferences.md" := preferences_file]> ∅)]>
            (<["stray" := Dir (<["links.yaml" := File (Doc (VList []))]> ∅)]> ∅)))).

Definition article (url : string) : PyVal :=
  VDict [("url", VStr url); ("title", VStr "T"); ("reason", VStr "R")].

Definition untitled_no_url : PyVal := VDict [("title", VStr "A")].

(** A model that cannot tell the topic, and a search agent whose last
    reply is the bare number 42. *)
Definition unsure : Oracles :=
  {| llm_resolve := fun _ => {| slug := None; confidence := "low"; reason := "unclear" |};
     search_agent := fun _ _ => [AIMessage "42" []];
     today := "2026-01-01" |}.

(** A model that is sure of [ai-safety], and a search agent that answers
    with a fenced block recommending one article. *)
Definition fenced_reply : string :=
  "Here you go:" +:+ LF +:+ "```json" +:+ LF
  +:+ "{" +:+ DQ +:+ "articles" +:+ DQ +:+ ":[{"
  +:+ DQ +:+ "url" +:+ DQ +:+ ":" +:+ DQ +:+ "https://x" +:+ DQ +:+ ","
  +:+ DQ +:+ "title" +:+ DQ +:+ ":" +:+ DQ +:+ "T" +:+ DQ +:+ ","
  +:+ DQ +:+ "reason" +:+ DQ +:+ ":" +:+ DQ +:+ "R" +:+ DQ +:+ "}],"
  +:+ DQ +:+ "summary" +:+ DQ +:+ ":" +:+ DQ +:+ "S" +:+ DQ +:+ "}"
  +:+ LF +:+ "```".

Definition sure : Oracles :=
  {| llm_resolve :=
       fun _ => {| slug := Some "ai-safety"; confidence := "high"; reason := "named" |};
     search_agent := fun _ _ => [HumanMessage "find"; AIMessage fenced_reply []];
     today := "2026-01-01" |}.

Definition scout_input : ScoutState :=
  {| task := Some (VStr "find AI papers"); topic_slug := Some (VStr EmptyString);
     preferences := None; saved_urls := None; recommended := None; summary := None |}.

(** The state the saving stage is entered with, for topic [ai-safety]. *)
Definition save_input (recs : list PyVal) : ScoutState :=
  {| task := None; topic_slug := Some (VStr "ai-safety"); preferences := None;
     saved_urls := None; recommended := Some (VList recs);
     summary := Some (VStr "S") |}.

Definition ai_links : Path := ["ai-safety"; "links.yaml"].

Definition handed_to_scout : MultiAgentState :=
  {| messages := Some [HumanMessage "find AI papers"];
     active_agent := Some "content_scout";
     topic_context :=
       Some (VDict [("task", VStr "find AI papers"); ("topic_slug", VStr "ai-safety")]) |}.

(** The store and the update that the run of [sure] on [two_topics] for
    [handed_to_scout] ends with. *)
Definition store_after_run : FS :=
  Some (Dir (<["ai-safety" :=
                Dir (<["links.yaml" :=
                        File (Doc (VList [link_record (VStr "T") (VStr "https://x")
                                            (VStr "R") "2026-01-01"]))]>
                     (<["preferences.md" := preferences_file]> ∅))]>
            (<["metroidvania-games" := Dir (<["preferences.md" := preferences_file]> ∅)]>
            (<["stray" := Dir (<["links.yaml" := File (Doc (VList []))]> ∅)]> ∅)))).

Definition handback : MultiAgentState :=
  {| messages :=
       Some [AIMessage ("S" +:+ LF +:+ LF +:+ "Saved to ai-safety:" +:+ LF
                        +:+ "  " +:+ ARROW +:+ " https://x") []];
     active_agent := Some "supervisor";
     topic_context := Some (VDict []) |}.

(** Twenty messages as the state of an agent loop holds them, with the
    ids 1 to 20. *)
Definition twenty : list Held :=
  map (fun n => mkHeld (string_of_nat n) (HumanMessage ("message " +:+ string_of_nat n)))
    (seq 1 20).

Definition sample_runtime : ToolRuntime :=
  {| rt_messages := [HumanMessage "hi"; AIMessage EmptyString [mkToolCall "handoff_to_scout" "call_1"]];
     rt_tool_call_id := "call_1" |}.

Definition hit (url : string) : PyVal :=
  VDict [("url", VStr url); ("title", VStr "T"); ("content", VStr "text")].



End Samples.


(* ===================================================================== *)
(** * File operations of the topic tools                                  *)
(* ===================================================================== *)

Module StoreOps.

Definition FileExistsError : ExcClass := OtherException "FileExistsError".

Definition OSError : ExcClass := OtherException "OSError".

(** [path.mkdir(parents=True)] below a node that may be absent: missing
    parents are created, an existing target is an error, and so is a name
    longer than [NAME_MAX]. *)
Fixpoint mkdir_at (n : option Node) (p : Path) : Outcome Node :=
  match p with
  | [] =>
      match n with
      | None => Ok (Dir ∅)
      | Some _ => raise FileExistsError "[Errno 17] File exists"
      end
  | name :: rest =>
      match n with
      | None =>
          if too_long name then raise OSError "[Errno 36] File name too long"
          else let* child := mkdir_at None rest in Ok (Dir (<[name := child]> ∅))
      | Some (File _) => raise NotADirectoryError "[Errno 20] Not a directory"
      | Some (Dir entries) =>
          if too_long name then raise OSError "[Errno 36] File name too long"
          else
            let* child := mkdir_at (entries !! name) rest in
            Ok (Dir (<[name := child]> entries))
      end
  end.

Definition mkdir_parents (fs : FS) (p : Path) : Outcome FS :=
  let* root := mkdir_at fs p in Ok (Some root).

(** [path.write_text(text)] *)
Definition write_text (fs : FS) (p : Path) (text : string) : Outcome FS :=
  match fs with
  | Some root => let* root' := write_node root p (Text text) in Ok (Some root')
  | None => raise FileNotFoundError "[Errno 2] No such file or directory"
  end.

(** Remove the directory at [p] below [n] with all it holds; [None] when
    [n] itself goes. *)
Fixpoint remove_node (n : Node) (p : Path) : Outcome (option Node) :=
  match p with
  | [] =>
      match n with
      | Dir _ => Ok None
      | File _ => raise NotADirectoryError "[Errno 20] Not a directory"
      end
  | name :: rest =>
      match n with
      | File _ => raise NotADirectoryError "[Errno 20] Not a directory"
      | Dir entries =>
          match entries !! name with
          | Some child =>
              let* remaining := remove_node child rest in
              Ok (Some (Dir (match remaining with
                             | Some child' => <[name := child']> entries
                             | None => delete name entries
                             end)))
          | None => raise FileNotFoundError "[Errno 2] No such file or directory"
          end
      end
  end.

(** [shutil.rmtree(path)] *)
Definition rmtree (fs : FS) (p : Path) : Outcome FS :=
  match fs with
  | Some root => remove_node root p
  | None => raise FileNotFoundError "[Errno 2] No such file or directory"
  end.

(** [old.rename(new)] between two entries of the topics directory, the
    target being absent and its name one the file system takes; other
    shapes are [Unmodelled]. *)
Definition rename_path (fs : FS) (old new : Path) : Outcome FS :=
  match fs, old, new with
  | Some (Dir entries), [o], [n] =>
      match entries !! o, entries !! n with
      | Some node, None =>
          if too_long n then raise OSError "[Errno 36] File name too long"
          else Ok (Some (Dir (<[n := node]> (delete o entries))))
      | None, _ => raise FileNotFoundError "[Errno 2] No such file or directory"
      | Some _, Some _ => Unmodelled
      end
  | _, _, _ => Unmodelled
  end.

End StoreOps.

(* ===================================================================== *)
(** * The topic tools, continued ([tools/topic_tools.py])                 *)
(* ===================================================================== *)

Module TopicCrud.

Import StoreOps TopicTools.

(** ["\n".join(f"- {t}" for t in topics)] *)
Definition bullet_list (topics : list string) : string :=
  join LF (map (fun t => "- " +:+ t) topics).

(** [list_topics()] *)
Definition list_topics (fs : FS) : Outcome string :=
  let* topics := get_topic_slugs fs in
  match topics with
  | [] => Ok "No topics found."
  | _ :: _ => Ok ("Topics:" +:+ LF +:+ bullet_list topics)
  end.

(** [create_topic(slug, preferences_content)]: the store as the tool
    leaves it and the message it returns. *)
Definition create_topic (fs : FS) (slug preferences_content : string)
    : Outcome (FS * string) :=
  let* topic_dir := path_div TOPICS_DIR (VStr slug) in
  if path_exists fs topic_dir then Ok (fs, "Topic '" +:+ slug +:+ "' already exists.")
  else
    let* fs1 := mkdir_parents fs topic_dir in
    let* prefs_file := path_div topic_dir (VStr "preferences.md") in
    let* fs2 := write_text fs1 prefs_file preferences_content in
    Ok (fs2, "Created topic '" +:+ slug +:+ "'.").

(** [delete_topic(slug)] *)
Definition delete_topic (fs : FS) (slug : string) : Outcome (FS * string) :=
  let* topic_dir := path_div TOPICS_DIR (VStr slug) in
  if negb (path_exists fs topic_dir) then Ok (fs, "Topic '" +:+ slug +:+ "' not found.")
  else
    let* prefs_file := path_div topic_dir (VStr "preferences.md") in
    if negb (path_exists fs prefs_file) then
      Ok (fs, "'" +:+ slug +:+ "' exists but has no preferences.md - not a valid topic.")
    else
      let* fs' := rmtree fs topic_dir in
      Ok (fs', "Deleted topic '" +:+ slug +:+ "'.").




(** [update_topic(slug, preferences_content)] *)
Definition update_topic (fs : FS) (slug preferences_content : string)
    : Outcome (FS * string) :=
  let* topic_dir := path_div TOPICS_DIR (VStr slug) in
  let* prefs_file := path_div topic_dir (VStr "preferences.md") in
  if negb (path_exists fs prefs_file) then Ok (fs, "Topic '" +:+ slug +:+ "' not found.")
  else
    let* fs' := write_text fs prefs_file preferences_content in
    Ok (fs', "Updated preferences for '" +:+ slug +:+ "'.").

(** [s.replace(" ", "-")] *)
Fixpoint spaces_to_hyphens (s : string) : string :=
  match s with
  | EmptyString => EmptyString
  | String c rest =>
      String (if (nat_of_ascii c =? 32)%nat then ascii_of_nat 45 else c)
        (spaces_to_hyphens rest)
  end.

(** [to_slug(name)] *)
Definition to_slug (name : string) : string :=
  spaces_to_hyphens (strip (lower name)).

(** [rename_topic(old_slug, new_name)] *)
Definition rename_topic (fs : FS) (old_slug new_name : string) : Outcome (FS * string) :=
  let* old_dir := path_div TOPICS_DIR (VStr old_slug) in
  if negb (path_exists fs old_dir) then Ok (fs, "Topic '" +:+ old_slug +:+ "' not found.")
  else
    let new_slug := to_slug new_name in
    let* new_dir := path_div TOPICS_DIR (VStr new_slug) in
    if path_exists fs new_dir then
      Ok (fs, "Cannot rename: '" +:+ new_slug +:+ "' already exists.")
    else
      let* fs' := rename_path fs old_dir new_dir in
      Ok (fs', "Renamed '" +:+ old_slug +:+ "' to '" +:+ new_slug +:+ "'.").

End TopicCrud.

(* ===================================================================== *)
(** * The content tools ([tools/content_tools.py])                        *)
(* ===================================================================== *)

Module ContentTools.

(** [v == url] for a string [url]: only an equal string is equal. *)
Definition eq_str (v : PyVal) (url : string) : bool :=
  match v with
  | VStr s => String.eqb s url
  | _ => false
  end.

(** [any(link.get("url") == url for link in existing)]: the search stops at
    the first link that carries [url]. *)
Fixpoint any_link_has (links : list PyVal) (url : string) : Outcome bool :=
  match links with
  | [] => Ok false
  | link :: rest =>
      let* u := py_get link "url" VNone in
      if eq_str u url then Ok true else any_link_has rest url
  end.

(** [save_article(slug, title, url, reason)]; [today] is
    [date.today().isoformat()]. *)
Definition save_article (today : string) (fs : FS) (slug title url reason : string)
    : Outcome (FS * string) :=
  let* topic_dir := path_div TOPICS_DIR (VStr slug) in
  if negb (path_exists fs topic_dir) then Ok (fs, "Topic '" +:+ slug +:+ "' not found.")
  else
    let* links_file := path_div topic_dir (VStr "links.yaml") in
    let* existing :=
      if path_exists fs links_file then
        let* doc := safe_load_file fs links_file in Ok (py_or doc (VList []))
      else Ok (VList []) in
    let* links := iterate existing in
    let* duplicate := any_link_has links url in
    if duplicate then Ok (fs, "Article already saved: " +:+ url)
    else
      let* existing' :=
        py_append existing
          (VDict [("title", VStr title); ("url", VStr url); ("reason", VStr reason);
                  ("date", VStr today)]) in
      let* fs' := dump_file fs links_file existing' in
      Ok (fs', "Saved '" +:+ title +:+ "' to " +:+ slug +:+ ".").


End ContentTools.

(* ===================================================================== *)
(** * The brief storage ([utils/briefs.py])                               *)
(* ===================================================================== *)

Module Briefs.

(** [CuratedArticle] and [CurationOutput] of [schemas/models.py]. *)
Record CuratedArticle : Type := mkCuratedArticle {
  art_url : string;
  art_title : string;
  art_reason : string
}.

Record CurationOutput : Type := mkCurationOutput {
  articles : list CuratedArticle;
  curation_summary : string
}.

(** [load_brief(topic_slug)] *)
Definition load_brief (fs : FS) (topic_slug : string) : Outcome (list PyVal) :=
  let* topic_dir := path_div TOPICS_DIR (VStr topic_slug) in
  let* links_file := path_div topic_dir (VStr "links.yaml") in
  if negb (path_exists fs links_file) then Ok []
  else
    let* doc := safe_load_file fs links_file in
    let* links := iterate (py_or doc (VList [])) in
    Scout.link_urls links.

(** [{link["url"] for link in existing}] *)
Fixpoint url_set_strict (links : list PyVal) (acc : list PyVal) : Outcome (list PyVal) :=
  match links with
  | [] => Ok acc
  | link :: rest =>
      let* url := py_getitem link "url" in
      let* acc' := set_add url acc in
      url_set_strict rest acc'
  end.

Definition brief_record (article : CuratedArticle) (date : string) : PyVal :=
  VDict [("title", VStr (art_title article)); ("url", VStr (art_url article));
         ("reason", VStr (art_reason article)); ("date", VStr date)].

(** The loop over [curation.articles]; [existing_urls] is the set computed
    before the loop. *)
Fixpoint append_new (date : string) (arts : list CuratedArticle)
    (existing_urls : list PyVal) (existing : PyVal) : Outcome PyVal :=
  match arts with
  | [] => Ok existing
  | article :: rest =>
      let* present := in_set (VStr (art_url article)) existing_urls in
      if present then append_new date rest existing_urls existing
      else
        let* existing' := py_append existing (brief_record article date) in
        append_new date rest existing_urls existing'
  end.

(** [save_brief(topic_slug, curation)]: the store as the call leaves it and
    the path it returns. *)
Definition save_brief (today : string) (fs : FS) (topic_slug : string)
    (curation : CurationOutput) : Outcome (FS * Path) :=
  let* topic_dir := path_div TOPICS_DIR (VStr topic_slug) in
  if negb (path_exists fs topic_dir) then
    raise ValueError ("Topic '" +:+ topic_slug +:+ "' does not exist")
  else
    let* links_file := path_div topic_dir (VStr "links.yaml") in
    let* existing :=
      if path_exists fs links_file then
        let* doc := safe_load_file fs links_file in Ok (py_or doc (VList []))
      else Ok (VList []) in
    let* links := iterate existing in
    let* existing_urls := url_set_strict links [] in
    let* existing' := append_new today (articles curation) existing_urls existing in
    let* fs' := dump_file_quoted fs links_file existing' in
    Ok (fs', links_file).

End Briefs.

(* ===================================================================== *)
(** * The outer graph and the orchestrator ([core/graph.py])              *)
(* ===================================================================== *)

Module Graph.

(** [should_continue(state)] *)
Definition should_continue (state : MultiAgentState) : string :=
  match rev (state_get (messages state) []) with
  | [] => "__end__"
  | AIMessage _ [] :: _ => "__end__"
  | _ :: _ => "agent"
  end.

(** What [graph.invoke] is called with: a fresh turn
    ([{"messages": [HumanMessage(content=message)]}]) or
    [Command(resume=message)]. *)
Inductive GraphInput : Type :=
| Fresh (turn : list Message)
| Resume (value : string).

(** What [graph.invoke] returns, as far as [chat] reads it: the values of
    the interrupts under [__interrupt__] when that key is present, and the
    messages. *)
Record GraphResult : Type := mkGraphResult {
  interrupts : option (list PyVal);
  result_messages : option (list Message)
}.

Inductive ChatReply : Type :=
| Question (question : PyVal)      (* {"interrupt": True, "question": ...} *)
| Response (text : string).        (* {"response": ...} *)

(** The compiled graph with its checkpointer: a machine with a state of
    its own, of some type [G]. *)
Definition Invoke (G : Type) : Type := G -> GraphInput -> G * Outcome GraphResult.

(** The orchestrator: its flag and the graph it owns. *)
Record Orchestrator (G : Type) : Type := mkOrchestrator {
  interrupted : bool;
  graph_state : G
}.

Arguments mkOrchestrator {G} interrupted graph_state.
Arguments interrupted {G} o.
Arguments graph_state {G} o.

(** The loop over the reversed messages of [chat]. *)
Definition last_response (msgs : list Message) : string :=
  match
    List.find
      (fun msg => is_AIMessage msg && negb (String.eqb (content_of msg) EmptyString))
      (rev msgs)
  with
  | Some msg => content_of msg
  | None => "No response generated."
  end.

(** [interrupt_value.get("question", str(interrupt_value))]; the text of a
    dict is not written out, so a dict without the key is [Unmodelled]. *)
Definition question_of (interrupt_value : PyVal) : Outcome PyVal :=
  match interrupt_value with
  | VDict d =>
      match assoc "question" d with
      | Some q => Ok q
      | None => Unmodelled
      end
  | other =>
      raise AttributeError
        ("'" +:+ type_name other +:+ "' object has no attribute 'get'")
  end.

Definition chat_input (was_interrupted : bool) (message : string) : GraphInput :=
  if was_interrupted then Resume message else Fresh [HumanMessage message].

(** [Orchestrator.chat(message)]: the orchestrator as the call leaves it
    and what it returns. *)
Definition chat {G : Type} (invoke : Invoke G) (o : Orchestrator G) (message : string)
    : Orchestrator G * Outcome ChatReply :=
  match invoke (graph_state o) (chat_input (interrupted o) message) with
  | (g, Ok result) =>
      match interrupts result with
      | Some values =>
          (mkOrchestrator true g,
           match values with
           | [] => raise (OtherException "IndexError") "list index out of range"
           | first :: _ => let* q := question_of first in Ok (Question q)
           end)
      | None =>
          (mkOrchestrator false g,
           Ok (Response (last_response (state_get (result_messages result) []))))
      end
  | (g, Raise e) => (mkOrchestrator (interrupted o) g, Raise e)
  | (g, Interrupted p) => (mkOrchestrator (interrupted o) g, Interrupted p)
  | (g, Unmodelled) => (mkOrchestrator (interrupted o) g, Unmodelled)
  end.

End Graph.

(* ===================================================================== *)
(** * The selected topic of the command line ([cli/state.py])             *)
(* ===================================================================== *)

Module Cli.

Record TopicState : Type := mkTopicState {
  _topics : list string;
  _index : Z
}.

(** [refresh_topics()] *)
Definition refresh_topics (fs : FS) (ts : TopicState) : Outcome TopicState :=
  let* topics := TopicTools.get_topic_slugs fs in
  Ok {| _topics := topics; _index := _index ts |}.

(** The getter of [selected]. *)
Definition selected (ts : TopicState) : option string :=
  if ((0 <=? _index ts)%Z && (_index ts <? Z.of_nat (length (_topics ts)))%Z)%bool
  then nth_error (_topics ts) (Z.to_nat (_index ts))
  else None.

(** [topics.index(topic)] for a member: the position of its first
    occurrence. *)
Fixpoint index_of (topic : string) (topics : list string) : Z :=
  match topics with
  | [] => 0
  | t :: rest => if String.eqb t topic then 0 else (1 + index_of topic rest)%Z
  end.

Definition is_member (topic : string) (topics : list string) : bool :=
  existsb (String.eqb topic) topics.

(** The setter of [selected]. *)
Definition set_selected (fs : FS) (ts : TopicState) (topic : option string)
    : Outcome TopicState :=
  match topic with
  | None => Ok {| _topics := _topics ts; _index := (-1)%Z |}
  | Some t =>
      if is_member t (_topics ts)
      then Ok {| _topics := _topics ts; _index := index_of t (_topics ts) |}
      else
        let* ts' := refresh_topics fs ts in
        if is_member t (_topics ts')
        then Ok {| _topics := _topics ts'; _index := index_of t (_topics ts') |}
        else Ok ts'
  end.

(** [cycle()]: the state as the call leaves it and the topic returned. *)
Definition cycle (fs : FS) (ts : TopicState) : Outcome (TopicState * option string) :=
  let* ts1 := match _topics ts with [] => refresh_topics fs ts | _ :: _ => Ok ts end in
  match _topics ts1 with
  | [] => Ok (ts1, None)
  | _ :: _ =>
      let next := (_index ts1 + 1)%Z in
      let ts2 :=
        {| _topics := _topics ts1;
           _index := if (Z.of_nat (length (_topics ts1)) <=? next)%Z then (-1)%Z else next |} in
      Ok (ts2, selected ts2)
  end.

End Cli.

(* ===================================================================== *)
(** * The slash commands of the command line ([cli/commands.py])          *)
(* ===================================================================== *)

Module Commands.

Import TopicTools TopicCrud.

(** A slash command: its handler and its description. A handler is given
    the store, which [cmd_topics] reads. *)
Record Command : Type := mkCommand {
  handler : FS -> list string -> Outcome (option string);
  description : string
}.

(** [cmd_topics(args)] *)
Definition cmd_topics (fs : FS) (args : list string) : Outcome (option string) :=
  let* topics := get_topic_slugs fs in
  match topics with
  | [] => Ok (Some "No topics found.")
  | _ :: _ => Ok (Some ("Topics:" +:+ LF +:+ bullet_list topics))
  end.

Fixpoint spaces (n : nat) : string :=
  match n with
  | O => EmptyString
  | S k => String (ascii_of_nat 32) (spaces k)
  end.

(** [f"{name:<12}"] for [width] 12: the name, padded on the right. *)
Definition ljust (width : nat) (s : string) : string :=
  s +:+ spaces (width - String.length s).

(** The names of [COMMANDS] with their descriptions, in the order of the
    dict: all that [cmd_help], which is itself an entry of [COMMANDS],
    reads of it. *)
Definition DESCRIPTIONS : list (string * string) :=
  [("topics", "List all tracked topics");
   ("help", "Show available commands");
   ("exit", "Exit the CLI")].

(** [cmd_help(args)] *)
Definition cmd_help (fs : FS) (args : list string) : Outcome (option string) :=
  Ok (Some (join LF
              ("Available commands:"
               :: map (fun entry => "  /" +:+ ljust 12 (fst entry) +:+ " " +:+ snd entry)
                    DESCRIPTIONS))).

Definition COMMANDS : list (string * Command) :=
  [("topics", mkCommand cmd_topics "List all tracked topics");
   ("help", mkCommand cmd_help "Show available commands");
   ("exit", mkCommand (fun _ _ => Ok None) "Exit the CLI")].

Definition EXIT_COMMANDS : list string := ["exit"].

(** [handle_command(cmd, args)]: the output and whether to leave the
    loop. *)
Definition handle_command (fs : FS) (cmd : string) (args : list string)
    : Outcome (option string * bool) :=
  if existsb (String.eqb cmd) EXIT_COMMANDS then Ok (None, true)
  else
    match assoc cmd COMMANDS with
    | Some command =>
        let* output := handler command fs args in Ok (output, false)
    | None => Ok (Some ("Unknown command: /" +:+ cmd), false)
    end.

End Commands.


(* ===================================================================== *)
(** * Vocabulary of the further statements                                *)
(* ===================================================================== *)

Module Statements.

Import TopicTools Scout Props StoreOps TopicCrud ContentTools Briefs Graph Cli.

(** ** Topics *)

(** The slug is one plain path segment, of at most [NAME_MAX] bytes:
    joined to [TOPICS_DIR] it names an entry of the topics directory. *)
Definition single_name (slug : string) : Prop :=
  path_div TOPICS_DIR (VStr slug) = Ok [slug].

(** The entry is a topic: a directory that holds [preferences.md]. *)
Definition is_topic (entries : gmap string Node) (name : string) : Prop :=
  exists children, entries !! name = Some (Dir children)
                   /\ is_Some (children !! "preferences.md").

(** The directory of a topic as [create_topic] leaves it. *)
Definition new_topic_dir (preferences_content : string) : Node :=
  Dir (<["preferences.md" := File (Text preferences_content)]> ∅).

(** ** Slugs *)

(** The first character, if any, is no whitespace. *)
Definition starts_clean (s : string) : Prop :=
  match s with
  | EmptyString => True
  | String c _ => isspace c = false
  end.

(** [" " in s] *)
Fixpoint has_space (s : string) : bool :=
  match s with
  | EmptyString => false
  | String c rest => (nat_of_ascii c =? 32)%nat || has_space rest
  end.

(** What [replace(" ", "-")] does to one character. *)
Definition hyphenate (c : ascii) : ascii :=
  if (nat_of_ascii c =? 32)%nat then ascii_of_nat 45 else c.

(** ** Links *)

(** The link carries the string [url]. *)
Definition has_url (url : string) (link : PyVal) : bool :=
  match link with
  | VDict d => eq_str (default VNone (assoc "url" d)) url
  | _ => false
  end.

(** How many of the links carry the string [url]. *)
Definition count_links (url : string) (links : list PyVal) : nat :=
  length (filter (fun l => has_url url l = true) links).

(** A dict, the shape of a link that [link.get] can read. *)
Definition is_dict (v : PyVal) : Prop := exists d, v = VDict d.

(** The links document of a topic directory: absent, or a list. *)
Definition holds_links (children : gmap string Node) (links : list PyVal) : Prop :=
  (children !! "links.yaml" = None /\ links = [])
  \/ children !! "links.yaml" = Some (File (Doc (VList links))).

(** The record that [save_article] appends. *)
Definition article_record (title url reason date : string) : PyVal :=
  VDict [("title", VStr title); ("url", VStr url); ("reason", VStr reason);
         ("date", VStr date)].

(** The store once the links file of the topic [name] holds [c]. *)
Definition with_links (entries children : gmap string Node) (name : string)
    (c : Content) : FS :=
  Some (Dir (<[name := Dir (<["links.yaml" := File c]> children)]> entries)).

(** A dict with a scalar under [url]: a link that [link["url"]] can read. *)
Definition link_with_url (v : PyVal) : Prop :=
  exists d u, v = VDict d /\ assoc "url" d = Some u /\ hashable u = true.

(** ** Conversations and the command line *)

(** The graph with a log of its calls: [invoke] as it is, and every input
    it is called with written down, the oldest first. *)
Definition recording {G : Type} (invoke : Invoke G) : Invoke (list GraphInput * G) :=
  fun s input =>
    match s with
    | (log, g) =>
        match invoke g input with
        | (g', result) => ((log ++ [input], g'), result)
        end
    end.

(** [chat] called with the messages one after the other, up to the first
    call that does not return: the orchestrator as the last call leaves it
    and what the calls returned. *)
Fixpoint converse {G : Type} (invoke : Invoke G) (o : Orchestrator G)
    (inbound : list string) : Orchestrator G * list ChatReply :=
  match inbound with
  | [] => (o, [])
  | message :: rest =>
      match chat invoke o message with
      | (o', Ok reply) =>
          match converse invoke o' rest with
          | (final, replies) => (final, reply :: replies)
          end
      | (o', _) => (o', [])
      end
  end.

(** The reply is an interrupt question. *)
Definition is_question (reply : ChatReply) : bool :=
  match reply with Question _ => true | Response _ => false end.

(** What the graph is to be called with, message by message, given what
    the calls returned: resumed with the message after a question, given
    a fresh turn after a response and at the start. The call after the
    last reply is the one that did not return, if there is a message
    left for it. *)
Fixpoint expected_inputs (was_interrupted : bool) (inbound : list string)
    (replies : list ChatReply) : list GraphInput :=
  match inbound with
  | [] => []
  | message :: more =>
      (if was_interrupted then Resume message else Fresh [HumanMessage message])
      :: match replies with
         | [] => []
         | reply :: rest => expected_inputs (is_question reply) more rest
         end
  end.

(** [cycle()] called [n] times in a row. *)
Fixpoint cycle_times (fs : FS) (n : nat) (ts : TopicState) : Outcome TopicState :=
  match n with
  | O => Ok ts
  | S n' => let* (ts', _) := cycle fs ts in cycle_times fs n' ts'
  end.

(** A message that the loops over the reversed messages skip: no
    [AIMessage], or one without content. *)
Definition no_reply (m : Message) : Prop :=
  is_AIMessage m && negb (String.eqb (content_of m) EmptyString) = false.

(** ** Briefs and searches *)

(** The curated articles that [save_brief] appends, given the URLs on
    file. *)
Definition new_curated (urls : list PyVal) (arts : list CuratedArticle)
    : list CuratedArticle :=
  filter (fun a => existsb (key_eqb (VStr (art_url a))) urls = false) arts.

(** What the loops of the search maintain about the URLs seen: no two are
    equal, each is truthy, and the URL of every hit is one of them. *)
Definition seen_invariant (st : Tavily.SearchState) : Prop :=
  all_distinct (Tavily.seen_urls st) = true
  /\ Forall (fun u => truthy u = true) (Tavily.seen_urls st)
  /\ Forall (fun u => In u (Tavily.seen_urls st)) (Tavily.hit_urls (Tavily.results st)).



(** ** Replies *)

(** The message is no [AIMessage]. *)
Definition not_ai (m : Message) : Prop := is_AIMessage m = false.

(** No character of the text is a backquote. *)
Fixpoint no_backquote (s : string) : bool :=
  match s with
  | EmptyString => true
  | String c rest => negb (nat_of_ascii c =? 96)%nat && no_backquote rest
  end.

(** Every character of the text is whitespace. *)
Fixpoint all_space (s : string) : bool :=
  match s with
  | EmptyString => true
  | String c rest => isspace c && all_space rest
  end.

End Statements.

(* ===================================================================== *)
(** * Sample stores, clients and runs for the further statements          *)
(* ===================================================================== *)

Module Shelf.

Import Tavily Briefs Graph Cli.

(** A topic directory without links, and a store that holds it as its
    one topic. *)
Definition bare : gmap string Node := <["preferences.md" := Samples.preferences_file]> ∅.

Definition one_topic : gmap string Node := <["ai-safety" := Dir bare]> ∅.

(** The same with one link on file. *)
Definition old_link : PyVal := Samples.article "https://old".

Definition stocked : gmap string Node :=
  <["links.yaml" := File (Doc (VList [old_link]))]> bare.

Definition one_stocked_topic : gmap string Node := <["ai-safety" := Dir stocked]> ∅.

(** A curation that names the link on file and a new one. *)
Definition curation : CurationOutput :=
  {| articles := [mkCuratedArticle "https://old" "T" "R";
                  mkCuratedArticle "https://new" "T2" "R2"];
     curation_summary := "S" |}.


(** The messages of a search run that ends with a tool result and an
    empty reply after the reply that counts. *)
Definition trailing : list Message := [ToolMessage "done" "call_2"; AIMessage EmptyString []].

End Shelf.


(* ===================================================================== *)
(** * Properties                                                          *)
(* ===================================================================== *)

Import TopicTools Handoff Tavily Scout Props.

(** ** Outcomes and values *)

Lemma bind_Ok_inv {A B : Type} (c : Outcome A) (k : A -> Outcome B) (b : B) :
  bind c k = Ok b -> exists a, c = Ok a /\ k a = Ok b.
Proof. destruct c; simpl; intros H; try discriminate. by exists a. Qed.

Lemma in_set_Ok (x : PyVal) (s : list PyVal) (b : bool) :
  in_set x s = Ok b -> b = existsb (key_eqb x) s.
Proof. unfold in_set. destruct (hashable x); simpl; [congruence | discriminate]. Qed.

Lemma py_get_Ok (o : PyVal) (key : string) (dflt v : PyVal) :
  py_get o key dflt = Ok v ->
  exists d, o = VDict d /\ v = default dflt (assoc key d).
Proof.
  destruct o; simpl; try discriminate. intros [= <-]. eexists. split; [done|].
  by destruct (assoc key d).
Qed.

Lemma key_eqb_sym (a b : PyVal) : key_eqb a b = key_eqb b a.
Proof.
  destruct a, b; simpl; try reflexivity.
  - destruct b, b0; reflexivity.
  - apply Z.eqb_sym.
  - apply String.eqb_sym.
Qed.

(** ** The message trimmer *)

Lemma last_n_length {A : Type} (n : nat) (l : list A) :
  length (Base.last_n n l) = Nat.min (length l) n.
Proof. unfold Base.last_n. rewrite length_drop. lia. Qed.

(** What the hook returns: [None] up to sixteen messages, and beyond
    that the last sixteen of them, in their order; the state object it
    was called on is left as it was. *)
Lemma trim_messages_returns (state : AgentState) :
  let stored := state_get (agent_messages state) [] in
  let L := length stored in
  snd (Base.trim_messages state)
  = (if (L <=? 16)%nat then None else Some (drop (L - 16) stored))
  /\ fst (Base.trim_messages state) = state.
Proof.
  intros stored L. unfold Base.trim_messages, Base.MAX_MESSAGES.
  fold stored. fold L. by destruct (L <=? 16)%nat.
Qed.

Lemma index_by_id_absent (id : string) (merged : list Held) :
  id ∉ map held_id merged ->
  forall position found, Base.index_by_id id merged position found = found.
Proof.
  induction merged as [|m rest IH]; intros Hid position found; simpl; [done|].
  simpl in Hid. apply not_elem_of_cons in Hid as [Hne Hrest].
  rewrite IH by done. destruct (String.eqb_spec (held_id m) id); congruence.
Qed.

Lemma index_by_id_held (merged : list Held) :
  NoDup (map held_id merged) ->
  forall i m position found,
    merged !! i = Some m ->
    Base.index_by_id (held_id m) merged position found = Some (position + i).
Proof.
  induction merged as [|x rest IH]; intros Hids i m position found Hi; [done|].
  simpl in Hids. apply NoDup_cons in Hids as [Hx Hrest]. simpl.
  destruct i as [|i]; simpl in Hi.
  - injection Hi as ->. rewrite String.eqb_refl.
    rewrite index_by_id_absent by done. f_equal. lia.
  - rewrite (IH Hrest i m (S position)) by done.
    f_equal. lia.
Qed.

(** A message that is held already, merged again, changes nothing. *)
Lemma merge_held_message (merged : list Held) (m : Held) :
  NoDup (map held_id merged) ->
  m ∈ merged ->
  Base.merge_message merged m = merged.
Proof.
  intros Hids Hm. apply list_elem_of_lookup in Hm as [i Hi].
  unfold Base.merge_message. rewrite (index_by_id_held merged Hids i m 0 None Hi).
  simpl. by apply list_insert_id.
Qed.

(** Folded by the reducer, an update made of messages that are held
    already leaves the messages as they are. *)
Lemma add_held_messages (left right : list Held) :
  NoDup (map held_id left) ->
  (forall m, m ∈ right -> m ∈ left) ->
  Base.add_messages left right = left.
Proof.
  intros Hids. unfold Base.add_messages.
  induction right as [|m rest IH]; intros Hsub; simpl; [done|].
  rewrite merge_held_message; [|done|apply Hsub; left].
  apply IH. intros x Hx. apply Hsub. by right.
Qed.

(** Whatever the hook returns for messages with distinct ids, the state
    that the reducer makes of it holds every message that it held
    before. *)
Lemma update_of_hook_drops_nothing (state : AgentState) (window : list Held) :
  NoDup (map held_id (state_get (agent_messages state) [])) ->
  snd (Base.trim_messages state) = Some window ->
  Base.add_messages (state_get (agent_messages state) []) window
  = state_get (agent_messages state) [].
Proof.
  intros Hids Hret.
  pose proof (trim_messages_returns state) as [Hw _]. simpl in Hw.
  rewrite Hret in Hw.
  destruct (length (state_get (agent_messages state) []) <=? 16)%nat; [discriminate|].
  injection Hw as ->. apply add_held_messages; [done|].
  intros m Hm. apply list_elem_of_lookup in Hm as [i Hi]. rewrite lookup_drop in Hi.
  apply list_elem_of_lookup. by eexists.
Qed.

(** C3. Twenty messages held by the loop, with the ids 1 to 20. The hook
    returns the last sixteen of them as the new value of [messages], as
    its docstring says it caps the context. But the value is an update,
    and the reducer of the [messages] key merges it by id: each of the
    sixteen replaces itself, none of the twenty is removed, and the state
    that the model call reads holds all twenty messages, not
    [min 20 16]. *)
Theorem trimmed_window_is_merged_back :
  snd (Base.trim_messages {| agent_messages := Some Samples.twenty |})
  = Some (drop 4 Samples.twenty)
  /\ length (drop 4 Samples.twenty) = 16
  /\ Base.add_messages Samples.twenty (drop 4 Samples.twenty) = Samples.twenty
  /\ length (Base.add_messages Samples.twenty (drop 4 Samples.twenty)) = 20.
Proof. repeat split; vm_compute; reflexivity. Qed.

(** ** The topic listing *)

Lemma is_topic_dir_total (fs : FS) (path : Path) :
  is_topic_dir fs path = Ok (topic_dirb fs path).
Proof.
  unfold is_topic_dir, topic_dirb. destruct (is_dir fs path); reflexivity.
Qed.

Lemma collect_topics_filter (fs : FS) (paths : list Path) (acc : list string) :
  collect_topics fs paths acc
  = Ok (acc ++ map path_name (filter (fun p => topic_dirb fs p = true) paths)).
Proof.
  revert acc. induction paths as [|p rest IH]; intros acc; simpl.
  - by rewrite app_nil_r.
  - rewrite is_topic_dir_total. simpl. rewrite IH.
    rewrite filter_cons. destruct (topic_dirb fs p) eqn:E.
    + rewrite decide_True by done. simpl. by rewrite <- app_assoc.
    + rewrite decide_False by (by intros ?). done.
Qed.

Lemma topic_dirb_child (entries : gmap string Node) (name : string) :
  topic_dirb (Some (Dir entries)) (TOPICS_DIR ++ [name]) = true
  <-> exists children, entries !! name = Some (Dir children)
                       /\ is_Some (children !! "preferences.md").
Proof.
  unfold topic_dirb, is_dir, path_exists, lookup_path. simpl.
  destruct (entries !! name) as [[c|children]|] eqn:E; simpl.
  - split; [done|]. intros (ch & H & _). done.
  - destruct (children !! "preferences.md") eqn:P; simpl.
    + split; [|done]. intros _. exists children. split; [done|]. by eexists.
    + split; [done|]. intros (ch & H & [x Hx]). simplify_eq.
  - split; [done|]. intros (ch & H & _). done.
Qed.

Lemma sorted_elem (l : list string) (x : string) : x ∈ sorted l <-> x ∈ l.
Proof. unfold sorted. by rewrite merge_sort_Permutation. Qed.

Lemma str_le_cases (a b : string) :
  str_le a b <-> a = b \/ String_as_OT.lt a b.
Proof.
  unfold str_le, String.leb. rewrite <- String_as_OT.cmp_lt, <- String_as_OT.cmp_eq.
  unfold String_as_OT.cmp. destruct (String.compare a b); split; intros H;
    try done; auto; by destruct H.
Qed.

#[local] Instance str_le_trans : Transitive str_le.
Proof.
  intros a b c [->|Hab]%str_le_cases [->|Hbc]%str_le_cases; apply str_le_cases; auto.
  right. by eapply String_as_OT.lt_trans.
Qed.

#[local] Instance str_le_total : Total str_le.
Proof. intros a b. apply String.leb_total. Qed.

Lemma sorted_is_sorted (l : list string) : StronglySorted str_le (sorted l).
Proof. apply StronglySorted_merge_sort; apply _. Qed.

(** A store whose topics directory is missing has no listing: the
    iteration raises. *)
Lemma listing_needs_topics_dir :
  get_topic_slugs None = raise FileNotFoundError "[Errno 2] No such file or directory".
Proof. reflexivity. Qed.

(** C7. For every content [entries] of the topics directory, both listing
    functions return the same list, and a name is in it if and only if the
    entry of that name is a directory that holds an entry named
    [preferences.md]; whatever else the directory holds plays no part. *)
Theorem listed_iff_has_preferences (entries : gmap string Node) :
  exists slugs,
    get_topic_slugs (Some (Dir entries)) = Ok slugs
    /\ _get_available_topics (Some (Dir entries)) = Ok slugs
    /\ forall name,
         In name slugs
         <-> exists children, entries !! name = Some (Dir children)
                              /\ is_Some (children !! "preferences.md").
Proof.
  eexists. split; [|split].
  - unfold get_topic_slugs, iterdir. simpl. rewrite collect_topics_filter.
    simpl. reflexivity.
  - unfold _get_available_topics, iterdir. simpl. rewrite collect_topics_filter.
    simpl. reflexivity.
  - intros name. rewrite <- list_elem_of_In, sorted_elem.
    rewrite list_elem_of_fmap. split.
    + intros (p & -> & Hp). apply list_elem_of_filter in Hp as [Hp Hin].
      apply list_elem_of_fmap in Hin as ([k v] & -> & Hkv). simpl in *.
      by apply topic_dirb_child in Hp.
    + intros Hname. pose proof Hname as (children & Hlook & _).
      exists (TOPICS_DIR ++ [name]). split; [done|].
      apply list_elem_of_filter. split; [by apply topic_dirb_child|].
      apply list_elem_of_fmap. exists (name, Dir children). split; [done|].
      by apply elem_of_map_to_list.
Qed.

(** The stray directory of the sample store, which holds a links file and
    no preferences, is not listed. *)
Example stray_directory_not_listed :
  get_topic_slugs Samples.two_topics = Ok ["ai-safety"; "metroidvania-games"].
Proof. vm_compute. reflexivity. Qed.

(** ** The handoffs *)

Lemma handoff_messages_end (rt : ToolRuntime) (note : Message) :
  exists carried, handoff_messages rt note = carried ++ [note].
Proof.
  unfold handoff_messages. destruct (last_ai_message (rt_messages rt)) as [ai|].
  - by exists [ai].
  - by exists [].
Qed.

Lemma invoke_update (env : Oracles) (fs fs' : FS) (resume : option string)
    (state upd : MultiAgentState) :
  ContentScout.invoke env fs resume state = Ok (fs', upd) ->
  exists text,
    upd = {| messages := Some [AIMessage text []];
             active_agent := Some "supervisor";
             topic_context := Some (VDict []) |}.
Proof.
  unfold ContentScout.invoke. intros H.
  apply bind_Ok_inv in H as (task & _ & H).
  apply bind_Ok_inv in H as (slug & _ & H).
  apply bind_Ok_inv in H as ([fs1 result] & _ & H).
  apply bind_Ok_inv in H as (text & _ & H).
  exists text. congruence.
Qed.

(** C6. Folded into any state of the outer graph, the update of each
    handoff tool sets [active_agent] to its target and [topic_context] to
    exactly its payload ([task]; [task] and [topic_slug] for the scout; the
    empty dict on the way back to the supervisor) and appends the transfer
    or completion note as the last message; the update that the Content
    Scout returns when its run completes sets the supervisor, the empty
    context and appends its summary message; and in each case the active
    agent is one of the three names of the registry. *)
Theorem handoff_invariant (state : MultiAgentState) (rt : ToolRuntime)
    (task topic_slug summary : string) :
  let to_topics := apply_update state (update (handoff_to_topics task rt)) in
  let to_scout := apply_update state (update (handoff_to_scout task topic_slug rt)) in
  let to_supervisor := apply_update state (update (handoff_to_supervisor summary rt)) in
  (active_agent to_topics = Some "topic_manager"
   /\ topic_context to_topics = Some (VDict [("task", VStr task)])
   /\ appends_note state to_topics
        (ToolMessage ("Transferring to TopicManager: " +:+ task) (rt_tool_call_id rt)))
  /\ (active_agent to_scout = Some "content_scout"
      /\ topic_context to_scout
         = Some (VDict [("task", VStr task); ("topic_slug", VStr topic_slug)])
      /\ appends_note state to_scout
           (ToolMessage
              ("Transferring to ContentScout: " +:+ task +:+ " (topic: "
               +:+ topic_slug +:+ ")")
              (rt_tool_call_id rt)))
  /\ (active_agent to_supervisor = Some "supervisor"
      /\ topic_context to_supervisor = Some (VDict [])
      /\ appends_note state to_supervisor
           (ToolMessage ("TopicManager completed: " +:+ summary) (rt_tool_call_id rt)))
  /\ (forall env fs resume fs' upd,
        ContentScout.invoke env fs resume state = Ok (fs', upd) ->
        let back := apply_update state upd in
        active_agent back = Some "supervisor"
        /\ topic_context back = Some (VDict [])
        /\ In "supervisor" agent_names
        /\ exists text, appends_note state back (AIMessage text []))
  /\ Forall (fun st => exists a, active_agent st = Some a /\ In a agent_names)
       [to_topics; to_scout; to_supervisor].
Proof.
  intros to_topics to_scout to_supervisor.
  assert (Hnote : forall note upd_agent upd_ctx,
             appends_note state
               (apply_update state
                  {| messages := Some (handoff_messages rt note);
                     active_agent := upd_agent; topic_context := upd_ctx |}) note).
  { intros note a c. destruct (handoff_messages_end rt note) as [carried E].
    exists carried. simpl. by rewrite E. }
  split; [|split; [|split; [|split]]].
  - repeat split. apply Hnote.
  - repeat split. apply Hnote.
  - repeat split. apply Hnote.
  - intros env fs resume fs' upd Hrun.
    apply invoke_update in Hrun as [text ->]. simpl.
    split; [done|]. split; [done|]. split; [tauto|]. exists text, []. reflexivity.
  - repeat constructor; eexists; (split; [reflexivity|]); simpl; tauto.
Qed.

(** A run of the Content Scout that completes, and the state it hands
    back to the supervisor. *)
Lemma handoff_invariant_witness :
  ContentScout.invoke Samples.sure Samples.two_topics None Samples.handed_to_scout
  = Ok (Samples.store_after_run, Samples.handback)
  /\ active_agent (apply_update Samples.handed_to_scout Samples.handback)
     = Some "supervisor"
  /\ topic_context (apply_update Samples.handed_to_scout Samples.handback)
     = Some (VDict []).
Proof.
  assert (Hrun :
    ContentScout.invoke Samples.sure Samples.two_topics None Samples.handed_to_scout
    = Ok (Samples.store_after_run, Samples.handback)).
  { vm_compute. reflexivity. }
  split; [exact Hrun|].
  destruct (proj1 (proj2 (proj2 (proj2
    (handoff_invariant Samples.handed_to_scout Samples.sample_runtime "t" "s" "done"))))
    Samples.sure Samples.two_topics None _ _ Hrun) as (Hagent & Hcontext & _).
  split; [exact Hagent | exact Hcontext].
Defined.

(** ** The web-search tool *)

Lemma hit_urls_app (l1 l2 : list ResultEntry) :
  hit_urls (l1 ++ l2) = hit_urls l1 ++ hit_urls l2.
Proof.
  induction l1 as [|[u b|line] l1 IH]; simpl; [done| |done].
  by rewrite IH.
Qed.

Lemma all_distinct_snoc (l : list PyVal) (x : PyVal) :
  all_distinct l = true ->
  existsb (key_eqb x) l = false ->
  all_distinct (l ++ [x]) = true.
Proof.
  induction l as [|y l IH]; simpl; [done|].
  intros [Hy Hl]%andb_prop Hx. apply orb_false_elim in Hx as [Hxy Hxl].
  apply andb_true_intro. split; [|by apply IH].
  rewrite existsb_app. simpl. rewrite key_eqb_sym, Hxy.
  apply negb_true_iff in Hy. rewrite Hy. reflexivity.
Qed.




















(** A failure after the search call, while a response is being formatted
    (here a [content] that is [None]), is caught by the same handler: the
    hits that the query had added stay, its failure line follows, and the
    URL being formatted stays in the set of seen URLs. *)
Example failure_while_formatting_keeps_hits :
  run_query
    {| search := fun _ =>
         inr (VDict [("results",
                      VList [Samples.hit "https://x";
                             VDict [("url", VStr "https://y"); ("content", VNone)]])]);
       netloc := fun url => inr (str_drop 8 url) |}
    "q" initial_state
  = ({| results :=
          [Hit (VStr "https://x")
             ("**T**" +:+ LF +:+ "Source: x" +:+ LF +:+ "URL: https://x" +:+ LF
              +:+ "text...");
           Failure "Search failed for 'q': 'NoneType' object is not subscriptable"];
        seen_urls := [VStr "https://x"; VStr "https://y"] |}, Ok tt).
Proof. vm_compute. reflexivity. Qed.



(** ** The saving stage *)

Lemma key_eqb_trans (a b c : PyVal) :
  key_eqb a b = true -> key_eqb b c = key_eqb a c.
Proof.
  destruct a as [|x|x|x|x|x], b as [|y|y|y|y|y]; simpl; try discriminate; intros H;
    destruct c as [|z|z|z|z|z]; simpl; try reflexivity.
  - apply Bool.eqb_prop in H. by subst.
  - apply Bool.eqb_prop in H. by subst.
  - apply Z.eqb_eq in H. subst. destruct x, z; reflexivity.
  - apply Z.eqb_eq in H. by subst.
  - apply Z.eqb_eq in H. subst. destruct y, z; reflexivity.
  - apply Z.eqb_eq in H. by subst.
  - apply Z.eqb_eq in H. by subst.
  - apply Z.eqb_eq in H. by subst.
  - apply String.eqb_eq in H. by subst.
Qed.

Lemma member_of_equal (u x : PyVal) (l : list PyVal) :
  key_eqb x u = true -> existsb (key_eqb u) l = existsb (key_eqb x) l.
Proof.
  intros H. induction l as [|y l IH]; simpl; [done|].
  rewrite IH. f_equal. exact (key_eqb_trans x u y H).
Qed.

(** The set built from the links has, as members, the URLs of the links
    and what it started from. *)
Lemma url_set_members (links : list PyVal) :
  forall acc urls,
    url_set links acc = Ok urls ->
    forall u, existsb (key_eqb u) urls
              = existsb (key_eqb u) acc || existsb (key_eqb u) (map link_url links).
Proof.
  induction links as [|l rest IH]; intros acc urls; simpl.
  - intros [= <-] u. by rewrite orb_false_r.
  - intros H u. apply bind_Ok_inv in H as (url & Hurl & H).
    apply py_get_Ok in Hurl as (d & -> & ->).
    apply bind_Ok_inv in H as (acc' & Hadd & H).
    unfold set_add in Hadd. apply bind_Ok_inv in Hadd as (present & Hp & [= <-]).
    apply in_set_Ok in Hp. rewrite (IH _ _ H u). simpl.
    set (x := default VNone (assoc "url" d)) in *.
    destruct present.
    + destruct (key_eqb u x) eqn:E; simpl; [|done].
      rewrite key_eqb_sym in E. rewrite (member_of_equal u x acc E), <- Hp. done.
    + rewrite existsb_app. simpl. rewrite orb_false_r.
      by rewrite <- !orb_assoc.
Qed.


Lemma url_set_of_links (links urls : list PyVal) :
  url_set links [] = Ok urls ->
  forall u, existsb (key_eqb u) urls = existsb (key_eqb u) (map link_url links).
Proof. intros H u. by rewrite (url_set_members _ _ _ H u). Qed.

Lemma save_loop_spec (date : string) (existing_urls : list PyVal) :
  forall (articles : list PyVal) (l : list PyVal) (n : nat) (r : PyVal) (k : nat),
    save_loop date articles existing_urls (VList l) n = Ok (r, k) ->
    r = VList (l ++ map (stamped date)
                      (filter (fun a => is_new existing_urls a = true) articles))
    /\ k = n + length (filter (fun a => is_new existing_urls a = true) articles).
Proof.
  induction articles as [|a rest IH]; intros l n r k; simpl.
  - intros [= <- <-]. rewrite app_nil_r. split; [done|lia].
  - intros H. apply bind_Ok_inv in H as (url & Hurl & H).
    apply py_get_Ok in Hurl as (d & -> & ->).
    apply bind_Ok_inv in H as (fresh & Hfresh & H).
    assert (Hnew : fresh = is_new existing_urls (VDict d)).
    { unfold is_new. simpl. destruct (truthy _); simpl in *.
      - apply bind_Ok_inv in Hfresh as (present & Hp & [= <-]).
        apply in_set_Ok in Hp. by subst.
      - congruence. }
    rewrite filter_cons. destruct fresh.
    + rewrite decide_True by done.
      apply bind_Ok_inv in H as (title & Ht & H).
      apply py_get_Ok in Ht as (d' & [= <-] & ->).
      apply bind_Ok_inv in H as (reason & Hr & H).
      apply py_get_Ok in Hr as (d' & [= <-] & ->).
      simpl in H. apply IH in H as [-> ->]. simpl.
      rewrite <- app_assoc. simpl. split; [done|lia].
    + rewrite decide_False by (rewrite <- Hnew; done).
      by apply IH in H.
Qed.







(** The test of the loop, made on the set built from the links, is the
    test on the links themselves. *)
Lemma fresh_is_to_append (links urls articles : list PyVal) :
  url_set links [] = Ok urls ->
  filter (fun a => is_new urls a = true) articles = to_append links articles.
Proof.
  intros Hurls. unfold to_append. induction articles as [|a rest IH]; [done|].
  rewrite !filter_cons, IH. unfold is_new, on_file.
  by rewrite (url_set_of_links _ _ Hurls).
Qed.



Lemma scalar_str (v : PyVal) : hashable v = true -> exists s, py_str v = Ok s.
Proof. destruct v as [| [|] | | | |]; simpl; try discriminate; eauto. Qed.

Lemma url_set_completes (links : list PyVal) :
  Forall dict_with_scalar_url links ->
  forall acc, exists urls, url_set links acc = Ok urls.
Proof.
  induction 1 as [|l rest (d & -> & Hu) _ IH]; intros acc; simpl; [eauto|].
  unfold set_add, in_set.
  destruct (assoc "url" d) as [u|]; simpl.
  - rewrite Hu. simpl. apply IH.
  - apply IH.
Qed.

Lemma save_loop_completes (date : string) (existing_urls articles : list PyVal) :
  Forall dict_with_scalar_url articles ->
  forall l n, exists r, save_loop date articles existing_urls (VList l) n = Ok r.
Proof.
  induction 1 as [|a rest (d & -> & Hu) _ IH]; intros l n; simpl; [eauto|].
  unfold in_set.
  destruct (assoc "url" d) as [u|]; simpl.
  - destruct (truthy u); simpl; [|apply IH].
    rewrite Hu. simpl. destruct (existsb _ _); simpl; apply IH.
  - apply IH.
Qed.

Lemma urls_not_in_completes (existing_urls articles : list PyVal) :
  Forall dict_with_scalar_url articles ->
  exists urls, urls_not_in articles existing_urls = Ok urls
               /\ Forall (fun u => hashable u = true) urls.
Proof.
  induction 1 as [|a rest (d & -> & Hu) _ (urls & IH & Hs)]; simpl; [eauto|].
  unfold in_set. rewrite IH.
  destruct (assoc "url" d) as [u|]; simpl.
  - rewrite Hu. simpl. destruct (existsb _ _); eauto.
  - destruct (existsb _ _); eauto.
Qed.

Lemma arrow_lines_completes (urls : list PyVal) :
  Forall (fun u => hashable u = true) urls -> exists lines, arrow_lines urls = Ok lines.
Proof.
  induction 1 as [|u rest Hu _ (lines & IH)]; simpl; [eauto|].
  destruct (scalar_str u Hu) as [s ->]. simpl. rewrite IH. simpl. eauto.
Qed.

(** The stage completes on the inputs it is meant for: a topic directory
    that exists, a links file that is absent or holds a list of links, a
    list of recommended articles, a summary that is a string. *)
Lemma save_articles_completes (env : Oracles) (entries children : gmap string Node)
    (name : string) (links articles : list PyVal) (text : string) (state : ScoutState) :
  path_div TOPICS_DIR (VStr name) = Ok [name] ->
  entries !! name = Some (Dir children) ->
  (children !! "links.yaml" = None /\ links = []
   \/ children !! "links.yaml" = Some (File (Doc (VList links)))) ->
  Forall dict_with_scalar_url links ->
  topic_slug state = Some (VStr name) ->
  recommended state = Some (VList articles) ->
  Forall dict_with_scalar_url articles ->
  summary state = Some (VStr text) ->
  exists fs' upd, _save_articles env (Some (Dir entries)) state = Ok (fs', upd).
Proof.
  intros Hname Hdir Hfile Hlinks Hslug Hrecs Harticles Hsummary.
  unfold _save_articles. rewrite Hslug, Hrecs, Hsummary. simpl state_get.
  destruct articles as [|a0 rest0] eqn:Hlist; [simpl; eauto|]. rewrite <- Hlist in *.
  replace (negb (truthy (VList articles))) with false by (by subst).
  rewrite Hname. cbn [bind].
  change (path_div [name] (VStr "links.yaml")) with (Ok (A:=Path) [name; "links.yaml"]).
  cbn [bind].
  assert (Hexisting :
    (if path_exists (Some (Dir entries)) [name; "links.yaml"]
     then let* doc := safe_load_file (Some (Dir entries)) [name; "links.yaml"] in
          Ok (py_or doc (VList []))
     else Ok (VList [])) = Ok (VList links)).
  { unfold path_exists, safe_load_file, lookup_path. simpl. rewrite Hdir.
    destruct Hfile as [[-> ->]| ->]; [done|]. simpl.
    unfold py_or. by destruct links. }
  rewrite Hexisting. cbn [bind iterate].
  destruct (url_set_completes links Hlinks []) as [urls ->]. cbn [bind iterate].
  destruct (save_loop_completes (today env) urls articles Harticles links 0) as [[r k] Hloop].
  rewrite Hloop. cbn [bind py_str].
  pose proof Hloop as [-> ->]%save_loop_spec.
  destruct (0 <? _)%nat eqn:Hk.
  - assert (Hdump : exists fs', dump_file (Some (Dir entries)) [name; "links.yaml"]
       (VList (links ++ map (stamped (today env))
          (filter (fun a => is_new urls a = true) articles))) = Ok fs').
    { unfold dump_file. simpl. rewrite Hdir.
      destruct Hfile as [[-> ->]| ->]; simpl; eauto. }
    destruct Hdump as [fs' ->]. cbn [bind].
    destruct (urls_not_in_completes urls articles Harticles) as (cands & -> & Hc). cbn [bind].
    destruct (arrow_lines_completes (take (0 + length (filter (fun a => is_new urls a = true) articles)) cands)) as [lines ->].
    { by apply Forall_take. }
    cbn [bind py_str]. eauto.
  - cbn [bind]. eauto.
Qed.


(** ** Resolution of the topic *)









(** ** Defects: inputs on which the code leaves the specification *)

(** C1. With a topics directory that holds no topic, the resolution stage
    suspends with its question and, resumed with any text, returns a
    [topic_slug] that is [None]; the context stage that follows then joins
    [None] to a path, which raises a [TypeError], and the run of the
    subgraph ends with that exception instead of completing. *)
Theorem null_topic_raises_in_load_context (env : Oracles) (text : string) :
  _resolve_topic env Samples.empty_store None Samples.scout_input
  = Interrupted (VDict [("question", VStr NO_TOPICS_QUESTION)])
  /\ _resolve_topic env Samples.empty_store (Some text) Samples.scout_input
     = Ok (slug_update VNone)
  /\ _load_context Samples.empty_store (merge Samples.scout_input (slug_update VNone))
     = raise TypeError "unsupported operand type(s) for /: 'PosixPath' and 'NoneType'"
  /\ graph_invoke env Samples.empty_store (Some text) Samples.scout_input
     = raise TypeError "unsupported operand type(s) for /: 'PosixPath' and 'NoneType'".
Proof. repeat split. Qed.

(** The same on every store without topics, for every state given to the
    subgraph. *)
Lemma no_topics_run_raises (env : Oracles) (fs : FS) (text : string)
    (state : ScoutState) :
  _get_available_topics fs = Ok [] ->
  _resolve_topic env fs None state
  = Interrupted (VDict [("question", VStr NO_TOPICS_QUESTION)])
  /\ graph_invoke env fs (Some text) state
     = raise TypeError "unsupported operand type(s) for /: 'PosixPath' and 'NoneType'".
Proof.
  intros H. unfold graph_invoke, _resolve_topic. rewrite H. split; reflexivity.
Qed.

(** A [topic_slug] that is [None] stops the context stage, whatever the
    store. *)
Lemma load_context_rejects_none (fs : FS) (state : ScoutState) :
  topic_slug state = Some VNone ->
  _load_context fs state
  = raise TypeError "unsupported operand type(s) for /: 'PosixPath' and 'NoneType'".
Proof. intros H. unfold _load_context. rewrite H. reflexivity. Qed.

(** C2. One recommendation list that names the same URL twice, saved for
    a topic that has no link yet: the stage completes and the links file
    holds two records with that URL. Saving the same recommendation again
    in a second run adds nothing. *)
Theorem duplicate_in_one_list_saved_twice :
  exists fs' upd,
    _save_articles Samples.sure Samples.two_topics
      (Samples.save_input [Samples.article "https://x"; Samples.article "https://x"])
    = Ok (fs', upd)
    /\ safe_load_file fs' Samples.ai_links
       = Ok (VList [stamped "2026-01-01" (Samples.article "https://x");
                    stamped "2026-01-01" (Samples.article "https://x")])
    /\ (exists doc, safe_load_file fs' Samples.ai_links = Ok doc
                    /\ count_url (VStr "https://x") doc = 2)
    /\ exists upd',
         _save_articles Samples.sure Samples.store_after_run
           (Samples.save_input [Samples.article "https://x"])
         = Ok (Samples.store_after_run, upd').
Proof.
  eexists. eexists. split; [vm_compute; reflexivity|].
  split; [vm_compute; reflexivity|]. split.
  - eexists. split; vm_compute; reflexivity.
  - eexists. vm_compute. reflexivity.
Qed.

(** C4. A reply that is valid JSON and no object: the bare number 42, or
    a fenced block that holds a list. The decoder succeeds, the lookup of
    [articles] on its result raises an [AttributeError], and the handler,
    which is for [JSONDecodeError] only, lets it through: the extraction
    step raises. *)
Theorem non_object_reply_raises :
  Json.json_loads "42" = Ok (VInt 42)
  /\ extract_recommendations [HumanMessage "find"; AIMessage "42" []]
     = raise AttributeError "'int' object has no attribute 'get'"
  /\ extract_recommendations
       [AIMessage ("```json" +:+ LF +:+ "[]" +:+ LF +:+ "```") []]
     = raise AttributeError "'list' object has no attribute 'get'"
  /\ _search_evaluate Samples.unsure
       (merge Samples.scout_input
          (context_update (VStr "No preferences found.") (VList [])))
     = raise AttributeError "'int' object has no attribute 'get'".
Proof. repeat split; vm_compute; reflexivity. Qed.

(** What the extraction step does get right: a reply the decoder rejects
    gives no recommendation and the first 500 characters of the reply as
    summary, and the sample fenced reply gives its article and summary. *)
Lemma undecodable_reply_is_summary (content : string) (msg : string) :
  match Re.search_json_fence content with
  | Some block => Json.json_loads block
  | None => Json.json_loads content
  end = raise JSONDecodeError msg ->
  parse_reply content = Ok (VList [], VStr (str_take 500 content)).
Proof. unfold parse_reply. intros ->. reflexivity. Qed.

Example plain_text_reply :
  extract_recommendations [AIMessage "I found nothing useful." []]
  = Ok (VList [], VStr "I found nothing useful.").
Proof. vm_compute. reflexivity. Qed.

Example fenced_reply_extracted :
  extract_recommendations [AIMessage Samples.fenced_reply []]
  = Ok (VList [Samples.article "https://x"], VStr "S").
Proof. vm_compute. reflexivity. Qed.

(** C9. Two recommendations, the first without a [url], for a topic that
    has no link yet. The article without URL is not appended: the links
    file holds the one record of the second. But the summary lists, as the
    one URL saved, [None], the absent URL of the skipped article, and not
    the URL that was saved. With an empty [url] instead of an absent one
    the line listed is empty. *)
Theorem skipped_article_listed_in_summary :
  exists fs' fs'',
    _save_articles Samples.sure Samples.two_topics
      (Samples.save_input [Samples.untitled_no_url; Samples.article "https://x"])
    = Ok (fs', summary_update
                 (VStr ("S" +:+ LF +:+ LF +:+ "Saved to ai-safety:" +:+ LF
                        +:+ "  " +:+ ARROW +:+ " None")))
    /\ safe_load_file fs' Samples.ai_links
       = Ok (VList [stamped "2026-01-01" (Samples.article "https://x")])
    /\ _save_articles Samples.sure Samples.two_topics
         (Samples.save_input [Samples.article EmptyString; Samples.article "https://x"])
       = Ok (fs'', summary_update
                     (VStr ("S" +:+ LF +:+ LF +:+ "Saved to ai-safety:" +:+ LF
                            +:+ "  " +:+ ARROW +:+ " ")))
    /\ safe_load_file fs'' Samples.ai_links
       = Ok (VList [stamped "2026-01-01" (Samples.article "https://x")]).
Proof.
  exists Samples.store_after_run, Samples.store_after_run.
  repeat split; vm_compute; reflexivity.
Qed.

(* ===================================================================== *)
(** * Further properties of the tools and the orchestrator                *)
(* ===================================================================== *)

Import StoreOps TopicCrud ContentTools Briefs Graph Cli Statements.

(** ** The topic tools *)

Lemma slugs_of_entries (entries : gmap string Node) :
  exists slugs,
    get_topic_slugs (Some (Dir entries)) = Ok slugs
    /\ StronglySorted str_le slugs
    /\ NoDup slugs
    /\ forall name, In name slugs <-> is_topic entries name.
Proof.
  eexists. split; [|split; [|split]].
  - unfold get_topic_slugs, iterdir. simpl. rewrite collect_topics_filter.
    simpl. reflexivity.
  - apply sorted_is_sorted.
  - unfold sorted. rewrite merge_sort_Permutation.
    apply NoDup_fmap_2_strong.
    + intros p q Hp Hq. apply list_elem_of_filter in Hp as [_ Hp], Hq as [_ Hq].
      apply list_elem_of_fmap in Hp as ([k v] & -> & _), Hq as ([k' v'] & -> & _).
      simpl. unfold path_name. simpl. by intros ->.
    + apply NoDup_filter. apply NoDup_fmap_2_strong; [|apply NoDup_map_to_list].
      intros [k v] [k' v'] Hk Hk' [= E]. simpl in E. subst k'.
      apply elem_of_map_to_list in Hk, Hk'. congruence.
  - intros name. rewrite <- list_elem_of_In, sorted_elem.
    rewrite list_elem_of_fmap. split.
    + intros (p & -> & Hp). apply list_elem_of_filter in Hp as [Hp Hin].
      apply list_elem_of_fmap in Hin as ([k v] & -> & Hkv). simpl in *.
      by apply topic_dirb_child in Hp.
    + intros Hname. pose proof Hname as (children & Hlook & _).
      exists (TOPICS_DIR ++ [name]). split; [done|].
      apply list_elem_of_filter. split; [by apply topic_dirb_child|].
      apply list_elem_of_fmap. exists (name, Dir children). split; [done|].
      by apply elem_of_map_to_list.
Qed.

Lemma is_topic_insert (entries : gmap string Node) (slug name : string) (node : Node) :
  is_topic (<[slug := node]> entries) name
  <-> (name = slug /\ exists children, node = Dir children
                                     /\ is_Some (children !! "preferences.md"))
      \/ (name <> slug /\ is_topic entries name).
Proof.
  unfold is_topic. destruct (decide (name = slug)) as [->|Hne].
  - rewrite lookup_insert_eq. split.
    + intros (ch & [= ->] & H). left. eauto.
    + intros [[_ (ch & -> & H)] | [? _]]; [eauto | done].
  - rewrite lookup_insert_ne by done. split; [by right|].
    intros [[? _]|[_ H]]; done.
Qed.

Lemma is_topic_delete (entries : gmap string Node) (slug name : string) :
  is_topic (delete slug entries) name <-> name <> slug /\ is_topic entries name.
Proof.
  unfold is_topic. destruct (decide (name = slug)) as [->|Hne].
  - rewrite lookup_delete_eq. split; [by intros (? & ? & _) | by intros [? _]].
  - rewrite lookup_delete_ne by done. split; [by split | by intros [_ ?]].
Qed.


Lemma single_name_short (slug : string) : single_name slug -> too_long slug = false.
Proof.
  unfold single_name, path_div.
  destruct (String.eqb slug EmptyString || String.eqb slug "."); [discriminate|].
  destruct (too_long slug); [|done].
  by rewrite !orb_true_r.
Qed.

Lemma create_topic_fresh (entries : gmap string Node) (slug content : string) :
  single_name slug ->
  entries !! slug = None ->
  create_topic (Some (Dir entries)) slug content
  = Ok (Some (Dir (<[slug := new_topic_dir content]> entries)),
        "Created topic '" +:+ slug +:+ "'.").
Proof.
  intros Hname Hfresh. pose proof (single_name_short _ Hname) as Hshort.
  unfold create_topic. rewrite Hname. cbn [bind].
  unfold path_exists, lookup_path. simpl. rewrite Hfresh. simpl.
  unfold mkdir_parents. simpl. rewrite Hshort, Hfresh. simpl.
  unfold write_text. simpl. rewrite lookup_insert_eq. simpl.
  rewrite lookup_empty. simpl. rewrite insert_insert_eq. reflexivity.
Qed.

(** A text with both kinds of line ending other than the line feed, as
    it reads back. *)
Example line_endings_read_back :
  universal_newlines ("a" +:+ CR +:+ LF +:+ "b" +:+ CR +:+ "c" +:+ LF)
  = "a" +:+ LF +:+ "b" +:+ LF +:+ "c" +:+ LF.
Proof. vm_compute. reflexivity. Qed.



(** X2. Creating a topic twice is creating it once, for a name of at most
    255 bytes: the second call reports that the topic exists and leaves the
    store as it is, and the preferences read back are those of the first
    call, every line ending read as a line feed. *)
Theorem create_topic_twice (entries : gmap string Node) (slug first second : string) :
  single_name slug ->
  entries !! slug = None ->
  exists fs',
    create_topic (Some (Dir entries)) slug first
    = Ok (fs', "Created topic '" +:+ slug +:+ "'.")
    /\ create_topic fs' slug second
       = Ok (fs', "Topic '" +:+ slug +:+ "' already exists.")
    /\ read_text fs' [slug; "preferences.md"] = Ok (universal_newlines first).
Proof.
  intros Hname Hfresh. eexists. split; [by apply create_topic_fresh|]. split.
  - unfold create_topic. rewrite Hname. cbn [bind].
    unfold path_exists, lookup_path. simpl. by rewrite lookup_insert_eq.
  - unfold read_text, lookup_path. simpl. rewrite lookup_insert_eq. simpl.
    by rewrite lookup_insert_eq.
Qed.

(** The same topic created twice in the store of one topic. *)
Lemma create_topic_twice_witness :
  exists fs',
    create_topic (Some (Dir Shelf.one_topic)) "rust" "# Rust"
    = Ok (fs', "Created topic '" +:+ "rust" +:+ "'.")
    /\ create_topic fs' "rust" "# Other"
       = Ok (fs', "Topic '" +:+ "rust" +:+ "' already exists.")
    /\ read_text fs' ["rust"; "preferences.md"] = Ok (universal_newlines "# Rust").
Proof.
  apply (create_topic_twice Shelf.one_topic "rust" "# Rust" "# Other");
    vm_compute; reflexivity.
Defined.

(** X3. Deleting a topic just created under a free name, of at most 255
    bytes as the file system takes it, gives back the store as it was
    before. *)
Theorem create_then_delete_restores (entries : gmap string Node) (slug content : string) :
  single_name slug ->
  entries !! slug = None ->
  exists fs',
    create_topic (Some (Dir entries)) slug content
    = Ok (fs', "Created topic '" +:+ slug +:+ "'.")
    /\ delete_topic fs' slug
       = Ok (Some (Dir entries), "Deleted topic '" +:+ slug +:+ "'.").
Proof.
  intros Hname Hfresh. eexists. split; [by apply create_topic_fresh|].
  unfold delete_topic. rewrite Hname. cbn [bind].
  unfold path_exists, lookup_path, rmtree. simpl.
  rewrite !lookup_insert_eq. simpl. rewrite lookup_insert_eq. simpl.
  rewrite delete_insert_eq, delete_id by done. reflexivity.
Qed.

(** A topic created and deleted again in the store of one topic. *)
Lemma create_then_delete_restores_witness :
  exists fs',
    create_topic (Some (Dir Shelf.one_topic)) "rust" "# Rust"
    = Ok (fs', "Created topic '" +:+ "rust" +:+ "'.")
    /\ delete_topic fs' "rust"
       = Ok (Some (Dir Shelf.one_topic), "Deleted topic '" +:+ "rust" +:+ "'.").
Proof.
  apply (create_then_delete_restores Shelf.one_topic "rust" "# Rust");
    vm_compute; reflexivity.
Defined.

(** X4. Deleting completes on every store, for a name of at most 255
    bytes, and takes at most the one topic out of the listing: a topic goes
    with all it holds; a name that is absent, or an entry without
    preferences, leaves the store as it is. *)
Theorem delete_topic_effect (entries : gmap string Node) (slug : string) :
  single_name slug ->
  exists fs' message before after,
    delete_topic (Some (Dir entries)) slug = Ok (fs', message)
    /\ get_topic_slugs (Some (Dir entries)) = Ok before
    /\ get_topic_slugs fs' = Ok after
    /\ (forall name, In name after <-> name <> slug /\ In name before)
    /\ (is_topic entries slug -> fs' = Some (Dir (delete slug entries)))
    /\ (~ is_topic entries slug -> fs' = Some (Dir entries)).
Proof.
  intros Hname.
  destruct (slugs_of_entries entries) as (before & Hb & _ & _ & Hbefore).
  assert (Hkept : ~ is_topic entries slug ->
            (forall name, In name before <-> name <> slug /\ In name before)
            /\ (is_topic entries slug -> Some (Dir entries) = Some (Dir (delete slug entries)))
            /\ (~ is_topic entries slug -> Some (Dir entries) = Some (Dir entries))).
  { intros Hno. split; [|split; [done|done]].
    intros name. split; [|tauto]. intros Hin. split; [|done].
    intros ->. by apply Hbefore in Hin. }
  unfold delete_topic. rewrite Hname. cbn [bind].
  unfold path_exists, lookup_path, rmtree. simpl.
  destruct (entries !! slug) as [[c|children]|] eqn:Hslug; simpl.
  - exists (Some (Dir entries)); eexists; exists before, before.
    split; [done|]. split; [done|]. split; [done|]. apply Hkept.
    intros (ch & ? & _). congruence.
  - destruct (children !! "preferences.md") eqn:Hprefs; simpl.
    + destruct (slugs_of_entries (delete slug entries)) as (after & Ha & _ & _ & Hafter).
      exists (Some (Dir (delete slug entries))); eexists; exists before, after.
      split; [done|]. split; [done|]. split; [done|]. split.
      * intros name. by rewrite Hafter, Hbefore, is_topic_delete.
      * split; [done|]. intros Hno. exfalso. apply Hno. exists children. eauto.
    + exists (Some (Dir entries)); eexists; exists before, before.
      split; [done|]. split; [done|]. split; [done|]. apply Hkept.
      intros (ch & E & [x Hx]). congruence.
  - exists (Some (Dir entries)); eexists; exists before, before.
    split; [done|]. split; [done|]. split; [done|]. apply Hkept.
    intros (ch & ? & _). congruence.
Qed.

(** The one topic of a store deleted. *)
Lemma delete_topic_effect_witness :
  exists fs' message before after,
    delete_topic (Some (Dir Shelf.one_topic)) "ai-safety" = Ok (fs', message)
    /\ get_topic_slugs (Some (Dir Shelf.one_topic)) = Ok before
    /\ get_topic_slugs fs' = Ok after
    /\ (forall name, In name after <-> name <> "ai-safety" /\ In name before)
    /\ (is_topic Shelf.one_topic "ai-safety"
        -> fs' = Some (Dir (delete "ai-safety" Shelf.one_topic)))
    /\ (~ is_topic Shelf.one_topic "ai-safety" -> fs' = Some (Dir Shelf.one_topic)).
Proof.
  apply (delete_topic_effect Shelf.one_topic "ai-safety"). vm_compute. reflexivity.
Defined.

(** X5. Updating rewrites the preferences and nothing else: the new text
    reads back, every line ending read as a line feed, the listing is the
    same, and every other file of every topic is as before. *)
Theorem update_topic_effect (entries children : gmap string Node) (slug content : string)
    (old : Content) :
  single_name slug ->
  entries !! slug = Some (Dir children) ->
  children !! "preferences.md" = Some (File old) ->
  exists fs' before after,
    update_topic (Some (Dir entries)) slug content
    = Ok (fs', "Updated preferences for '" +:+ slug +:+ "'.")
    /\ read_text fs' [slug; "preferences.md"] = Ok (universal_newlines content)
    /\ get_topic_slugs (Some (Dir entries)) = Ok before
    /\ get_topic_slugs fs' = Ok after
    /\ (forall name, In name after <-> In name before)
    /\ (forall other file,
          (other, file) <> (slug, "preferences.md") ->
          lookup_path fs' [other; file] = lookup_path (Some (Dir entries)) [other; file]).
Proof.
  intros Hname Hdir Hprefs.
  destruct (slugs_of_entries entries) as (before & Hb & _ & _ & Hbefore).
  set (children' := <["preferences.md" := File (Text content)]> children).
  destruct (slugs_of_entries (<[slug := Dir children']> entries))
    as (after & Ha & _ & _ & Hafter).
  exists (Some (Dir (<[slug := Dir children']> entries))), before, after.
  split.
  { unfold update_topic. rewrite Hname. cbn [bind].
    unfold path_exists, lookup_path, write_text. simpl.
    rewrite Hdir. simpl. rewrite Hprefs. simpl. reflexivity. }
  split.
  { unfold read_text, lookup_path. simpl. rewrite lookup_insert_eq. simpl.
    subst children'. by rewrite lookup_insert_eq. }
  split; [done|]. split; [done|]. split.
  - intros name. rewrite Hafter, Hbefore, is_topic_insert. split.
    + intros [[-> _]|[_ H]]; [|done]. exists children. split; [done|]. by eexists.
    + intros H. destruct (decide (name = slug)) as [->|Hne]; [left|by right].
      split; [done|]. exists children'. split; [done|].
      subst children'. rewrite lookup_insert_eq. by eexists.
  - intros other file Hne. unfold lookup_path. simpl.
    destruct (decide (other = slug)) as [->|Hother].
    + rewrite lookup_insert_eq, Hdir. simpl. subst children'.
      rewrite lookup_insert_ne; [done|]. intros <-. by apply Hne.
    + by rewrite lookup_insert_ne.
Qed.

(** The preferences of the one topic rewritten. *)
Lemma update_topic_effect_witness :
  exists fs' before after,
    update_topic (Some (Dir Shelf.one_topic)) "ai-safety" "# New"
    = Ok (fs', "Updated preferences for '" +:+ "ai-safety" +:+ "'.")
    /\ read_text fs' ["ai-safety"; "preferences.md"] = Ok (universal_newlines "# New")
    /\ get_topic_slugs (Some (Dir Shelf.one_topic)) = Ok before
    /\ get_topic_slugs fs' = Ok after
    /\ (forall name, In name after <-> In name before)
    /\ (forall other file,
          (other, file) <> ("ai-safety", "preferences.md") ->
          lookup_path fs' [other; file]
          = lookup_path (Some (Dir Shelf.one_topic)) [other; file]).
Proof.
  apply (update_topic_effect Shelf.one_topic Shelf.bare "ai-safety" "# New" (Text "# Topic"));
    vm_compute; reflexivity.
Defined.

Lemma is_topic_rename (entries : gmap string Node) (old new name : string) (node : Node) :
  entries !! old = Some node ->
  entries !! new = None ->
  is_topic (<[new := node]> (delete old entries)) name
  <-> (name = new /\ is_topic entries old) \/ (name <> old /\ is_topic entries name).
Proof.
  intros Hold Hnew. assert (old <> new) by (intros ->; congruence).
  rewrite is_topic_insert, is_topic_delete. unfold is_topic. split.
  - intros [[-> (ch & -> & Hp)]|[Hne [Hne' H']]]; [left|right; done].
    split; [done|]. eauto.
  - intros [[-> (ch & E & Hp)]|[Hne (ch & E & Hp)]].
    + left. split; [done|]. exists ch. split; [congruence|done].
    + right. split; [intros ->; congruence|]. split; [done|]. eauto.
Qed.

(** X6. Renaming moves the entry, with all it holds, from the old slug to
    the slug made of the new name, a free name of at most 255 bytes, and
    the listing changes by that one name (when the entry was a topic). *)
Theorem rename_topic_moves (entries : gmap string Node) (old_slug new_name : string)
    (node : Node) :
  single_name old_slug ->
  single_name (to_slug new_name) ->
  entries !! old_slug = Some node ->
  entries !! to_slug new_name = None ->
  exists fs' before after,
    rename_topic (Some (Dir entries)) old_slug new_name
    = Ok (fs', "Renamed '" +:+ old_slug +:+ "' to '" +:+ to_slug new_name +:+ "'.")
    /\ lookup_path fs' [to_slug new_name] = Some node
    /\ lookup_path fs' [old_slug] = None
    /\ get_topic_slugs (Some (Dir entries)) = Ok before
    /\ get_topic_slugs fs' = Ok after
    /\ (forall name,
          In name after
          <-> (name = to_slug new_name /\ In old_slug before)
              \/ (name <> old_slug /\ In name before)).
Proof.
  intros Hold_name Hnew_name Hold Hnew.
  assert (Hne : old_slug <> to_slug new_name) by (intros E; rewrite E in Hold; congruence).
  destruct (slugs_of_entries entries) as (before & Hb & _ & _ & Hbefore).
  destruct (slugs_of_entries (<[to_slug new_name := node]> (delete old_slug entries)))
    as (after & Ha & _ & _ & Hafter).
  exists (Some (Dir (<[to_slug new_name := node]> (delete old_slug entries)))), before, after.
  split.
  { unfold rename_topic. rewrite Hold_name. cbn [bind]. rewrite Hnew_name. cbn [bind].
    unfold path_exists, lookup_path, rename_path. simpl.
    rewrite Hold, Hnew. simpl. rewrite (single_name_short _ Hnew_name). reflexivity. }
  split. { unfold lookup_path. simpl. by rewrite lookup_insert_eq. }
  split. { unfold lookup_path. simpl.
           rewrite lookup_insert_ne by done. by rewrite lookup_delete_eq. }
  split; [done|]. split; [done|].
  intros name. rewrite Hafter, !Hbefore. by apply is_topic_rename.
Qed.

(** The one topic renamed, the new name given with capitals and spaces. *)
Lemma rename_topic_moves_witness :
  to_slug " AI Alignment " = "ai-alignment"
  /\ exists fs' before after,
       rename_topic (Some (Dir Shelf.one_topic)) "ai-safety" " AI Alignment "
       = Ok (fs', "Renamed '" +:+ "ai-safety" +:+ "' to '" +:+ to_slug " AI Alignment "
                  +:+ "'.")
       /\ lookup_path fs' [to_slug " AI Alignment "] = Some (Dir Shelf.bare)
       /\ lookup_path fs' ["ai-safety"] = None
       /\ get_topic_slugs (Some (Dir Shelf.one_topic)) = Ok before
       /\ get_topic_slugs fs' = Ok after
       /\ (forall name,
             In name after
             <-> (name = to_slug " AI Alignment " /\ In "ai-safety" before)
                 \/ (name <> "ai-safety" /\ In name before)).
Proof.
  split; [vm_compute; reflexivity|].
  apply (rename_topic_moves Shelf.one_topic "ai-safety" " AI Alignment " (Dir Shelf.bare));
    vm_compute; reflexivity.
Defined.

(** ** Slugs *)

Lemma lower_char_idempotent (c : ascii) : lower_char (lower_char c) = lower_char c.
Proof. destruct c as [[] [] [] [] [] [] [] []]; reflexivity. Qed.

Lemma lower_char_space (c : ascii) : isspace (lower_char c) = isspace c.
Proof. destruct c as [[] [] [] [] [] [] [] []]; reflexivity. Qed.

Lemma lower_char_hyphenate (c : ascii) :
  lower_char (hyphenate c) = hyphenate (lower_char c).
Proof. destruct c as [[] [] [] [] [] [] [] []]; reflexivity. Qed.

Lemma hyphenate_idempotent (c : ascii) : hyphenate (hyphenate c) = hyphenate c.
Proof. destruct c as [[] [] [] [] [] [] [] []]; reflexivity. Qed.

Lemma hyphenate_not_space (c : ascii) : (nat_of_ascii (hyphenate c) =? 32)%nat = false.
Proof. destruct c as [[] [] [] [] [] [] [] []]; reflexivity. Qed.

Lemma hyphenate_clean (c : ascii) : isspace c = false -> hyphenate c = c.
Proof. destruct c as [[] [] [] [] [] [] [] []]; simpl; intros H; try reflexivity; discriminate. Qed.

Lemma lower_idempotent (s : string) : lower (lower s) = lower s.
Proof. induction s as [|c s IH]; simpl; [done|]. by rewrite lower_char_idempotent, IH. Qed.

Lemma lower_lstrip (s : string) : lower (lstrip s) = lstrip (lower s).
Proof.
  induction s as [|c s IH]; simpl; [done|].
  rewrite lower_char_space. destruct (isspace c); [done|]. reflexivity.
Qed.

Lemma lower_rstrip (s : string) : lower (rstrip s) = rstrip (lower s).
Proof.
  induction s as [|c s IH]; simpl; [done|].
  rewrite <- IH, lower_char_space.
  destruct (rstrip s) as [|k ks]; simpl; [by destruct (isspace c)|done].
Qed.

Lemma lower_strip (s : string) : lower (strip s) = strip (lower s).
Proof. unfold strip. by rewrite lower_rstrip, lower_lstrip. Qed.

Lemma lower_spaces_to_hyphens (s : string) :
  lower (spaces_to_hyphens s) = spaces_to_hyphens (lower s).
Proof.
  induction s as [|c s IH]; simpl; [done|].
  fold (hyphenate c). fold (hyphenate (lower_char c)).
  by rewrite lower_char_hyphenate, IH.
Qed.

Lemma spaces_to_hyphens_idempotent (s : string) :
  spaces_to_hyphens (spaces_to_hyphens s) = spaces_to_hyphens s.
Proof.
  induction s as [|c s IH]; simpl; [done|].
  fold (hyphenate c). fold (hyphenate (hyphenate c)).
  by rewrite hyphenate_idempotent, IH.
Qed.

Lemma spaces_to_hyphens_no_space (s : string) : has_space (spaces_to_hyphens s) = false.
Proof.
  induction s as [|c s IH]; simpl; [done|].
  fold (hyphenate c). by rewrite hyphenate_not_space, IH.
Qed.

Lemma lstrip_starts_clean (s : string) : starts_clean (lstrip s).
Proof.
  induction s as [|c s IH]; simpl; [done|].
  destruct (isspace c) eqn:E; [done|]. exact E.
Qed.

Lemma lstrip_clean (s : string) : starts_clean s -> lstrip s = s.
Proof. destruct s as [|c s]; simpl; [done|]. by intros ->. Qed.

Lemma rstrip_starts_clean (s : string) : starts_clean s -> starts_clean (rstrip s).
Proof.
  destruct s as [|c s]; simpl; [done|]. intros Hc.
  destruct (rstrip s); simpl; [by rewrite Hc|done].
Qed.

Lemma rstrip_idempotent (s : string) : rstrip (rstrip s) = rstrip s.
Proof.
  induction s as [|c s IH]; simpl; [done|].
  destruct (rstrip s) as [|k ks] eqn:E.
  - destruct (isspace c) eqn:Hc; simpl; [done|]. by rewrite Hc.
  - simpl. simpl in IH. by rewrite IH.
Qed.

Lemma spaces_to_hyphens_starts_clean (s : string) :
  starts_clean s -> starts_clean (spaces_to_hyphens s).
Proof.
  destruct s as [|c s]; simpl; [done|]. intros Hc.
  fold (hyphenate c). by rewrite hyphenate_clean.
Qed.

Lemma spaces_to_hyphens_rstrip (s : string) :
  rstrip s = s -> rstrip (spaces_to_hyphens s) = spaces_to_hyphens s.
Proof.
  induction s as [|c s IH]; simpl; [done|].
  fold (hyphenate c).
  destruct (rstrip s) as [|k ks] eqn:E.
  - destruct (isspace c) eqn:Hc; [discriminate|]. intros [= <-]. simpl.
    by rewrite hyphenate_clean, Hc.
  - intros [= Hs]. rewrite IH by done. rewrite <- Hs. simpl. reflexivity.
Qed.

(** X7. Making a slug is idempotent, and a slug holds no space. *)
Theorem to_slug_idempotent (name : string) :
  to_slug (to_slug name) = to_slug name /\ has_space (to_slug name) = false.
Proof.
  split; [|apply spaces_to_hyphens_no_space].
  unfold to_slug.
  rewrite lower_spaces_to_hyphens, lower_strip, lower_idempotent.
  set (t := strip (lower name)).
  assert (Hclean : starts_clean t).
  { apply rstrip_starts_clean, lstrip_starts_clean. }
  assert (Hend : rstrip t = t) by apply rstrip_idempotent.
  unfold strip at 1.
  rewrite (lstrip_clean (spaces_to_hyphens t)) by by apply spaces_to_hyphens_starts_clean.
  rewrite spaces_to_hyphens_rstrip by done.
  apply spaces_to_hyphens_idempotent.
Qed.

(** ** The content tools *)

Lemma any_link_has_spec (links : list PyVal) (url : string) :
  Forall is_dict links ->
  any_link_has links url = Ok (existsb (has_url url) links).
Proof.
  induction 1 as [|l rest [d ->] _ IH]; simpl; [done|].
  destruct (assoc "url" d) as [u|]; simpl.
  - destruct (eq_str u url); [done|]. exact IH.
  - exact IH.
Qed.

Lemma load_existing_holds (entries children : gmap string Node) (slug : string)
    (links : list PyVal) :
  entries !! slug = Some (Dir children) ->
  holds_links children links ->
  load_existing (Some (Dir entries)) [slug; "links.yaml"] = Ok (VList links).
Proof.
  intros Hdir Hlinks. unfold load_existing, path_exists, safe_load_file, lookup_path.
  simpl. rewrite Hdir. destruct Hlinks as [[-> ->]| ->]; [done|]. simpl.
  unfold py_or. by destruct links.
Qed.

Lemma write_links (entries children : gmap string Node) (slug : string)
    (links : list PyVal) (c : Content) :
  entries !! slug = Some (Dir children) ->
  holds_links children links ->
  write_node (Dir entries) [slug; "links.yaml"] c
  = Ok (Dir (<[slug := Dir (<["links.yaml" := File c]> children)]> entries)).
Proof.
  intros Hdir Hlinks. simpl. rewrite Hdir. simpl.
  destruct Hlinks as [[-> ->]| ->]; reflexivity.
Qed.

Lemma dump_links (entries children : gmap string Node) (slug : string)
    (links : list PyVal) (doc : PyVal) :
  entries !! slug = Some (Dir children) ->
  holds_links children links ->
  dump_file (Some (Dir entries)) [slug; "links.yaml"] doc
  = Ok (with_links entries children slug (dumped doc)).
Proof.
  intros Hdir Hlinks. unfold dump_file.
  by rewrite (write_links _ _ _ _ _ Hdir Hlinks).
Qed.

Lemma dump_links_quoted (entries children : gmap string Node) (slug : string)
    (links : list PyVal) (doc : PyVal) :
  entries !! slug = Some (Dir children) ->
  holds_links children links ->
  dump_file_quoted (Some (Dir entries)) [slug; "links.yaml"] doc
  = Ok (with_links entries children slug (Doc doc)).
Proof.
  intros Hdir Hlinks. unfold dump_file_quoted.
  by rewrite (write_links _ _ _ _ _ Hdir Hlinks).
Qed.

Lemma dumped_plain (doc : PyVal) : yaml_plain doc = true -> dumped doc = Doc doc.
Proof. intros H. unfold dumped. by rewrite H. Qed.

Lemma yaml_plain_list (l : list PyVal) :
  yaml_plain (VList l) = forallb yaml_plain l.
Proof. reflexivity. Qed.

Lemma yaml_plain_app (l1 l2 : list PyVal) :
  yaml_plain (VList (l1 ++ l2)) = yaml_plain (VList l1) && yaml_plain (VList l2).
Proof. rewrite !yaml_plain_list. apply forallb_app. Qed.

Lemma assoc_plain (k : string) (d : list (string * PyVal)) (v : PyVal) :
  yaml_plain (VDict d) = true -> assoc k d = Some v -> yaml_plain v = true.
Proof.
  induction d as [|[k' x] rest IH]; [done|]. intros Hd. simpl in Hd.
  apply andb_true_iff in Hd as [Hkx Hrest]. apply andb_true_iff in Hkx as [_ Hx].
  simpl. destruct (String.eqb k k'); [congruence|]. by apply IH.
Qed.

Lemma stamped_plain (date : string) (a : PyVal) :
  holds_nel date = false -> yaml_plain a = true -> yaml_plain (stamped date a) = true.
Proof.
  intros Hdate Ha. destruct a as [| | | | |d]; try done.
  assert (Hget : forall k fallback,
    yaml_plain fallback = true -> yaml_plain (default fallback (assoc k d)) = true).
  { intros k fallback Hf. destruct (assoc k d) as [v|] eqn:E; [|done].
    simpl. by eapply assoc_plain. }
  unfold stamped, link_record, article_url.
  change (yaml_plain (VDict ?l)) with
    (forallb (fun kv : string * PyVal =>
                let (k, x) := kv in negb (holds_nel k) && yaml_plain x) l).
  cbn [forallb]. rewrite !Hget by done. simpl. by rewrite Hdate.
Qed.

Lemma to_append_plain (date : string) (links articles : list PyVal) :
  holds_nel date = false ->
  yaml_plain (VList articles) = true ->
  yaml_plain (VList (map (stamped date) (to_append links articles))) = true.
Proof.
  intros Hdate. rewrite !yaml_plain_list. intros Hall.
  apply forallb_forall. intros x Hx. apply in_map_iff in Hx as (a & <- & Ha).
  apply stamped_plain; [done|]. rewrite forallb_forall in Hall. apply Hall.
  apply list_elem_of_In. apply list_elem_of_In in Ha.
  unfold to_append in Ha. by apply list_elem_of_filter in Ha as [_ Ha].
Qed.

Lemma count_links_app (url : string) (l1 l2 : list PyVal) :
  count_links url (l1 ++ l2) = count_links url l1 + count_links url l2.
Proof. unfold count_links. by rewrite filter_app, length_app. Qed.

Lemma count_links_pos (url : string) (links : list PyVal) :
  existsb (has_url url) links = true <-> 0 < count_links url links.
Proof.
  unfold count_links. induction links as [|l rest IH]; simpl; [split; [done|lia]|].
  rewrite filter_cons. case_decide as Hd.
  - rewrite Hd. simpl. split; [lia|done].
  - apply not_true_is_false in Hd. rewrite Hd. exact IH.
Qed.

Lemma save_article_result (today : string) (entries children : gmap string Node)
    (slug title url reason : string) (links : list PyVal) :
  single_name slug ->
  entries !! slug = Some (Dir children) ->
  holds_links children links ->
  Forall is_dict links ->
  save_article today (Some (Dir entries)) slug title url reason
  = if existsb (has_url url) links
    then Ok (Some (Dir entries), "Article already saved: " +:+ url)
    else Ok (with_links entries children slug
               (dumped (VList (links ++ [article_record title url reason today]))),
             "Saved '" +:+ title +:+ "' to " +:+ slug +:+ ".").
Proof.
  intros Hname Hdir Hlinks Hdicts. unfold save_article. rewrite Hname. cbn [bind].
  replace (path_exists (Some (Dir entries)) [slug]) with true
    by (unfold path_exists, lookup_path; simpl; by rewrite Hdir).
  cbn [negb].
  change (path_div [slug] (VStr "links.yaml")) with (Ok (A:=Path) [slug; "links.yaml"]).
  cbn [bind]. fold (load_existing (Some (Dir entries)) [slug; "links.yaml"]).
  rewrite (load_existing_holds _ _ _ _ Hdir Hlinks). cbn [bind iterate].
  rewrite any_link_has_spec by done. cbn [bind].
  destruct (existsb (has_url url) links); [done|].
  cbn [py_append bind]. fold (article_record title url reason today).
  by rewrite (dump_links _ _ _ _ _ Hdir Hlinks).
Qed.

(** An article whose URL holds U+0085, saved for the topic that has one
    link: the call completes, and what the links file then loads as is
    not written out. *)
Example next_line_is_not_kept :
  exists fs',
    save_article "2026-01-01" (Some (Dir Shelf.one_stocked_topic)) "ai-safety" "T"
      ("https://x/a" +:+ NEL +:+ "b") "R"
    = Ok (fs', "Saved 'T' to ai-safety.")
    /\ load_existing fs' ["ai-safety"; "links.yaml"] = Unmodelled.
Proof. eexists. split; vm_compute; reflexivity. Qed.

(** X8. The saving tool keeps one link per URL. For a links file and an
    article whose strings hold no next-line character (U+0085, which the
    default YAML style does not write back as it was): after the call the
    URL is on file once if it was absent, as often as before otherwise; the
    links with other URLs are as many as before; and the same call again
    reports the article as saved already and writes nothing. *)
Theorem save_article_counts (today : string) (entries children : gmap string Node)
    (slug title url reason : string) (links : list PyVal) :
  single_name slug ->
  entries !! slug = Some (Dir children) ->
  holds_links children links ->
  Forall is_dict links ->
  yaml_plain (VList links) = true ->
  yaml_plain (article_record title url reason today) = true ->
  exists fs' message after,
    save_article today (Some (Dir entries)) slug title url reason = Ok (fs', message)
    /\ load_existing fs' [slug; "links.yaml"] = Ok (VList after)
    /\ count_links url after = Nat.max 1 (count_links url links)
    /\ (forall other, other <> url -> count_links other after = count_links other links)
    /\ save_article today fs' slug title url reason
       = Ok (fs', "Article already saved: " +:+ url).
Proof.
  intros Hname Hdir Hlinks Hdicts Hplain Hrecord.
  pose proof (save_article_result today _ _ _ title url reason _ Hname Hdir Hlinks Hdicts)
    as Hsave.
  destruct (existsb (has_url url) links) eqn:Hdup.
  - exists (Some (Dir entries)); eexists; exists links.
    split; [exact Hsave|]. split; [by eapply load_existing_holds|].
    apply count_links_pos in Hdup. split; [lia|]. split; [done|].
    rewrite (save_article_result today _ _ _ title url reason _ Hname Hdir Hlinks Hdicts).
    apply count_links_pos in Hdup. by rewrite Hdup.
  - set (after := links ++ [article_record title url reason today]) in *.
    assert (Hafter : dumped (VList after) = Doc (VList after)).
    { apply dumped_plain. subst after. rewrite yaml_plain_app, Hplain.
      rewrite yaml_plain_list. cbn [forallb]. by rewrite Hrecord. }
    rewrite Hafter in Hsave. unfold with_links in Hsave.
    set (children' := <["links.yaml" := File (Doc (VList after))]> children) in *.
    assert (Hdir' : <[slug := Dir children']> entries !! slug = Some (Dir children'))
      by apply lookup_insert_eq.
    assert (Hlinks' : holds_links children' after).
    { right. subst children'. apply lookup_insert_eq. }
    assert (Hnone : count_links url links = 0).
    { destruct (count_links url links) eqn:E; [done|].
      assert (existsb (has_url url) links = true); [|congruence].
      apply count_links_pos. lia. }
    exists (Some (Dir (<[slug := Dir children']> entries))); eexists; exists after.
    split; [exact Hsave|].
    split; [by eapply load_existing_holds|]. split; [|split].
    + subst after. rewrite count_links_app, Hnone. unfold count_links. simpl.
      rewrite filter_cons, decide_True; [done|]. simpl. by rewrite String.eqb_refl.
    + intros other Hother. subst after. rewrite count_links_app.
      unfold count_links at 2. simpl. rewrite filter_cons, decide_False; [simpl; lia|].
      simpl. intros E. apply String.eqb_eq in E. congruence.
    + rewrite (save_article_result today _ children' _ title url reason after Hname Hdir' Hlinks').
      * subst after. rewrite existsb_app. simpl. rewrite String.eqb_refl.
        by rewrite orb_true_r.
      * subst after. apply Forall_app. split; [done|]. constructor; [|constructor].
        by eexists.
Qed.

(** A new article saved for the topic that has one link. *)
Lemma save_article_counts_witness :
  exists fs' message after,
    save_article "2026-01-01" (Some (Dir Shelf.one_stocked_topic)) "ai-safety" "T"
      "https://new" "R" = Ok (fs', message)
    /\ load_existing fs' ["ai-safety"; "links.yaml"] = Ok (VList after)
    /\ count_links "https://new" after
       = Nat.max 1 (count_links "https://new" [Shelf.old_link])
    /\ (forall other, other <> "https://new" ->
                      count_links other after = count_links other [Shelf.old_link])
    /\ save_article "2026-01-01" fs' "ai-safety" "T" "https://new" "R"
       = Ok (fs', "Article already saved: " +:+ "https://new").
Proof.
  apply (save_article_counts "2026-01-01" Shelf.one_stocked_topic Shelf.stocked
           "ai-safety" "T" "https://new" "R" [Shelf.old_link]).
  - vm_compute. reflexivity.
  - vm_compute. reflexivity.
  - right. vm_compute. reflexivity.
  - constructor; [|constructor]. eexists. reflexivity.
  - vm_compute. reflexivity.
  - vm_compute. reflexivity.
Defined.

(** ** The saving stage, run after run *)


Lemma stamped_url (date : string) (a : PyVal) :
  dict_with_scalar_url a -> link_url (stamped date a) = article_url a.
Proof. by intros (d & -> & _). Qed.

Lemma article_url_scalar (a : PyVal) :
  dict_with_scalar_url a -> hashable (article_url a) = true.
Proof. intros (d & -> & Hu). simpl. by destruct (assoc "url" d). Qed.

(** What the stage does on the inputs it is meant for, written out. *)
Lemma save_articles_store (env : Oracles) (entries children : gmap string Node)
    (name : string) (links articles : list PyVal) (text : string) (state : ScoutState) :
  single_name name ->
  entries !! name = Some (Dir children) ->
  holds_links children links ->
  Forall dict_with_scalar_url links ->
  topic_slug state = Some (VStr name) ->
  recommended state = Some (VList articles) ->
  Forall dict_with_scalar_url articles ->
  summary state = Some (VStr text) ->
  exists upd,
    _save_articles env (Some (Dir entries)) state
    = Ok (match to_append links articles with
          | [] => Some (Dir entries)
          | _ :: _ =>
              with_links entries children name
                (dumped (VList (links ++ map (stamped (today env))
                                             (to_append links articles))))
          end, upd)
    /\ (articles <> [] -> to_append links articles = [] ->
        upd = summary_update (VStr (text +:+ DUPLICATES_NOTE))).
Proof.
  intros Hname Hdir Hfile Hlinks Hslug Hrecs Harticles Hsummary.
  destruct (url_set_completes links Hlinks []) as [urls Hurls].
  unfold _save_articles. rewrite Hslug, Hrecs, Hsummary. simpl state_get.
  destruct articles as [|a0 rest0] eqn:Hlist.
  { simpl. eexists. split; [reflexivity|]. done. }
  rewrite <- Hlist in *.
  replace (negb (truthy (VList articles))) with false by (by subst).
  rewrite Hname. cbn [bind].
  change (path_div [name] (VStr "links.yaml")) with (Ok (A:=Path) [name; "links.yaml"]).
  cbn [bind]. fold (load_existing (Some (Dir entries)) [name; "links.yaml"]).
  rewrite (load_existing_holds _ _ _ _ Hdir Hfile). cbn [bind iterate].
  rewrite Hurls. cbn [bind iterate].
  destruct (save_loop_completes (today env) urls articles Harticles links 0) as [[r k] Hloop].
  rewrite Hloop. cbn [bind py_str].
  pose proof Hloop as [-> ->]%save_loop_spec.
  rewrite (fresh_is_to_append _ _ _ Hurls).
  destruct (to_append links articles) as [|f fresh] eqn:Hfresh.
  - simpl. eexists. split; [reflexivity|]. done.
  - replace (0 <? 0 + length (f :: fresh))%nat with true by done.
    rewrite (dump_links _ _ _ _ _ Hdir Hfile). cbn [bind].
    destruct (urls_not_in_completes urls articles Harticles) as (cands & -> & Hc). cbn [bind].
    destruct (arrow_lines_completes (take (0 + length (f :: fresh)) cands)) as [lines ->].
    { by apply Forall_take. }
    cbn [bind py_str]. eexists. split; [reflexivity|]. done.
Qed.



Lemma to_append_scalar (links articles : list PyVal) :
  Forall dict_with_scalar_url articles ->
  Forall dict_with_scalar_url (to_append links articles).
Proof.
  intros Harticles. apply Forall_forall. intros a Ha. unfold to_append in Ha.
  apply list_elem_of_filter in Ha as [_ Ha].
  rewrite Forall_forall in Harticles. by apply Harticles.
Qed.






Lemma link_with_url_scalar (l : PyVal) : link_with_url l -> dict_with_scalar_url l.
Proof. intros (d & u & -> & Hu & Hh). exists d. split; [done|]. by rewrite Hu. Qed.

Lemma stamped_link (date : string) (a : PyVal) :
  dict_with_scalar_url a -> link_with_url (stamped date a).
Proof.
  intros Ha. pose proof (article_url_scalar a Ha) as Hh. destruct Ha as (d & -> & _).
  eexists _, (article_url (VDict d)). split; [reflexivity|]. by split.
Qed.

Lemma link_urls_of_links (links : list PyVal) :
  Forall link_with_url links -> link_urls links = Ok (map link_url links).
Proof.
  induction 1 as [|l rest (d & u & -> & Hu & _) _ IH]; simpl; [done|].
  by rewrite Hu, IH.
Qed.

(** The context stage on a topic as the tools leave it; the preferences
    are read with every line ending as a line feed. *)
Lemma load_context_links (entries children : gmap string Node) (name prefs : string)
    (links : list PyVal) (state : ScoutState) :
  single_name name ->
  entries !! name = Some (Dir children) ->
  children !! "preferences.md" = Some (File (Text prefs)) ->
  holds_links children links ->
  Forall link_with_url links ->
  topic_slug state = Some (VStr name) ->
  _load_context (Some (Dir entries)) state
  = Ok (context_update (VStr (universal_newlines prefs)) (VList (map link_url links))).
Proof.
  intros Hname Hdir Hprefs Hfile Hlinks Hslug.
  unfold _load_context. rewrite Hslug. simpl state_get. rewrite Hname. cbn [bind].
  change (path_div [name] (VStr "preferences.md"))
    with (Ok (A:=Path) [name; "preferences.md"]).
  change (path_div [name] (VStr "links.yaml")) with (Ok (A:=Path) [name; "links.yaml"]).
  cbn [bind].
  replace (path_exists (Some (Dir entries)) [name; "preferences.md"]) with true
    by (unfold path_exists, lookup_path; simpl; by rewrite Hdir, Hprefs).
  replace (read_text (Some (Dir entries)) [name; "preferences.md"])
    with (Ok (A:=string) (universal_newlines prefs))
    by (unfold read_text, lookup_path; simpl; by rewrite Hdir, Hprefs).
  cbn [bind].
  pose proof (load_existing_holds _ _ _ _ Hdir Hfile) as Hload.
  unfold load_existing in Hload.
  destruct (path_exists (Some (Dir entries)) [name; "links.yaml"]).
  - apply bind_Ok_inv in Hload as (doc & -> & [= Hdoc]). cbn [bind]. rewrite Hdoc.
    cbn [iterate bind]. by rewrite link_urls_of_links.
  - injection Hload as <-. done.
Qed.

(** X11. What the saving stage writes is what the context stage of the next
    run loads as saved already: the URLs that were on file, then the URLs of
    the recommendations that had a URL no link on file carried, in the
    order recommended; the preferences are read as before, every line
    ending as a line feed. The strings of the links on file, of the
    recommendations and of the date hold no next-line character (U+0085),
    so that the file loads as it was written. *)
Theorem saved_then_loaded (env : Oracles) (entries children : gmap string Node)
    (name prefs : string) (links articles : list PyVal) (text : string)
    (state : ScoutState) :
  single_name name ->
  entries !! name = Some (Dir children) ->
  children !! "preferences.md" = Some (File (Text prefs)) ->
  holds_links children links ->
  Forall link_with_url links ->
  topic_slug state = Some (VStr name) ->
  recommended state = Some (VList articles) ->
  Forall dict_with_scalar_url articles ->
  summary state = Some (VStr text) ->
  yaml_plain (VList links) = true ->
  yaml_plain (VList articles) = true ->
  holds_nel (today env) = false ->
  exists fs' upd,
    _save_articles env (Some (Dir entries)) state = Ok (fs', upd)
    /\ _load_context (Some (Dir entries)) state
       = Ok (context_update (VStr (universal_newlines prefs))
               (VList (map link_url links)))
    /\ _load_context fs' state
       = Ok (context_update (VStr (universal_newlines prefs))
               (VList (map link_url links
                       ++ map article_url (to_append links articles)))).
Proof.
  intros Hname Hdir Hprefs Hfile Hlinks Hslug Hrecs Harticles Hsummary Hplain Hrecplain
    Hdate.
  assert (Hscalar : Forall dict_with_scalar_url links).
  { eapply Forall_impl; [exact Hlinks|]. apply link_with_url_scalar. }
  destruct (save_articles_store env _ _ _ _ _ _ _ Hname Hdir Hfile Hscalar Hslug Hrecs
              Harticles Hsummary) as (upd & Hrun & _).
  eexists; exists upd. split; [exact Hrun|].
  split; [by eapply load_context_links|].
  destruct (to_append links articles) as [|f fresh] eqn:Hfresh.
  - simpl. rewrite app_nil_r. by eapply load_context_links.
  - rewrite <- Hfresh. unfold with_links.
    set (links' := links ++ map (stamped (today env)) (to_append links articles)).
    assert (Hdoc : dumped (VList links') = Doc (VList links')).
    { apply dumped_plain. subst links'. rewrite yaml_plain_app, Hplain.
      by rewrite to_append_plain. }
    rewrite Hdoc.
    pose proof (to_append_scalar links articles Harticles) as Hsub.
    assert (Hurl : map link_url links'
                   = map link_url links ++ map article_url (to_append links articles)).
    { subst links'. rewrite map_app. f_equal. rewrite map_map.
      apply map_ext_Forall. eapply Forall_impl; [exact Hsub|].
      intros a Ha. by apply stamped_url. }
    rewrite <- Hurl.
    apply load_context_links
      with (name := name)
           (children := <["links.yaml" := File (Doc (VList links'))]> children).
    + done.
    + apply lookup_insert_eq.
    + by rewrite lookup_insert_ne.
    + right. apply lookup_insert_eq.
    + apply Forall_app. split; [done|]. apply Forall_map.
      eapply Forall_impl; [exact Hsub|]. intros a Ha. by apply stamped_link.
    + done.
Qed.

(** One new article and one on file already recommended for the topic
    that has one link, and the context loaded before and after. *)
Lemma saved_then_loaded_witness :
  exists fs' upd,
    _save_articles Samples.sure (Some (Dir Shelf.one_stocked_topic))
      (Samples.save_input [Samples.article "https://old"; Samples.article "https://x"])
    = Ok (fs', upd)
    /\ _load_context (Some (Dir Shelf.one_stocked_topic))
         (Samples.save_input [Samples.article "https://old"; Samples.article "https://x"])
       = Ok (context_update (VStr (universal_newlines "# Topic"))
               (VList (map link_url [Shelf.old_link])))
    /\ _load_context fs'
         (Samples.save_input [Samples.article "https://old"; Samples.article "https://x"])
       = Ok (context_update (VStr (universal_newlines "# Topic"))
               (VList (map link_url [Shelf.old_link]
                       ++ map article_url
                            (to_append [Shelf.old_link]
                               [Samples.article "https://old";
                                Samples.article "https://x"])))).
Proof.
  apply (saved_then_loaded Samples.sure Shelf.one_stocked_topic Shelf.stocked
           "ai-safety" "# Topic" [Shelf.old_link]
           [Samples.article "https://old"; Samples.article "https://x"] "S"
           (Samples.save_input [Samples.article "https://old"; Samples.article "https://x"])).
  - vm_compute. reflexivity.
  - vm_compute. reflexivity.
  - vm_compute. reflexivity.
  - right. vm_compute. reflexivity.
  - constructor; [|constructor]. eexists _, _. split; [reflexivity|]. split; reflexivity.
  - reflexivity.
  - reflexivity.
  - repeat constructor; eexists; (split; [reflexivity|]); reflexivity.
  - reflexivity.
  - vm_compute. reflexivity.
  - vm_compute. reflexivity.
  - vm_compute. reflexivity.
Defined.

(** Rewriting the links file of a topic changes what no other path leads
    to. *)
Lemma with_links_frame (entries children : gmap string Node) (name : string)
    (links : list PyVal) (c : Content) (q : Path) :
  entries !! name = Some (Dir children) ->
  holds_links children links ->
  ~ q `prefix_of` [name; "links.yaml"] ->
  lookup_path (with_links entries children name c) q
  = lookup_path (Some (Dir entries)) q.
Proof.
  intros Hdir Hfile Hq. unfold with_links, lookup_path.
  destruct q as [|a q]; [exfalso; apply Hq; apply prefix_nil|]. simpl.
  destruct (decide (a = name)) as [->|Ha]; [|by rewrite lookup_insert_ne].
  rewrite lookup_insert_eq, Hdir.
  destruct q as [|b q]; [exfalso; apply Hq; by exists ["links.yaml"]|]. simpl.
  destruct (decide (b = "links.yaml")) as [->|Hb]; [|by rewrite lookup_insert_ne].
  rewrite lookup_insert_eq.
  destruct q as [|c' q]; [exfalso; apply Hq; by exists []|]. simpl.
  by destruct Hfile as [[-> _]| ->].
Qed.

(** X12. The saving stage leaves every path alone that does not lead to the
    links file of its topic. *)
Theorem save_articles_touches_links_only (env : Oracles)
    (entries children : gmap string Node) (name : string) (links articles : list PyVal)
    (text : string) (state : ScoutState) :
  single_name name ->
  entries !! name = Some (Dir children) ->
  holds_links children links ->
  Forall dict_with_scalar_url links ->
  topic_slug state = Some (VStr name) ->
  recommended state = Some (VList articles) ->
  Forall dict_with_scalar_url articles ->
  summary state = Some (VStr text) ->
  exists fs' upd,
    _save_articles env (Some (Dir entries)) state = Ok (fs', upd)
    /\ forall q, ~ q `prefix_of` [name; "links.yaml"] ->
                 lookup_path fs' q = lookup_path (Some (Dir entries)) q.
Proof.
  intros Hname Hdir Hfile Hlinks Hslug Hrecs Harticles Hsummary.
  destruct (save_articles_store env _ _ _ _ _ _ _ Hname Hdir Hfile Hlinks Hslug Hrecs
              Harticles Hsummary) as (upd & Hrun & _).
  eexists; exists upd. split; [exact Hrun|]. intros q Hq.
  destruct (to_append links articles); [done|].
  by eapply with_links_frame.
Qed.

(** One new article saved for the topic that has one link. *)
Lemma save_articles_touches_links_only_witness :
  exists fs' upd,
    _save_articles Samples.sure (Some (Dir Shelf.one_stocked_topic))
      (Samples.save_input [Samples.article "https://x"]) = Ok (fs', upd)
    /\ forall q, ~ q `prefix_of` ["ai-safety"; "links.yaml"] ->
                 lookup_path fs' q = lookup_path (Some (Dir Shelf.one_stocked_topic)) q.
Proof.
  apply (save_articles_touches_links_only Samples.sure Shelf.one_stocked_topic
           Shelf.stocked "ai-safety" [Shelf.old_link] [Samples.article "https://x"] "S"
           (Samples.save_input [Samples.article "https://x"])).
  - vm_compute. reflexivity.
  - vm_compute. reflexivity.
  - right. vm_compute. reflexivity.
  - constructor; [|constructor]. eexists. split; [reflexivity|]. reflexivity.
  - reflexivity.
  - reflexivity.
  - constructor; [|constructor]. eexists. split; [reflexivity|]. reflexivity.
  - reflexivity.
Defined.

(** ** The replies read from a run *)

Lemma find_skips (after : list Message) (m : Message) (before : list Message) :
  Forall no_reply after ->
  is_AIMessage m && negb (String.eqb (content_of m) EmptyString) = true ->
  List.find (fun msg => is_AIMessage msg && negb (String.eqb (content_of msg) EmptyString))
    (rev (before ++ m :: after)) = Some m.
Proof.
  intros Hafter Hm. rewrite rev_app_distr. simpl. rewrite <- app_assoc. simpl.
  assert (Hrev : Forall no_reply (rev after)) by (by apply Forall_rev).
  induction Hrev as [|x rest Hx _ IH]; simpl.
  - by rewrite Hm.
  - unfold no_reply in Hx. by rewrite Hx.
Qed.

(** X13. The extraction step reads the last reply of the search agent: an
    [AIMessage] with content decides when every message after it is a
    message of another kind or has no content, whatever came before. *)
Theorem extraction_reads_last_reply (before after : list Message) (content : string)
    (calls : list ToolCall) :
  content <> EmptyString ->
  Forall no_reply after ->
  extract_recommendations (before ++ AIMessage content calls :: after)
  = parse_reply content.
Proof.
  intros Hcontent Hafter. unfold extract_recommendations.
  rewrite (find_skips after (AIMessage content calls) before Hafter); [done|].
  simpl. by apply negb_true_iff, String.eqb_neq.
Qed.

(** The fenced sample reply, followed by a tool result and an empty
    reply. *)
Lemma extraction_reads_last_reply_witness :
  extract_recommendations
    ([HumanMessage "find"] ++ AIMessage Samples.fenced_reply [] :: Shelf.trailing)
  = parse_reply Samples.fenced_reply.
Proof.
  apply (extraction_reads_last_reply [HumanMessage "find"] Shelf.trailing
           Samples.fenced_reply []).
  - discriminate.
  - constructor; [reflexivity|]. constructor; [reflexivity|]. constructor.
Defined.

(** X14. The response of a turn is the content of its last [AIMessage] that
    has any; a turn without one has the stock response. *)
Theorem response_is_last_reply (before after : list Message) (content : string)
    (calls : list ToolCall) :
  content <> EmptyString ->
  Forall no_reply after ->
  last_response (before ++ AIMessage content calls :: after) = content
  /\ last_response after = "No response generated.".
Proof.
  intros Hcontent Hafter. unfold last_response. split.
  - rewrite (find_skips after (AIMessage content calls) before Hafter); [done|].
    simpl. by apply negb_true_iff, String.eqb_neq.
  - assert (Hrev : Forall no_reply (rev after)) by (by apply Forall_rev).
    induction Hrev as [|x rest Hx _ IH]; simpl; [done|].
    unfold no_reply in Hx. by rewrite Hx.
Qed.

(** A reply followed by a tool result and an empty reply. *)
Lemma response_is_last_reply_witness :
  last_response ([HumanMessage "hi"] ++ AIMessage "Hello." [] :: Shelf.trailing) = "Hello."
  /\ last_response Shelf.trailing = "No response generated.".
Proof.
  apply (response_is_last_reply [HumanMessage "hi"] Shelf.trailing "Hello." []).
  - discriminate.
  - constructor; [reflexivity|]. constructor; [reflexivity|]. constructor.
Defined.

(** ** Routing *)

Lemma should_continue_last (msgs : list Message) (last_message : Message)
    (state : MultiAgentState) :
  messages state = Some (msgs ++ [last_message]) ->
  should_continue state
  = match last_message with
    | AIMessage _ [] => "__end__"
    | _ => "agent"
    end.
Proof.
  intros H. unfold should_continue. rewrite H. simpl. rewrite rev_app_distr. simpl.
  by destruct last_message as [c|c [|call calls]|c i].
Qed.

Lemma continues_after_note (state upd : MultiAgentState) (rt : ToolRuntime)
    (text id : string) :
  messages upd = Some (handoff_messages rt (ToolMessage text id)) ->
  should_continue (apply_update state upd) = "agent".
Proof.
  intros H. destruct (handoff_messages_end rt (ToolMessage text id)) as [carried Hc].
  rewrite (should_continue_last (state_get (messages state) [] ++ carried)
             (ToolMessage text id)); [done|].
  unfold apply_update. simpl. rewrite H, Hc. by rewrite app_assoc.
Qed.

(** X15. After any of the three handoffs the outer graph runs the agent node
    again: the transfer note is the last message, and it is no [AIMessage]. *)
Theorem handoff_continues (state : MultiAgentState) (rt : ToolRuntime)
    (task topic_slug summary : string) :
  should_continue (apply_update state (update (handoff_to_topics task rt))) = "agent"
  /\ should_continue (apply_update state (update (handoff_to_scout task topic_slug rt)))
     = "agent"
  /\ should_continue (apply_update state (update (handoff_to_supervisor summary rt)))
     = "agent".
Proof. repeat split; by eapply continues_after_note. Qed.

(** X16. When the scout completes, the turn ends: the message its update
    appends is an [AIMessage] without tool calls, so the outer graph does
    not run the agent node again, although the update names the supervisor
    as the active agent. *)
Theorem scout_result_ends_turn (env : Oracles) (fs fs' : FS) (resume : option string)
    (state upd : MultiAgentState) :
  ContentScout.invoke env fs resume state = Ok (fs', upd) ->
  should_continue (apply_update state upd) = "__end__".
Proof.
  intros H. unfold ContentScout.invoke in H.
  apply bind_Ok_inv in H as (task & _ & H).
  apply bind_Ok_inv in H as (slug & _ & H).
  apply bind_Ok_inv in H as ([fs1 result] & _ & H).
  apply bind_Ok_inv in H as (content & _ & [= <- <-]).
  by rewrite (should_continue_last (state_get (messages state) []) (AIMessage content [])).
Qed.

(** The run of the sure model on the sample store. *)
Lemma scout_result_ends_turn_witness :
  ContentScout.invoke Samples.sure Samples.two_topics None Samples.handed_to_scout
  = Ok (Samples.store_after_run, Samples.handback)
  /\ should_continue (apply_update Samples.handed_to_scout Samples.handback) = "__end__".
Proof.
  assert (Hrun :
    ContentScout.invoke Samples.sure Samples.two_topics None Samples.handed_to_scout
    = Ok (Samples.store_after_run, Samples.handback)).
  { vm_compute. reflexivity. }
  split; [exact Hrun|].
  exact (scout_result_ends_turn Samples.sure Samples.two_topics Samples.store_after_run
           None Samples.handed_to_scout Samples.handback Hrun).
Defined.

(** X17. Across the calls of a conversation, whatever the graph does: the
    inputs the graph is called with, read from a log kept at the graph,
    are the messages one by one, each as a resume value when the call
    before returned a question and as a fresh turn of one human message
    otherwise; the call that does not return is the last one made. *)
Theorem conversation_well_routed {G : Type} (invoke : Invoke G) (inbound : list string) :
  forall (flag : bool) (log : list GraphInput) (g : G),
    match converse (recording invoke) (mkOrchestrator flag (log, g)) inbound with
    | (final, replies) =>
        fst (graph_state final) = log ++ expected_inputs flag inbound replies
    end.
Proof.
  induction inbound as [|message rest IH]; intros flag log g.
  - simpl. by rewrite app_nil_r.
  - cbn [converse expected_inputs]. unfold chat at 1. cbn [graph_state interrupted recording].
    assert (Hinput : chat_input flag message
                     = if flag then Resume message else Fresh [HumanMessage message])
      by reflexivity.
    rewrite Hinput.
    set (input := if flag then Resume message else Fresh [HumanMessage message]).
    destruct (invoke g input) as [g' [result|e|p|]]; try reflexivity.
    destruct (interrupts result) as [[|first values]|].
    + reflexivity.
    + cbn [bind]. destruct (question_of first) as [q|e|p|]; try reflexivity.
      cbn [bind]. specialize (IH true (log ++ [input]) g').
      destruct (converse (recording invoke) (mkOrchestrator true (log ++ [input], g')) rest)
        as [final replies].
      rewrite IH. by rewrite <- app_assoc.
    + specialize (IH false (log ++ [input]) g').
      destruct (converse (recording invoke) (mkOrchestrator false (log ++ [input], g')) rest)
        as [final replies].
      rewrite IH. by rewrite <- app_assoc.
Qed.

(** ** The resolved topic *)

Lemma slug_in_known (s : option string) (topics : list string) :
  slug_in s topics = true -> exists name, s = Some name /\ In name topics.
Proof.
  destruct s as [name|]; [|discriminate]. simpl. intros H.
  apply existsb_exists in H as (t & Ht & E). apply String.eqb_eq in E. subst.
  by exists t.
Qed.

(** X18. Unless the user accepts the guess of the model with [yes] or [y],
    the slug the resolution stage returns is a known topic or [None]; and
    [None] comes only after a question was answered: without a reply the
    stage completes with a known topic or not at all. *)
Theorem resolved_slug_is_known (env : Oracles) (fs : FS) (resume : option string)
    (state upd : ScoutState) :
  _resolve_topic env fs resume state = Ok upd ->
  (forall reply, resume = Some reply -> affirmative (strip (lower reply)) = false) ->
  exists topics,
    _get_available_topics fs = Ok topics
    /\ ((upd = slug_update VNone /\ is_Some resume)
        \/ exists name, In name topics /\ upd = slug_update (VStr name)).
Proof.
  unfold _resolve_topic. intros H Hreply.
  apply bind_Ok_inv in H as (topics & Htopics & H). exists topics. split; [done|].
  destruct topics as [|t0 rest].
  - apply bind_Ok_inv in H as (response & Hresp & [= <-]). left. split; [done|].
    destruct resume; [done|discriminate].
  - apply bind_Ok_inv in H as (prompt & _ & H).
    set (result := llm_resolve env prompt) in *.
    destruct (String.eqb (confidence result) "high" && slug_in (slug result) (t0 :: rest))
      eqn:Hhigh.
    + apply andb_prop in Hhigh as [_ Hin].
      apply slug_in_known in Hin as (name & Hname & Hin).
      injection H as <-. right. exists name. rewrite Hname. by split.
    + apply bind_Ok_inv in H as (response & Hresp & H).
      destruct resume as [reply|]; [|discriminate]. injection Hresp as <-.
      fold (affirmative (strip (lower reply))) in H.
      rewrite (Hreply reply eq_refl) in H. cbn [andb] in H.
      destruct (match_topic (strip (lower reply)) (t0 :: rest)) as [topic|] eqn:Hmatch.
      * injection H as <-. right. exists topic. split; [|done].
        unfold match_topic in Hmatch. by apply find_some in Hmatch as [? _].
      * injection H as <-. left. by split.
Qed.

(** The unsure model on the sample store, resumed with a reply that names
    a topic. *)
Lemma resolved_slug_is_known_witness :
  _resolve_topic Samples.unsure Samples.two_topics (Some "Metroidvania") Samples.scout_input
  = Ok (slug_update (VStr "metroidvania-games"))
  /\ exists topics,
       _get_available_topics Samples.two_topics = Ok topics
       /\ In "metroidvania-games" topics.
Proof.
  assert (Hrun :
    _resolve_topic Samples.unsure Samples.two_topics (Some "Metroidvania")
      Samples.scout_input
    = Ok (slug_update (VStr "metroidvania-games"))).
  { vm_compute. reflexivity. }
  assert (Hreply : forall reply,
    Some "Metroidvania" = Some reply -> affirmative (strip (lower reply)) = false).
  { intros reply [= <-]. vm_compute. reflexivity. }
  split; [exact Hrun|].
  destruct (resolved_slug_is_known Samples.unsure Samples.two_topics (Some "Metroidvania")
              Samples.scout_input _ Hrun Hreply)
    as (topics & Htopics & [[Hnone _]|(name & Hin & Hname)]).
  - discriminate Hnone.
  - exists topics. split; [exact Htopics|]. injection Hname as <-. exact Hin.
Defined.

(** ** The selected topic of the command line *)

Lemma index_of_member (topic : string) (topics : list string) :
  is_member topic topics = true ->
  (0 <= index_of topic topics < Z.of_nat (length topics))%Z
  /\ nth_error topics (Z.to_nat (index_of topic topics)) = Some topic.
Proof.
  unfold is_member. induction topics as [|t rest IH]; simpl; [discriminate|].
  rewrite (String.eqb_sym topic t). destruct (String.eqb t topic) eqn:E.
  - intros _. apply String.eqb_eq in E. subst. split; [lia|done].
  - simpl. intros H. destruct (IH H) as [Hrange Hnth]. split; [lia|].
    replace (Z.to_nat (1 + index_of topic rest)) with (S (Z.to_nat (index_of topic rest)))
      by lia.
    exact Hnth.
Qed.

Lemma selected_at_index (topic : string) (topics : list string) :
  is_member topic topics = true ->
  selected {| _topics := topics; _index := index_of topic topics |} = Some topic.
Proof.
  intros H. destruct (index_of_member _ _ H) as [Hrange Hnth]. unfold selected. simpl.
  replace (0 <=? index_of topic topics)%Z with true by (symmetry; apply Z.leb_le; lia).
  replace (index_of topic topics <? Z.of_nat (length topics))%Z with true
    by (symmetry; apply Z.ltb_lt; lia).
  exact Hnth.
Qed.

Lemma is_member_In (topic : string) (topics : list string) :
  is_member topic topics = true <-> In topic topics.
Proof.
  unfold is_member. rewrite existsb_exists. split.
  - intros (t & Ht & E). apply String.eqb_eq in E. by subst.
  - intros H. exists topic. split; [done|]. apply String.eqb_refl.
Qed.

(** X19. Selecting a topic by name and reading the selection back gives that
    topic, when the name is in the list held or, failing that, among the
    topics on disk; selecting nothing gives nothing. *)
Theorem selected_after_set (fs : FS) (ts : TopicState) (topic : string)
    (on_disk : list string) :
  get_topic_slugs fs = Ok on_disk ->
  In topic (_topics ts) \/ In topic on_disk ->
  (exists ts', set_selected fs ts (Some topic) = Ok ts' /\ selected ts' = Some topic)
  /\ (exists ts', set_selected fs ts None = Ok ts' /\ selected ts' = None).
Proof.
  intros Hdisk Hin. split.
  - unfold set_selected. destruct (is_member topic (_topics ts)) eqn:Hheld.
    + eexists. split; [reflexivity|]. by apply selected_at_index.
    + destruct Hin as [Hin|Hin].
      { apply is_member_In in Hin. congruence. }
      unfold refresh_topics. rewrite Hdisk. cbn [bind _topics].
      apply is_member_In in Hin. rewrite Hin.
      eexists. split; [reflexivity|]. by apply selected_at_index.
  - eexists. split; [reflexivity|]. done.
Qed.

(** A fresh state of the command line on the sample store. *)
Lemma selected_after_set_witness :
  (exists ts', set_selected Samples.two_topics {| _topics := []; _index := (-1)%Z |}
                 (Some "metroidvania-games") = Ok ts'
               /\ selected ts' = Some "metroidvania-games")
  /\ (exists ts', set_selected Samples.two_topics {| _topics := []; _index := (-1)%Z |} None
                  = Ok ts'
                  /\ selected ts' = None).
Proof.
  apply (selected_after_set Samples.two_topics {| _topics := []; _index := (-1)%Z |}
           "metroidvania-games" ["ai-safety"; "metroidvania-games"]).
  - vm_compute. reflexivity.
  - right. right. left. reflexivity.
Defined.

Lemma cycle_step (fs : FS) (topics : list string) (i : Z) :
  topics <> [] ->
  exists shown,
    cycle fs {| _topics := topics; _index := i |}
    = Ok ({| _topics := topics;
             _index := if (Z.of_nat (length topics) <=? i + 1)%Z then (-1)%Z
                       else (i + 1)%Z |}, shown).
Proof.
  intros H. unfold cycle. destruct topics as [|t rest]; [done|]. cbn [_topics bind _index].
  eexists. reflexivity.
Qed.

(** X20. Cycling walks through no selection and the topics in order, round
    after round: from the index [i], [n] calls lead to the index [(i + 1 +
    n) mod (len + 1) - 1], so [len + 1] calls lead back to where they
    started. *)
Theorem cycle_closed_form (fs : FS) (topics : list string) (n : nat) :
  topics <> [] ->
  forall i : Z,
    (-1 <= i < Z.of_nat (length topics))%Z ->
    cycle_times fs n {| _topics := topics; _index := i |}
    = Ok {| _topics := topics;
            _index := ((i + 1 + Z.of_nat n) mod (Z.of_nat (length topics) + 1) - 1)%Z |}
    /\ cycle_times fs (length topics + 1) {| _topics := topics; _index := i |}
       = Ok {| _topics := topics; _index := i |}.
Proof.
  intros Hsome.
  assert (Hform : forall n i,
    (-1 <= i < Z.of_nat (length topics))%Z ->
    cycle_times fs n {| _topics := topics; _index := i |}
    = Ok {| _topics := topics;
            _index := ((i + 1 + Z.of_nat n) mod (Z.of_nat (length topics) + 1) - 1)%Z |}).
  { clear n. induction n as [|n IH]; intros i Hi.
    - simpl. rewrite Z.add_0_r, Z.mod_small by lia. do 2 f_equal. lia.
    - cbn [cycle_times]. destruct (cycle_step fs topics i Hsome) as [shown ->].
      cbn [bind]. destruct (Z.leb_spec (Z.of_nat (length topics)) (i + 1)) as [Hlast|Hmore].
      + rewrite IH by lia. do 2 f_equal.
        replace (i + 1 + Z.of_nat (S n))%Z
          with (Z.of_nat n + 1 * (Z.of_nat (length topics) + 1))%Z by lia.
        rewrite Z_mod_plus_full. do 2 f_equal.
      + rewrite IH by lia.
        by replace (i + 1 + 1 + Z.of_nat n)%Z with (i + 1 + Z.of_nat (S n))%Z by lia. }
  intros i Hi. split; [by apply Hform|].
  rewrite Hform by done. do 2 f_equal.
  replace (i + 1 + Z.of_nat (length topics + 1))%Z
    with (i + 1 + 1 * (Z.of_nat (length topics) + 1))%Z by lia.
  rewrite Z_mod_plus_full, Z.mod_small by lia. lia.
Qed.

(** Two topics, the first selected, and five calls. *)
Lemma cycle_closed_form_witness :
  cycle_times Samples.two_topics 5 {| _topics := ["a"; "b"]; _index := 0%Z |}
  = Ok {| _topics := ["a"; "b"];
          _index := ((0 + 1 + Z.of_nat 5) mod (Z.of_nat (length ["a"; "b"]) + 1) - 1)%Z |}
  /\ cycle_times Samples.two_topics (length ["a"; "b"] + 1)
       {| _topics := ["a"; "b"]; _index := 0%Z |}
     = Ok {| _topics := ["a"; "b"]; _index := 0%Z |}.
Proof.
  apply (cycle_closed_form Samples.two_topics ["a"; "b"] 5).
  - discriminate.
  - simpl. lia.
Defined.

(** ** The brief storage *)

Lemma url_set_strict_members (links : list PyVal) :
  Forall link_with_url links ->
  forall acc, exists urls,
    url_set_strict links acc = Ok urls
    /\ forall u, existsb (key_eqb u) urls
                 = existsb (key_eqb u) acc || existsb (key_eqb u) (map link_url links).
Proof.
  induction 1 as [|l rest (d & x & -> & Hx & Hh) _ IH]; intros acc; simpl.
  - exists acc. split; [done|]. intros u. by rewrite orb_false_r.
  - rewrite Hx. cbn [bind]. unfold set_add, in_set. rewrite Hh. cbn [bind].
    destruct (IH (if existsb (key_eqb x) acc then acc else acc ++ [x])) as (urls & -> & Hm).
    exists urls. split; [done|]. intros u. rewrite Hm. simpl.
    destruct (existsb (key_eqb x) acc) eqn:Hp.
    + destruct (key_eqb u x) eqn:E; simpl; [|done].
      rewrite key_eqb_sym in E. by rewrite (member_of_equal u x acc E), Hp.
    + rewrite existsb_app. simpl. rewrite orb_false_r. by rewrite <- !orb_assoc.
Qed.

Lemma append_new_spec (date : string) (urls : list PyVal) (arts : list CuratedArticle) :
  forall l,
    append_new date arts urls (VList l)
    = Ok (VList (l ++ map (fun a => brief_record a date) (new_curated urls arts))).
Proof.
  unfold new_curated. induction arts as [|a rest IH]; intros l; simpl.
  - by rewrite app_nil_r.
  - rewrite filter_cons. destruct (existsb (key_eqb (VStr (art_url a))) urls) eqn:E.
    + rewrite decide_False by done. apply IH.
    + rewrite decide_True by done. simpl. rewrite IH. by rewrite <- app_assoc.
Qed.

Lemma load_brief_links (entries children : gmap string Node) (slug : string)
    (links : list PyVal) :
  single_name slug ->
  entries !! slug = Some (Dir children) ->
  holds_links children links ->
  Forall link_with_url links ->
  load_brief (Some (Dir entries)) slug = Ok (map link_url links).
Proof.
  intros Hname Hdir Hfile Hlinks. unfold load_brief. rewrite Hname. cbn [bind].
  change (path_div [slug] (VStr "links.yaml")) with (Ok (A:=Path) [slug; "links.yaml"]).
  cbn [bind].
  pose proof (load_existing_holds _ _ _ _ Hdir Hfile) as Hload.
  unfold load_existing in Hload.
  destruct (path_exists (Some (Dir entries)) [slug; "links.yaml"]); cbn [negb].
  - apply bind_Ok_inv in Hload as (doc & -> & [= Hdoc]). cbn [bind]. rewrite Hdoc.
    cbn [iterate bind]. by apply link_urls_of_links.
  - injection Hload as <-. done.
Qed.

Lemma save_brief_store (today : string) (entries children : gmap string Node)
    (slug : string) (links : list PyVal) (curation : CurationOutput) :
  single_name slug ->
  entries !! slug = Some (Dir children) ->
  holds_links children links ->
  Forall link_with_url links ->
  exists urls,
    url_set_strict links [] = Ok urls
    /\ (forall u, existsb (key_eqb u) urls = existsb (key_eqb u) (map link_url links))
    /\ save_brief today (Some (Dir entries)) slug curation
       = Ok (with_links entries children slug
               (Doc (VList (links ++ map (fun a => brief_record a today)
                                         (new_curated urls (articles curation))))),
             [slug; "links.yaml"]).
Proof.
  intros Hname Hdir Hfile Hlinks.
  destruct (url_set_strict_members links Hlinks []) as (urls & Hurls & Hm).
  exists urls. split; [done|]. split; [intros u; by rewrite Hm|].
  unfold save_brief. rewrite Hname. cbn [bind].
  replace (path_exists (Some (Dir entries)) [slug]) with true
    by (unfold path_exists, lookup_path; simpl; by rewrite Hdir).
  cbn [negb].
  change (path_div [slug] (VStr "links.yaml")) with (Ok (A:=Path) [slug; "links.yaml"]).
  cbn [bind]. fold (load_existing (Some (Dir entries)) [slug; "links.yaml"]).
  rewrite (load_existing_holds _ _ _ _ Hdir Hfile). cbn [bind iterate].
  rewrite Hurls. cbn [bind]. rewrite append_new_spec. cbn [bind].
  by rewrite (dump_links_quoted _ _ _ _ _ Hdir Hfile).
Qed.

Lemma new_curated_none (urls : list PyVal) (arts : list CuratedArticle) :
  (forall a, a ∈ arts -> existsb (key_eqb (VStr (art_url a))) urls = true) ->
  new_curated urls arts = [].
Proof.
  unfold new_curated. induction arts as [|a rest IH]; intros Hall; [done|].
  rewrite filter_cons, decide_False.
  - apply IH. intros x Hx. apply Hall. by right.
  - rewrite Hall by left. done.
Qed.

(** X21. A brief saved is a brief loaded: after [save_brief], [load_brief]
    returns the URLs that were on file followed by the URLs of the curated
    articles that were not; and saving the same curation again leaves the
    store as it is. *)
Theorem brief_saved_then_loaded (today : string) (entries children : gmap string Node)
    (slug : string) (links : list PyVal) (curation : CurationOutput) :
  single_name slug ->
  entries !! slug = Some (Dir children) ->
  holds_links children links ->
  Forall link_with_url links ->
  exists fs' urls,
    url_set_strict links [] = Ok urls
    /\ save_brief today (Some (Dir entries)) slug curation = Ok (fs', [slug; "links.yaml"])
    /\ load_brief (Some (Dir entries)) slug = Ok (map link_url links)
    /\ load_brief fs' slug
       = Ok (map link_url links
             ++ map (fun a => VStr (art_url a)) (new_curated urls (articles curation)))
    /\ save_brief today fs' slug curation = Ok (fs', [slug; "links.yaml"]).
Proof.
  intros Hname Hdir Hfile Hlinks.
  destruct (save_brief_store today _ _ _ _ curation Hname Hdir Hfile Hlinks)
    as (urls & Hurls & Hm & Hsave).
  eexists; exists urls. split; [done|]. split; [exact Hsave|].
  split; [by eapply load_brief_links|].
  set (links' := links ++ map (fun a => brief_record a today)
                              (new_curated urls (articles curation))).
  set (children' := <["links.yaml" := File (Doc (VList links'))]> children).
  assert (Hdir' : <[slug := Dir children']> entries !! slug = Some (Dir children'))
    by apply lookup_insert_eq.
  assert (Hfile' : holds_links children' links') by (right; apply lookup_insert_eq).
  assert (Hlinks' : Forall link_with_url links').
  { apply Forall_app. split; [done|]. apply Forall_map, Forall_forall. intros a _.
    eexists _, (VStr (art_url a)). split; [reflexivity|]. by split. }
  assert (Hurl : map link_url links'
                 = map link_url links
                   ++ map (fun a => VStr (art_url a)) (new_curated urls (articles curation))).
  { subst links'. rewrite map_app. f_equal. by rewrite map_map. }
  split.
  - rewrite <- Hurl. unfold with_links. by eapply load_brief_links.
  - destruct (save_brief_store today _ _ _ _ curation Hname Hdir' Hfile' Hlinks')
      as (urls' & _ & Hm' & Hsave').
    assert (Hall : forall a, a ∈ articles curation ->
                     existsb (key_eqb (VStr (art_url a))) urls' = true).
    { intros a Ha. rewrite Hm', Hurl, existsb_app.
      destruct (existsb (key_eqb (VStr (art_url a))) urls) eqn:Hold.
      - by rewrite <- Hm, Hold.
      - apply orb_true_iff. right. apply existsb_exists. exists (VStr (art_url a)).
        split; [|apply String.eqb_refl].
        apply in_map_iff. exists a. split; [done|]. apply list_elem_of_In.
        unfold new_curated. by apply list_elem_of_filter. }
    pose proof (new_curated_none _ _ Hall) as Hnone.
    change (with_links entries children slug (Doc (VList links')))
      with (Some (Dir (<[slug := Dir children']> entries))).
    rewrite Hsave', Hnone. simpl. rewrite app_nil_r. unfold with_links.
    subst children'. by rewrite !insert_insert_eq.
Qed.

(** The sample curation saved for the topic that has one link. *)
Lemma brief_saved_then_loaded_witness :
  exists fs' urls,
    url_set_strict [Shelf.old_link] [] = Ok urls
    /\ save_brief "2026-01-01" (Some (Dir Shelf.one_stocked_topic)) "ai-safety" Shelf.curation
       = Ok (fs', ["ai-safety"; "links.yaml"])
    /\ load_brief (Some (Dir Shelf.one_stocked_topic)) "ai-safety"
       = Ok (map link_url [Shelf.old_link])
    /\ load_brief fs' "ai-safety"
       = Ok (map link_url [Shelf.old_link]
             ++ map (fun a => VStr (art_url a))
                  (new_curated urls (articles Shelf.curation)))
    /\ save_brief "2026-01-01" fs' "ai-safety" Shelf.curation
       = Ok (fs', ["ai-safety"; "links.yaml"]).
Proof.
  apply (brief_saved_then_loaded "2026-01-01" Shelf.one_stocked_topic Shelf.stocked
           "ai-safety" [Shelf.old_link] Shelf.curation).
  - vm_compute. reflexivity.
  - vm_compute. reflexivity.
  - right. vm_compute. reflexivity.
  - constructor; [|constructor]. eexists _, _. split; [reflexivity|]. split; reflexivity.
Defined.

(** ** The web search, continued *)

Lemma for_each_preserves {A : Type} (P : SearchState -> Prop) (body : A -> Step unit)
    (l : list A) :
  (forall x st, P st -> P (fst (body x st))) ->
  forall st, P st -> P (fst (for_each body l st)).
Proof.
  intros Hbody. induction l as [|x l IH]; intros st Hst; simpl; [done|].
  unfold step_bind. specialize (Hbody x st Hst).
  destruct (body x st) as [st' [[]| | |]]; simpl in *; auto.
Qed.

Lemma process_result_seen (c : Client) (r : PyVal) (st : SearchState) :
  seen_invariant st -> seen_invariant (fst (process_result c r st)).
Proof.
  intros (Hd & Ht & Hin).
  unfold process_result, step_bind, pure, get_seen, add_seen, append_result.
  destruct (py_get r "url" VNone) as [url| | |]; simpl; try (repeat split; assumption).
  destruct (truthy url) eqn:Htruthy; simpl; [|repeat split; assumption].
  destruct (in_set url (seen_urls st)) as [present| | |] eqn:Hset; simpl;
    try (repeat split; assumption).
  destruct present; simpl; [repeat split; assumption|].
  apply in_set_Ok in Hset.
  assert (Hin' : Forall (fun u => In u (seen_urls st ++ [url])) (hit_urls (results st))).
  { eapply Forall_impl; [exact Hin|]. intros u Hu. apply in_or_app. by left. }
  assert (Hd' : all_distinct (seen_urls st ++ [url]) = true)
    by (by apply all_distinct_snoc).
  assert (Ht' : Forall (fun u => truthy u = true) (seen_urls st ++ [url])).
  { apply Forall_app. split; [done|]. by repeat constructor. }
  destruct (format_hit c r url) as [block| | |]; simpl; try (repeat split; assumption).
  unfold seen_invariant; simpl. rewrite hit_urls_app. simpl.
  split; [done|]. split; [done|].
  apply Forall_app. split; [done|].
  constructor; [|constructor]. apply in_or_app. right. by left.
Qed.

Lemma run_query_seen (c : Client) (q : string) (st : SearchState) :
  seen_invariant st -> seen_invariant (fst (run_query c q st)).
Proof.
  intros Hst. unfold run_query, try_step.
  match goal with |- context [match ?b st with _ => _ end] => set (body := b) end.
  assert (Hbody : seen_invariant (fst (body st))).
  { subst body. unfold step_bind, pure.
    destruct (of_sum (search c q)); simpl; try done.
    destruct (py_get a "results" (VList [])); simpl; try done.
    destruct (iterate a0); simpl; try done.
    apply for_each_preserves; [|done]. intros. by apply process_result_seen. }
  destruct (body st) as [st' [[]| | |]]; simpl in *; try done.
  unfold append_result, seen_invariant. simpl. destruct Hbody as (Hd & Ht & Hin).
  rewrite hit_urls_app. simpl. by rewrite app_nil_r.
Qed.

(** X22. Whatever the searches return, over all the queries: the set of seen
    URLs holds no URL twice, and every hit carries a URL that is truthy and
    a member of that set; a result without URL, or with an empty one, is
    never a hit. *)
Theorem search_hits_have_urls (c : Client) (queries : list string) :
  let final := fst (run_queries c queries initial_state) in
  all_distinct (seen_urls final) = true
  /\ Forall (fun u => truthy u = true /\ In u (seen_urls final)) (hit_urls (results final)).
Proof.
  intros final.
  assert (Hinv : seen_invariant final).
  { apply (for_each_preserves seen_invariant (run_query c) queries).
    - intros. by apply run_query_seen.
    - repeat split; constructor. }
  destruct Hinv as (Hd & Ht & Hin). split; [done|].
  rewrite Forall_forall in Ht. eapply Forall_impl; [exact Hin|].
  intros u Hu. split; [|done]. apply Ht. by apply list_elem_of_In.
Qed.




(** ** The trimmer and the handoffs, continued *)

(** X24. Trimming is idempotent, and it never drops the newest message:
    when the hook returns a list, the list has sixteen messages, the last
    of them is the last message stored, and the hook called on that list
    returns [None]. *)
Theorem trim_messages_idempotent (state : AgentState) (window : list Held) :
  snd (Base.trim_messages state) = Some window ->
  snd (Base.trim_messages {| agent_messages := Some window |}) = None
  /\ length window = 16
  /\ last window = last (state_get (agent_messages state) []).
Proof.
  unfold Base.trim_messages, Base.MAX_MESSAGES.
  set (stored := state_get (agent_messages state) []).
  destruct (length stored <=? 16)%nat eqn:Hle; simpl; [discriminate|].
  intros [= <-]. apply Nat.leb_gt in Hle.
  assert (Hlen : length (Base.last_n 16 stored) = 16).
  { rewrite last_n_length. lia. }
  rewrite Hlen. simpl. split; [done|]. split; [done|].
  unfold Base.last_n. rewrite !last_lookup, lookup_drop, length_drop. f_equal. lia.
Qed.

(** Twenty messages held: the hook returns the last sixteen. *)
Lemma trim_messages_idempotent_witness :
  snd (Base.trim_messages {| agent_messages := Some Samples.twenty |})
  = Some (drop 4 Samples.twenty)
  /\ snd (Base.trim_messages {| agent_messages := Some (drop 4 Samples.twenty) |}) = None
  /\ length (drop 4 Samples.twenty) = 16
  /\ last (drop 4 Samples.twenty) = last Samples.twenty.
Proof.
  assert (Hreturned :
    snd (Base.trim_messages {| agent_messages := Some Samples.twenty |})
    = Some (drop 4 Samples.twenty)) by (vm_compute; reflexivity).
  split; [exact Hreturned|].
  exact (trim_messages_idempotent {| agent_messages := Some Samples.twenty |}
           (drop 4 Samples.twenty) Hreturned).
Defined.

Lemma find_last_ai (before after : list Message) (m : Message) :
  is_AIMessage m = true ->
  Forall not_ai after ->
  last_ai_message (before ++ m :: after) = Some m.
Proof.
  intros Hm Hafter. unfold last_ai_message. rewrite rev_app_distr. simpl.
  rewrite <- app_assoc. simpl.
  assert (Hrev : Forall not_ai (rev after)) by (by apply Forall_rev).
  induction Hrev as [|x rest Hx _ IH]; simpl.
  - by rewrite Hm.
  - unfold not_ai in Hx. by rewrite Hx.
Qed.

(** X25. A handoff carries the call that made it: the update holds the last
    [AIMessage] of the messages the tool was run on, then the transfer note,
    and nothing else; run on messages without any [AIMessage] it holds the
    note alone. *)
Theorem handoff_carries_last_call (before after : list Message) (content : string)
    (calls : list ToolCall) (task topic_slug id : string) :
  Forall not_ai after ->
  let note :=
    ToolMessage ("Transferring to ContentScout: " +:+ task +:+ " (topic: "
                 +:+ topic_slug +:+ ")") id in
  messages (update (handoff_to_scout task topic_slug
                      {| rt_messages := before ++ AIMessage content calls :: after;
                         rt_tool_call_id := id |}))
  = Some [AIMessage content calls; note]
  /\ messages (update (handoff_to_scout task topic_slug
                         {| rt_messages := after; rt_tool_call_id := id |}))
     = Some [note].
Proof.
  intros Hafter note. split; simpl; unfold handoff_messages; simpl.
  - by rewrite find_last_ai.
  - replace (last_ai_message after) with (@None Message); [done|].
    unfold last_ai_message.
    assert (Hrev : Forall not_ai (rev after)) by (by apply Forall_rev).
    induction Hrev as [|x rest Hx _ IH]; simpl; [done|].
    unfold not_ai in Hx. by rewrite Hx.
Qed.

(** A handoff called after an earlier tool result. *)
Lemma handoff_carries_last_call_witness :
  messages (update (handoff_to_scout "find" "ai-safety"
                      {| rt_messages :=
                           [HumanMessage "hi"]
                           ++ AIMessage EmptyString [mkToolCall "handoff_to_scout" "call_1"]
                              :: [ToolMessage "noted" "call_0"];
                         rt_tool_call_id := "call_1" |}))
  = Some [AIMessage EmptyString [mkToolCall "handoff_to_scout" "call_1"];
          ToolMessage ("Transferring to ContentScout: " +:+ "find" +:+ " (topic: "
                       +:+ "ai-safety" +:+ ")") "call_1"]
  /\ messages (update (handoff_to_scout "find" "ai-safety"
                         {| rt_messages := [ToolMessage "noted" "call_0"];
                            rt_tool_call_id := "call_1" |}))
     = Some [ToolMessage ("Transferring to ContentScout: " +:+ "find" +:+ " (topic: "
                          +:+ "ai-safety" +:+ ")") "call_1"].
Proof.
  apply (handoff_carries_last_call [HumanMessage "hi"] [ToolMessage "noted" "call_0"]
           EmptyString [mkToolCall "handoff_to_scout" "call_1"] "find" "ai-safety" "call_1").
  constructor; [reflexivity|]. constructor.
Defined.

(** ** The fenced block of a reply *)

Lemma prefix_other (c : ascii) (needle s : string) :
  (nat_of_ascii c =? 96)%nat = false ->
  String.prefix (String "`" needle) (String c s) = false.
Proof.
  intros H.
  change (String.prefix (String "`" needle) (String c s))
    with (if ascii_dec "`" c then String.prefix needle s else false).
  destruct (ascii_dec "`" c) as [<-|Hne]; [|done].
  vm_compute in H. discriminate.
Qed.

Lemma space_is_no_backquote (c : ascii) : isspace c = true -> (nat_of_ascii c =? 96)%nat = false.
Proof. destruct c as [[] [] [] [] [] [] [] []]; simpl; done. Qed.

Lemma lstrip_spaces (ws s : string) : all_space ws = true -> lstrip (ws +:+ s) = lstrip s.
Proof.
  induction ws as [|c ws IH]; simpl; [done|].
  intros [Hc Hws]%andb_prop. rewrite Hc. by apply IH.
Qed.

Lemma after_first_fence (pre rest : string) :
  no_backquote pre = true ->
  Re.after_first "```json" (pre +:+ "```json" +:+ rest) = Some rest.
Proof.
  induction pre as [|c pre IH]; [intros _; by destruct rest|].
  intros [Hc Hpre]%andb_prop. apply negb_true_iff in Hc.
  change (String c pre +:+ "```json" +:+ rest) with (String c (pre +:+ "```json" +:+ rest)).
  cbn [Re.after_first]. rewrite prefix_other by done. by apply IH.
Qed.

Lemma after_first_none (s : string) :
  no_backquote s = true -> Re.after_first "```json" s = None.
Proof.
  induction s as [|c s IH]; [done|].
  intros [Hc Hs]%andb_prop. apply negb_true_iff in Hc.
  cbn [Re.after_first]. rewrite prefix_other by done. by apply IH.
Qed.

Lemma rstrip_tail (c : ascii) (b : string) :
  rstrip (String c b) = String c b ->
  rstrip b = b /\ (b = EmptyString -> isspace c = false).
Proof.
  simpl. destruct (rstrip b) as [|k kept] eqn:E.
  - destruct (isspace c); [discriminate|]. intros [= <-]. by split.
  - intros [= <-]. split; [done|discriminate].
Qed.

(** Inside a block without backquotes and without trailing whitespace,
    no position is followed by whitespace and a fence only. *)
Lemma clean_block_no_fence (b rest : string) :
  no_backquote b = true ->
  rstrip b = b ->
  b <> EmptyString ->
  String.prefix "```" (lstrip (b +:+ rest)) = false.
Proof.
  induction b as [|c b IH]; [done|].
  intros [Hc Hb]%andb_prop Hr _. apply negb_true_iff in Hc.
  apply rstrip_tail in Hr as [Hr Hlast].
  change (String c b +:+ rest) with (String c (b +:+ rest)). cbn [lstrip].
  destruct (isspace c) eqn:Hspace.
  - apply IH; [done|done|]. intros ->. specialize (Hlast eq_refl). congruence.
  - by apply prefix_other.
Qed.

Lemma lazy_group_block (block rest : string) :
  no_backquote block = true ->
  rstrip block = block ->
  String.prefix "```" (lstrip rest) = true ->
  Re.lazy_group_until_fence (block +:+ rest) = Some block.
Proof.
  intros Hb Hr Hrest. induction block as [|c b IH].
  - change (EmptyString +:+ rest) with rest.
    destruct rest as [|d rest]; cbn [Re.lazy_group_until_fence]; by rewrite Hrest.
  - pose proof (clean_block_no_fence (String c b) rest Hb Hr) as Hno.
    apply andb_prop in Hb as [Hc Hb]. apply rstrip_tail in Hr as [Hr _].
    change (String c b +:+ rest) with (String c (b +:+ rest)) in *.
    cbn [Re.lazy_group_until_fence]. rewrite Hno by done. by rewrite IH.
Qed.

(** X26. Prose around the fenced block is ignored. In a reply that holds,
    after text without backquotes, an opening fence tagged json, whitespace,
    a block without backquotes that neither starts nor ends with whitespace,
    whitespace and a closing fence, the search finds exactly the block,
    whatever follows; in the block alone it finds nothing; so whenever the
    block decodes, the reply is read as the block alone would be. *)
Theorem fenced_block_found (pre ws1 block ws2 post : string) :
  no_backquote pre = true ->
  all_space ws1 = true ->
  no_backquote block = true ->
  lstrip block = block ->
  rstrip block = block ->
  all_space ws2 = true ->
  let content := pre +:+ "```json" +:+ ws1 +:+ block +:+ ws2 +:+ "```" +:+ post in
  Re.search_json_fence content = Some block
  /\ Re.search_json_fence block = None
  /\ (forall data, Json.json_loads block = Ok data -> parse_reply content = parse_reply block).
Proof.
  intros Hpre Hws1 Hblock Hl Hr Hws2 content.
  assert (Hfound : Re.search_json_fence content = Some block).
  { unfold Re.search_json_fence, content. rewrite after_first_fence by done.
    rewrite lstrip_spaces by done.
    assert (Hrest : String.prefix "```" (lstrip (ws2 +:+ "```" +:+ post)) = true).
    { rewrite lstrip_spaces by done. by destruct post. }
    destruct block as [|c b] eqn:Hb.
    - change (EmptyString +:+ ws2 +:+ "```" +:+ post) with (ws2 +:+ "```" +:+ post).
      rewrite lstrip_spaces by done.
      replace (lstrip ("```" +:+ post)) with ("```" +:+ post) by reflexivity.
      apply (lazy_group_block EmptyString ("```" +:+ post)); [done|done|].
      by destruct post.
    - rewrite <- Hb in *.
      assert (Hkeep : lstrip (block +:+ ws2 +:+ "```" +:+ post)
                      = block +:+ ws2 +:+ "```" +:+ post).
      { rewrite Hb in Hl |- *. simpl in Hl |- *.
        destruct (isspace c) eqn:Hc; [|done].
        exfalso. assert (Hlen : String.length (lstrip b) <= String.length b).
        { clear. induction b as [|d b IH]; simpl; [lia|].
          destruct (isspace d); simpl; lia. }
        rewrite Hl in Hlen. simpl in Hlen. lia. }
      rewrite Hkeep. by apply lazy_group_block. }
  assert (Hnone : Re.search_json_fence block = None).
  { unfold Re.search_json_fence. by rewrite after_first_none. }
  split; [done|]. split; [done|].
  intros data Hdata. unfold parse_reply. rewrite Hfound, Hnone, Hdata.
  by destruct data.
Qed.

(** An empty object in a fence, with prose before and after. *)
Lemma fenced_block_found_witness :
  Re.search_json_fence ("Here: " +:+ "```json" +:+ LF +:+ "{}" +:+ LF +:+ "```" +:+ " Bye.")
  = Some "{}"
  /\ Re.search_json_fence "{}" = None
  /\ (forall data,
        Json.json_loads "{}" = Ok data ->
        parse_reply ("Here: " +:+ "```json" +:+ LF +:+ "{}" +:+ LF +:+ "```" +:+ " Bye.")
        = parse_reply "{}").
Proof.
  apply (fenced_block_found "Here: " LF "{}" LF " Bye."); reflexivity.
Defined.

(** ** The listings *)





(** ** The slash commands *)

(** X29. The dispatch of the slash commands: [topics] answers what the
    listing tool answers; the loop is left on [exit] and on nothing else,
    and then without output; a name that is no command is reported as
    unknown. *)
Theorem command_dispatch (fs : FS) (cmd : string) (args : list string) :
  Commands.handle_command fs "topics" args
  = (let* text := list_topics fs in Ok (Some text, false))
  /\ (forall out, Commands.handle_command fs cmd args = Ok (out, true)
                  <-> cmd = "exit" /\ out = None)
  /\ (assoc cmd Commands.COMMANDS = None ->
      Commands.handle_command fs cmd args
      = Ok (Some ("Unknown command: /" +:+ cmd), false)).
Proof.
  split; [|split].
  - unfold Commands.handle_command, list_topics. simpl. unfold Commands.cmd_topics.
    destruct (get_topic_slugs fs) as [[|t rest]| | |]; reflexivity.
  - intros out. unfold Commands.handle_command, Commands.EXIT_COMMANDS. cbn [existsb].
    rewrite orb_false_r. destruct (String.eqb_spec cmd "exit") as [->|Hne].
    + split; [by intros [= <-]|]. by intros [_ ->].
    + split; [|by intros [? _]].
      destruct (assoc cmd Commands.COMMANDS) as [command|]; [|intros [=]].
      intros H. apply bind_Ok_inv in H as (output & _ & [=]).
  - intros Hnone. unfold Commands.handle_command.
    destruct (existsb (String.eqb cmd) Commands.EXIT_COMMANDS) eqn:Hexit.
    + simpl in Hexit. rewrite orb_false_r in Hexit. apply String.eqb_eq in Hexit.
      subst. discriminate Hnone.
    + by rewrite Hnone.
Qed.


